(** * EduEra adaptive quiz platform: a shallow embedding of its decision logic

    The development follows the repository's layout:

    - [JS]          the JavaScript built-ins the code relies on
                    ([parseInt], [parseFloat], [toLowerCase], [trim],
                    [Math.round], truthiness of query values);
    - [Quiz]        the React component [Quiz] (frontend): the level
                    engine [calculateNewLevel], the score, the submit
                    handler, the results view and the emotion sampling;
    - [Performance] the React component [Performance] (frontend): the
                    banded performance score and the completion statistics;
    - [Server]      the Express handlers of [backend/server.js]: quiz level
                    selection, quiz-in-progress records, the chat
                    endpoints, therapist assignment, quiz results and
                    quiz history, over an explicit database state;
    - [Client]      the requests the [Quiz] and [Dashboard] components
                    send to those handlers, and what the dashboard
                    makes of the answers.

    The five modules hold the embedding.  They are followed by the
    vocabulary the statements are written in, and then by the
    statements and their proofs, one section per part of the system.

    Numbers.  Levels, scores and counters are JavaScript numbers holding
    integers; they are modelled in [Z].  The two places where the code
    leaves the integers are modelled as they are: halving a score
    ([score * 0.5], exact in binary64) in [Q], and the percentage
    [Math.round((a / b) * 100)] on binary64 floats ([PrimFloat]).

    Strings are 8-bit [string]s; the built-ins are modelled on ASCII. *)

From Stdlib Require Import ZArith QArith List String Ascii Bool Lia.
From Stdlib Require Import Floats Uint63 DecimalString Permutation.
Import ListNotations.

Local Open Scope Z_scope.

(* ================================================================== *)
(** * JavaScript built-ins                                             *)
(* ================================================================== *)

Module JS.

(** A query or body value that may be absent ([undefined]).  Query
    parameters are taken as single strings (no repeated or bracketed
    names). *)
Definition value := option string.

(** [if (v)] on a string-or-undefined value: [undefined] and [''] are
    falsy, every other string (including ['0']) is truthy. *)
Definition truthy (v : value) : bool :=
  match v with
  | None | Some EmptyString => false
  | Some _ => true
  end.

(** [if (n)] on a number-or-undefined value: [undefined] and [0] are
    falsy. *)
Definition truthy_num (v : option Z) : bool :=
  match v with
  | None | Some 0 => false
  | Some _ => true
  end.

(** ASCII members of [WhiteSpace] and [LineTerminator]:
    TAB, LF, VT, FF, CR, SP. *)
Definition is_ws (c : ascii) : bool :=
  let n := nat_of_ascii c in
  ((9 <=? n)%nat && (n <=? 13)%nat) || (n =? 32)%nat.

Fixpoint trimStart (s : string) : string :=
  match s with
  | String c r => if is_ws c then trimStart r else s
  | EmptyString => EmptyString
  end.

Fixpoint rev_string (s acc : string) : string :=
  match s with
  | String c r => rev_string r (String c acc)
  | EmptyString => acc
  end.

(** [String.prototype.trim]. *)
Definition trim (s : string) : string :=
  rev_string (trimStart (rev_string (trimStart s) EmptyString)) EmptyString.

(** [String.prototype.toLowerCase] on ASCII letters. *)
Definition lower_char (c : ascii) : ascii :=
  let n := nat_of_ascii c in
  if ((65 <=? n)%nat && (n <=? 90)%nat)%bool then ascii_of_nat (n + 32) else c.

Fixpoint toLowerCase (s : string) : string :=
  match s with
  | String c r => String (lower_char c) (toLowerCase r)
  | EmptyString => EmptyString
  end.

(** Value of a character as a digit in some radix up to 16;
    the caller compares it with the radix. *)
Definition digit_val (c : ascii) : option Z :=
  let n := Z.of_nat (nat_of_ascii c) in
  if (48 <=? n) && (n <=? 57) then Some (n - 48)
  else if (97 <=? n) && (n <=? 102) then Some (n - 87)
  else if (65 <=? n) && (n <=? 70) then Some (n - 55)
  else None.

(** Longest prefix of radix-[R] digits; [acc = None] while no digit has
    been read. *)
Fixpoint digits_value (R : Z) (s : string) (acc : option Z) : option Z :=
  match s with
  | String c r =>
      match digit_val c with
      | Some d =>
          if d <? R
          then digits_value R r
                 (Some (match acc with Some a => a * R + d | None => d end))
          else acc
      | None => acc
      end
  | EmptyString => acc
  end.

(** Sign prefix shared by [parseInt] and [parseFloat]:
    [(negative, rest)]. *)
Definition strip_sign (s : string) : bool * string :=
  match s with
  | String "-"%char r => (true, r)
  | String "+"%char r => (false, r)
  | _ => (false, s)
  end.

(** [parseInt(s)] with no radix argument.  [None] is [NaN].  Leading
    white space is skipped, a sign is read, a [0x]/[0X] prefix selects
    radix 16, and the longest digit prefix is converted. *)
Definition parseInt (s : string) : option Z :=
  let '(neg, s1) := strip_sign (trimStart s) in
  let '(R, s2) :=
    match s1 with
    | String "0"%char (String "x"%char r) => (16, r)
    | String "0"%char (String "X"%char r) => (16, r)
    | _ => (10, s1)
    end in
  match digits_value R s2 None with
  | Some n => Some (if neg then - n else n)
  | None => None
  end.

(** A JavaScript number as produced by [parseFloat]. *)
Inductive number :=
| NaN
| Infinity (negative : bool)
| Finite (q : Q).

(** Reads decimal digits: [(value, how many, rest)], continuing from
    an accumulated value and count. *)
Fixpoint read_digits (s : string) (acc : Z) (n : Z) : Z * Z * string :=
  match s with
  | String c r =>
      let d := Z.of_nat (nat_of_ascii c) - 48 in
      if (0 <=? d) && (d <=? 9) then read_digits r (acc * 10 + d) (n + 1)
      else (acc, n, s)
  | EmptyString => (acc, n, s)
  end.

(** [ExponentPart]: [e] or [E], an optional sign, at least one digit;
    it is read only when complete, otherwise the exponent is 0. *)
Definition read_exponent (s : string) : Z :=
  match s with
  | String c r =>
      if (Ascii.eqb c "e" || Ascii.eqb c "E")%bool then
        let '(neg, r1) := strip_sign r in
        let '(e, n, _) := read_digits r1 0 0 in
        if 0 <? n then (if neg then - e else e) else 0
      else 0
  | EmptyString => 0
  end.

(** [m * 10 ^ e] as a rational. *)
Definition scale10 (m e : Z) : Q :=
  if 0 <=? e then inject_Z (m * 10 ^ e)
  else Qmake m (Z.to_pos (10 ^ (- e))).

Definition starts_with (p s : string) : bool := String.prefix p s.

(** [parseFloat(s)]: the longest prefix that is a [StrDecimalLiteral].
    The result is the exact decimal value of that literal.  JavaScript
    rounds it to binary64; the tests the handlers apply to a parsed
    score ([>= 80], [< 50]) are unchanged by that rounding unless the
    literal lies within [2^-47] of a threshold without being equal to
    it. *)
Definition parseFloat (s : string) : number :=
  let '(neg, s1) := strip_sign (trimStart s) in
  if starts_with "Infinity" s1 then Infinity neg
  else
    let '(i, ni, s2) := read_digits s1 0 0 in
    let '(m, nf, s3) :=
      match s2 with
      | String "."%char r =>
          let '(m, nf, r') := read_digits r i 0 in
          if (0 <? ni) || (0 <? nf) then (m, nf, r') else (i, 0, s2)
      | _ => (i, 0, s2)
      end in
    if (0 <? ni) || (0 <? nf) then
      let q := scale10 m (read_exponent s3 - nf) in
      Finite (if neg then Qopp q else q)
    else NaN.

(** [x >= k] and [x < k] for a parsed number and an integer constant;
    both are false on [NaN]. *)
Definition num_ge (x : number) (k : Z) : bool :=
  match x with
  | NaN => false
  | Infinity neg => negb neg
  | Finite q => Qle_bool (inject_Z k) q
  end.

Definition num_lt (x : number) (k : Z) : bool :=
  match x with
  | NaN => false
  | Infinity neg => neg
  | Finite q => negb (Qle_bool (inject_Z k) q)
  end.

(** Arithmetic on a possibly-[NaN] integer ([None] is [NaN]):
    [x + k], [Math.min(x, k)], [Math.max(x, k)] all propagate [NaN]. *)
Definition nan_add (x : option Z) (k : Z) : option Z := option_map (fun n => n + k) x.
Definition Math_min (x : option Z) (k : Z) : option Z := option_map (fun n => Z.min n k) x.
Definition Math_max (x : option Z) (k : Z) : option Z := option_map (fun n => Z.max n k) x.

(** An integer counter as a binary64 float (exact below [2^53]). *)
Definition to_float (n : Z) : float := PrimFloat.of_uint63 (Uint63.of_Z n).

(** [Math.round(x)]: the nearest integer, ties towards [+Infinity];
    computed exactly from the float's mantissa and exponent.  [None]
    stands for a [NaN] or infinite argument. *)
Definition Math_round (x : float) : option Z :=
  match Prim2SF x with
  | S754_zero _ => Some 0
  | S754_finite s m e =>
      let n := if s then Z.neg m else Z.pos m in
      Some (if 0 <=? e then n * 2 ^ e
            else (2 * n + 2 ^ (- e)) / 2 ^ (1 - e))
  | S754_infinity _ | S754_nan => None
  end.

(** [Math.round((a / b) * 100)] on two counters, as the frontend
    writes every percentage. *)
Definition round_percent (a b : Z) : option Z :=
  Math_round (to_float a / to_float b * 100)%float.

(** [String(n)] for an integer. *)
Definition show (n : Z) : string :=
  NilZero.string_of_int (Z.to_int n).

(** A property name that is an array index: the canonical decimal of
    an integer from 0 to 2^32 - 2.  An object lists such keys first,
    in ascending order, before its other keys. *)
Fixpoint all_decimal (s : string) : bool :=
  match s with
  | EmptyString => true
  | String c r =>
      let n := Z.of_nat (nat_of_ascii c) in
      (48 <=? n) && (n <=? 57) && all_decimal r
  end.

Definition arrayIndex (s : string) : option Z :=
  match s with
  | EmptyString => None
  | String c r =>
      if all_decimal s && (negb (Ascii.eqb c "0") || String.eqb r "")
      then match digits_value 10 s None with
           | Some n => if n <=? 4294967294 then Some n else None
           | None => None
           end
      else None
  end.

End JS.

(* ================================================================== *)
(** * Frontend: the [Quiz] component                                   *)
(* ================================================================== *)

Module Quiz.

Local Open Scope string_scope.
Local Open Scope list_scope.
Local Open Scope Z_scope.

(** ** Level engine *)

(** [calculateNewLevel(currentLevel, score, emotion)].  The [switch]
    has no [default]: any other string leaves [levelChange] alone. *)
Definition calculateNewLevel (currentLevel score : Z) (emotion : string) : Z :=
  let levelChange := 0 in
  let levelChange :=
    if score >=? 80 then levelChange + 2
    else if score <? 50 then levelChange - 1
    else levelChange in
  let levelChange :=
    if String.eqb emotion "happy" then levelChange + 1
    else if String.eqb emotion "sad" then levelChange - 1
    else if String.eqb emotion "angry" then levelChange - 1
    else if String.eqb emotion "confused" then levelChange - 1
    else if String.eqb emotion "excited" then levelChange + 1
    else levelChange in
  let newLevel := Z.max 1 (Z.min 10 (currentLevel + levelChange)) in
  newLevel.

(** ** Component state *)

(** An entry of [quizHistory], as [handleSubmit] appends it. *)
Record HistoryEntry := {
  h_score : Z;
  h_emotion : string;
  h_level : Z
}.

(** The body [handleSubmit] posts to [.../quiz-results]: the stored
    QuizAttempt. *)
Record QuizAttempt := {
  a_score : Z;
  a_emotion : string;
  a_presentLevel : Z;
  a_nextLevel : Z
}.

(** The [useState] cells of the component that the submit, results
    and emotion logic read or write.  [score = None] is [null]. *)
Record State := {
  score : option Z;
  selectedEmotion : string;
  quizHistory : list HistoryEntry;
  emotionDetections : list string;
  detectedEmotion : option string;
  currentLevel : Z;
  showResults : bool;
  presentLevel : Z;
  nextLevel : Z;
  consecutiveFailures : Z
}.

(** The state of a freshly mounted component once [fetchQuiz] has
    loaded the questions for [quizLevel] (the level of the navigation
    state, else of the saved progress, else 5). *)
Definition mount (quizLevel : Z) : State :=
  {| score := None;
     selectedEmotion := "neutral";
     quizHistory := [];
     emotionDetections := [];
     detectedEmotion := None;
     currentLevel := quizLevel;
     showResults := false;
     presentLevel := 5;
     nextLevel := 5;
     consecutiveFailures := 0 |}.

(** ** Emotion sampling *)

(** The interval callback when the detector answers with a non-empty
    [data.emotion]. *)
Definition onEmotion (st : State) (emotion : string) : State :=
  let lowercaseEmotion := JS.toLowerCase emotion in
  {| score := score st;
     selectedEmotion := lowercaseEmotion;
     quizHistory := quizHistory st;
     emotionDetections := emotionDetections st ++ [lowercaseEmotion];
     detectedEmotion := Some lowercaseEmotion;
     currentLevel := currentLevel st;
     showResults := showResults st;
     presentLevel := presentLevel st;
     nextLevel := nextLevel st;
     consecutiveFailures := consecutiveFailures st |}.

(** ** The table of [getMostFrequentEmotion] *)

(** [freq] is a plain object: besides the keys the loop gives it, it
    answers to the names it inherits from [Object.prototype].  What a
    key of its own holds is a count, or a string that is not the text
    of a number. *)
Inductive FreqValue :=
| Count (n : Z)
| NotANumber.

Definition inheritedNames : list string :=
  [ "constructor"; "__defineGetter__"; "__defineSetter__"; "hasOwnProperty";
    "__lookupGetter__"; "__lookupSetter__"; "isPrototypeOf"; "propertyIsEnumerable";
    "toString"; "valueOf"; "__proto__"; "toLocaleString" ].

Definition inherited (e : string) : bool :=
  existsb (String.eqb e) inheritedNames.

(** [v + 1] for the value of an own key: a count grows by one, a
    string gets a ["1"] appended. *)
Definition plusOne (v : FreqValue) : FreqValue :=
  match v with
  | Count n => Count (n + 1)
  | NotANumber => NotANumber
  end.

(** [freq[e] = freq[e] + 1] when [e] is a key of [freq]'s own (its
    value is then truthy); [None] when it is not. *)
Fixpoint increment (e : string) (freq : list (string * FreqValue))
  : option (list (string * FreqValue)) :=
  match freq with
  | [] => None
  | (k, v) :: rest =>
      if String.eqb k e then Some ((k, plusOne v) :: rest)
      else match increment e rest with
           | Some rest' => Some ((k, v) :: rest')
           | None => None
           end
  end.

(** A new key takes its place in the order [Object.entries] lists the
    keys in: array indices first, ascending; then the other keys as
    they were created. *)
Fixpoint placeIndex (i : Z) (e : string) (v : FreqValue) (freq : list (string * FreqValue))
  : list (string * FreqValue) :=
  match freq with
  | [] => [(e, v)]
  | (k, w) :: rest =>
      match JS.arrayIndex k with
      | Some j => if j <? i then (k, w) :: placeIndex i e v rest
                  else (e, v) :: (k, w) :: rest
      | None => (e, v) :: (k, w) :: rest
      end
  end.

Definition define (e : string) (v : FreqValue) (freq : list (string * FreqValue))
  : list (string * FreqValue) :=
  match JS.arrayIndex e with
  | Some i => placeIndex i e v freq
  | None => freq ++ [(e, v)]
  end.

(** [freq[e] = (freq[e] || 0) + 1].  For a key of its own the value
    grows.  Otherwise [freq[e]] is [undefined] and the key is created
    with 1, unless the name is inherited: an inherited function plus 1
    is a string, and assigning a string to [__proto__] does nothing. *)
Definition bump (e : string) (freq : list (string * FreqValue))
  : list (string * FreqValue) :=
  match increment e freq with
  | Some freq' => freq'
  | None =>
      if String.eqb e "__proto__" then freq
      else if inherited e then define e NotANumber freq
      else define e (Count 1) freq
  end.

(** The guard of the counting loop: [e] is non-empty and none of the
    four error strings. *)
Definition countable (e : string) : bool :=
  negb (String.eqb e "") && negb (String.eqb e "No Face Detected") && negb (String.eqb e "Landmark Error")
  && negb (String.eqb e "Coord Count Error") && negb (String.eqb e "Prediction Error").

Definition getMostFrequentEmotion (emotions : list string) : string :=
  match emotions with
  | [] => "neutral"
  | _ =>
      let freq :=
        fold_left (fun freq e => if countable e then bump e freq else freq)
                  emotions [] in
      snd (fold_left
             (fun '(max, result) '(emotion, count) =>
                match count with
                | Count n => if n >? max then (n, emotion) else (max, result)
                | NotANumber => (max, result)
                end)
             freq (0, "neutral"))
  end.

(** ** Submission *)

(** [handleSubmit] on the path where the token is present and both
    requests succeed; [calculatedScore] is the value of
    [calculateScore()] at the click.  Returns the new state and the
    body posted to [.../quiz-results].  [selectedEmotion] is the value
    the handler's closure holds: the state at the click. *)
Definition handleSubmit (st : State) (calculatedScore : Z) : State * QuizAttempt :=
  let calculatedNextLevel :=
    calculateNewLevel (currentLevel st) calculatedScore (selectedEmotion st) in
  ({| score := Some calculatedScore;
      selectedEmotion := selectedEmotion st;
      quizHistory :=
        quizHistory st ++ [ {| h_score := calculatedScore;
                               h_emotion := selectedEmotion st;
                               h_level := calculatedNextLevel |} ];
      emotionDetections := emotionDetections st;
      detectedEmotion := detectedEmotion st;
      currentLevel := currentLevel st;
      showResults := true;
      presentLevel := currentLevel st;
      nextLevel := calculatedNextLevel;
      consecutiveFailures :=
        if calculatedScore <? 60 then consecutiveFailures st + 1 else 0 |},
   {| a_score := calculatedScore;
      a_emotion := selectedEmotion st;
      a_presentLevel := currentLevel st;
      a_nextLevel := calculatedNextLevel |}).

(** The effect commented "When quiz ends, determine most frequent
    emotion"; it runs after the render that follows [setScore]. *)
Definition quizEndEffect (st : State) : State :=
  match score st, emotionDetections st with
  | Some _, _ :: _ =>
      let mostFrequent := getMostFrequentEmotion (emotionDetections st) in
      {| score := score st;
         selectedEmotion := mostFrequent;
         quizHistory := quizHistory st;
         emotionDetections := emotionDetections st;
         detectedEmotion := Some mostFrequent;
         currentLevel := currentLevel st;
         showResults := showResults st;
         presentLevel := presentLevel st;
         nextLevel := nextLevel st;
         consecutiveFailures := consecutiveFailures st |}
  | _, _ => st
  end.

(** The capture effect depends on [score] and [loading]; its guard
    [!score] also holds for a score of 0, in which case the effect
    clears the collected readings once loading has ended. *)
Definition captureEffect (st : State) : State :=
  match score st with
  | Some 0 =>
      {| score := score st;
         selectedEmotion := selectedEmotion st;
         quizHistory := quizHistory st;
         emotionDetections := [];
         detectedEmotion := None;
         currentLevel := currentLevel st;
         showResults := showResults st;
         presentLevel := presentLevel st;
         nextLevel := nextLevel st;
         consecutiveFailures := consecutiveFailures st |}
  | _ => st
  end.

(** ** Results view *)

(** [consecutiveFailures >= 2 && score < 60]; a [null] score compares
    as 0. *)
Definition showReviewContent (st : State) : bool :=
  (consecutiveFailures st >=? 2)
  && (match score st with Some s => s <? 60 | None => true end).

(** Where the browser is: on the quiz route with the component's
    state, or on the review route with the [nextLevel] carried in the
    navigation state, if any. *)
Inductive Page :=
| QuizPage (st : State)
| ReviewPage (carried : option Z).

(** [handleReadContent]: navigates to the review route, passing
    [nextLevel]; the component is unmounted. *)
Definition handleReadContent (st : State) : Page :=
  ReviewPage (Some (nextLevel st)).

(** [handleNextQuiz] when the next quiz loads. *)
Definition handleNextQuiz (st : State) : Page :=
  if consecutiveFailures st >=? 3 then ReviewPage None
  else
    QuizPage
      {| score := None;
         selectedEmotion := "neutral";
         quizHistory := quizHistory st;
         emotionDetections := [];
         detectedEmotion := None;
         currentLevel := nextLevel st;
         showResults := false;
         presentLevel := presentLevel st;
         nextLevel := nextLevel st;
         consecutiveFailures := consecutiveFailures st |}.

(** [handleTakeQuiz] of the review page: back to the quiz route at
    [location.state?.nextLevel || 5]; the component mounts afresh. *)
Definition handleTakeQuiz (carried : option Z) : Page :=
  QuizPage (mount (if JS.truthy_num carried
                   then match carried with Some l => l | None => 5 end
                   else 5)).

(** ** Sessions *)

(** What can happen on these two routes. *)
Inductive Event :=
| EmotionDetected (emotion : string)
| Submit (calculatedScore : Z)
| TakeNextQuiz
| ReviewContent
| BackToQuiz.

(** One event, when the page offers it: readings arrive and Submit is
    shown while the quiz is in progress; the results view shows
    either the Review Content button or the Take Next Quiz button.
    A submission whose requests fail ends on the error page, which
    offers nothing but a reload, that is a fresh mount; it is not an
    event of a session. *)
Definition step (p : Page) (ev : Event) : option Page :=
  match p, ev with
  | QuizPage st, EmotionDetected e =>
      if negb (showResults st) && negb (String.eqb e "")
      then Some (QuizPage (onEmotion st e)) else None
  | QuizPage st, Submit s =>
      if negb (showResults st)
      then Some (QuizPage (captureEffect (quizEndEffect (fst (handleSubmit st s)))))
      else None
  | QuizPage st, TakeNextQuiz =>
      if showResults st && negb (showReviewContent st)
      then Some (handleNextQuiz st) else None
  | QuizPage st, ReviewContent =>
      if showResults st && showReviewContent st
      then Some (handleReadContent st) else None
  | ReviewPage carried, BackToQuiz => Some (handleTakeQuiz carried)
  | _, _ => None
  end.

Fixpoint run (p : Page) (evs : list Event) : option Page :=
  match evs with
  | [] => Some p
  | ev :: rest =>
      match step p ev with
      | Some p' => run p' rest
      | None => None
      end
  end.

(** The attempt stored by the last submission of a session. *)
Fixpoint lastAttempt (p : Page) (evs : list Event) (last : option QuizAttempt)
  : option QuizAttempt :=
  match evs with
  | [] => last
  | ev :: rest =>
      match step p ev with
      | Some p' =>
          lastAttempt p' rest
            (match p, ev with
             | QuizPage st, Submit s => Some (snd (handleSubmit st s))
             | _, _ => last
             end)
      | None => last
      end
  end.

(** ** Answering and scoring *)

(** A question as the quiz endpoint returns it. *)
Record Question := {
  question : string;
  options : list string;
  correctAnswer : string
}.

(** [selectedAnswers], an object keyed by question index.  Bindings are
    kept newest first; the component only looks indices up. *)
Definition Answers := list (nat * string).

(** [selectedAnswers[index]]; [None] is [undefined]. *)
Fixpoint answerAt (selectedAnswers : Answers) (index : nat) : option string :=
  match selectedAnswers with
  | [] => None
  | (i, answer) :: rest => if Nat.eqb i index then Some answer else answerAt rest index
  end.

(** [handleAnswerSelect]: [{...selectedAnswers, [questionIndex]: answer}]. *)
Definition handleAnswerSelect (selectedAnswers : Answers) (questionIndex : nat)
           (answer : string) : Answers :=
  (questionIndex, answer) :: selectedAnswers.

(** The [forEach] of [calculateScore], carrying [correct] and the
    index. *)
Definition countCorrect (questions : list Question) (selectedAnswers : Answers) : Z :=
  fst (fold_left
         (fun '(correct, index) q =>
            (match answerAt selectedAnswers index with
             | Some answer =>
                 if String.eqb answer (correctAnswer q) then correct + 1 else correct
             | None => correct
             end, S index))
         questions (0, 0%nat)).

(** [calculateScore]: [Math.round((correct / questions.length) * 100)];
    [None] is the [NaN] of an empty quiz. *)
Definition calculateScore (questions : list Question) (selectedAnswers : Answers)
  : option Z :=
  JS.round_percent (countCorrect questions selectedAnswers)
                   (Z.of_nat (List.length questions)).

(** ** Difficulty label *)

(** [getDifficultyText(level)] of the quiz and results views. *)
Definition getDifficultyText (level : Z) : string :=
  if (level >=? 1) && (level <=? 4) then "Basic"
  else if (level >=? 5) && (level <=? 7) then "Average"
  else if level =? 8 then "Hard"
  else if (level >=? 9) && (level <=? 10) then "Advanced"
  else "Unknown".

(** ** The level of the first quiz *)

(** The level [fetchQuiz] asks for on mount: [state.level] of the
    navigation state if truthy, else the level of the progress saved
    in local storage, else 5. *)
Definition startLevel (stateLevel : option Z) (quizProgress : option Z) : Z :=
  let quizLevel := 5 in
  if JS.truthy_num stateLevel then
    match stateLevel with Some level => level | None => quizLevel end
  else
    match quizProgress with
    | Some level => level
    | None => quizLevel
    end.

End Quiz.

(* ================================================================== *)
(** * Frontend: the [Performance] component                            *)
(* ================================================================== *)

Module Performance.

Local Open Scope string_scope.
Local Open Scope list_scope.
Local Open Scope Z_scope.

(** The statistics [fetchData] derives from the subjects and the quiz
    history: the banded score of an attempt and the four counters
    behind the overall figures.  The per-subject table
    ([subjectProgress]) and the averages taken from the counters are
    not needed below and are left out. *)

(** [calculatePerformanceScore(level, score)].  Scores are integers;
    [score * 0.5] is exact in binary64 and is kept as a rational. *)
Definition calculatePerformanceScore (level score : Z) : Q :=
  if level >=? 8 then
    if score <? 50 then 75%Q
    else inject_Z score
  else if level >=? 5 then
    inject_Z score
  else
    if score >=? 80 then 40%Q
    else (inject_Z score * (1 # 2))%Q.

(** An entry of the [quiz-history] response (the fields the component
    reads). *)
Record Quiz := {
  subjectName : string;
  subtopicName : string;
  score : Z;
  nextLevel : Z
}.

(** A subject of the [subjects] response, with its subtopics' names. *)
Record Subject := {
  name : string;
  subtopics : list string
}.

(** The counters [fetchData] declares before its loops. *)
Record Totals := {
  totalSubtopics : Z;
  completedSubtopics : Z;
  totalPerformanceScore : Q;
  totalQuizzes : Z
}.

(** The [reduce] that picks the quiz with the highest [nextLevel];
    it starts from [subtopicQuizzes[0]] and visits every element. *)
Definition highestLevelQuiz (subtopicQuizzes : list Quiz) (first : Quiz) : Quiz :=
  fold_left
    (fun highest quiz => if nextLevel quiz >? nextLevel highest then quiz else highest)
    subtopicQuizzes first.

(** The loop variables one subject's iteration updates: the two
    global counters and [subjectPerformanceScores]. *)
Record SubjectLoop := {
  l_totalSubtopics : Z;
  l_completedSubtopics : Z;
  subjectPerformanceScores : list Q
}.

(** Body of [subject.subtopics.forEach]. *)
Definition subtopicStep (subjectQuizzes : list Quiz) (acc : SubjectLoop)
           (subtopic : string) : SubjectLoop :=
  let subtopicQuizzes :=
    filter (fun quiz => String.eqb (subtopicName quiz) subtopic) subjectQuizzes in
  match subtopicQuizzes with
  | [] => acc
  | first :: _ =>
      let highest := highestLevelQuiz subtopicQuizzes first in
      let isCompleted := (nextLevel highest >=? 8) && (score highest >=? 80) in
      let subtopicPerformanceScores :=
        map (fun quiz => calculatePerformanceScore (nextLevel quiz) (score quiz))
            subtopicQuizzes in
      {| l_totalSubtopics := l_totalSubtopics acc + 1;
         l_completedSubtopics :=
           if isCompleted then l_completedSubtopics acc + 1
           else l_completedSubtopics acc;
         subjectPerformanceScores :=
           subjectPerformanceScores acc ++ subtopicPerformanceScores |}
  end.

Definition sumQ (l : list Q) : Q := fold_left Qplus l 0%Q.

(** Body of [subjectsResponse.data.forEach]. *)
Definition subjectStep (quizHistory : list Quiz) (t : Totals) (subject : Subject)
  : Totals :=
  let subjectQuizzes :=
    filter (fun quiz => String.eqb (subjectName quiz) (name subject)) quizHistory in
  match subjectQuizzes with
  | [] => t
  | _ :: _ =>
      let acc :=
        fold_left (subtopicStep subjectQuizzes) (subtopics subject)
          {| l_totalSubtopics := totalSubtopics t;
             l_completedSubtopics := completedSubtopics t;
             subjectPerformanceScores := [] |} in
      {| totalSubtopics := l_totalSubtopics acc;
         completedSubtopics := l_completedSubtopics acc;
         totalPerformanceScore :=
           (totalPerformanceScore t + sumQ (subjectPerformanceScores acc))%Q;
         totalQuizzes :=
           totalQuizzes t + Z.of_nat (List.length (subjectPerformanceScores acc)) |}
  end.

Definition totals (subjects : list Subject) (quizHistory : list Quiz) : Totals :=
  fold_left (subjectStep quizHistory) subjects
    {| totalSubtopics := 0; completedSubtopics := 0;
       totalPerformanceScore := 0%Q; totalQuizzes := 0 |}.

(** [overallPercentage], stored as [stats.overallProgress].  [None]
    would be a [NaN]. *)
Definition overallPercentage (subjects : list Subject) (quizHistory : list Quiz)
  : option Z :=
  let t := totals subjects quizHistory in
  if totalSubtopics t >? 0
  then JS.round_percent (completedSubtopics t) (totalSubtopics t)
  else Some 0.

(** ** The completion figure in the specification's words *)

(** The subtopics of the catalogue, each with its subject. *)
Definition catalogue (subjects : list Subject) : list (string * string) :=
  flat_map (fun s => map (fun t => (name s, t)) (subtopics s)) subjects.

(** The attempts of one subtopic, in history order. *)
Definition attemptsOf (quizHistory : list Quiz) (e : string * string) : list Quiz :=
  filter (fun q => String.eqb (subjectName q) (fst e)
                   && String.eqb (subtopicName q) (snd e)) quizHistory.

(** The attempt with the highest [nextLevel]; the earliest one when
    several share it. *)
Fixpoint topAttempt (l : list Quiz) : option Quiz :=
  match l with
  | [] => None
  | q :: rest =>
      match topAttempt rest with
      | Some r => if nextLevel r >? nextLevel q then Some r else Some q
      | None => Some q
      end
  end.

Definition isAttempted (quizHistory : list Quiz) (e : string * string) : bool :=
  match attemptsOf quizHistory e with [] => false | _ :: _ => true end.

Definition isMastered (quizHistory : list Quiz) (e : string * string) : bool :=
  match topAttempt (attemptsOf quizHistory e) with
  | Some q => (nextLevel q >=? 8) && (score q >=? 80)
  | None => false
  end.

Definition attempted (subjects : list Subject) (quizHistory : list Quiz) :=
  filter (isAttempted quizHistory) (catalogue subjects).


End Performance.

(* ================================================================== *)
(** * Backend: [server.js]                                             *)
(* ================================================================== *)

Module Server.

Local Open Scope string_scope.
Local Open Scope list_scope.
Local Open Scope Z_scope.

(** ** Quiz level of [GET /api/subjects/:subjectId/subtopics/:subtopicId/quiz] *)

Definition str (v : JS.value) : string :=
  match v with Some s => s | None => "" end.

(** The value of [nextLevel] when the final validity test is reached
    (the subject and the subtopic have been found by then), from the
    four query values (each a string or absent).  [None] is [NaN]. *)
Definition parsedLevel (level previousScore previousEmotion previousLevel : JS.value)
  : option Z :=
  let nextLevel : option Z := Some 5 in
  if JS.truthy level then JS.parseInt (str level)
  else if JS.truthy previousScore && JS.truthy previousEmotion
          && JS.truthy previousLevel then
    let score := JS.parseFloat (str previousScore) in
    let prevLevel := JS.parseInt (str previousLevel) in
    let nextLevel :=
      if JS.num_ge score 80 then JS.Math_min (JS.nan_add prevLevel 1) 10
      else if JS.num_lt score 50 then JS.Math_max (JS.nan_add prevLevel (-1)) 1
      else prevLevel in
    if String.eqb (str previousEmotion) "confused"
       || String.eqb (str previousEmotion) "sad"
    then JS.Math_max (JS.nan_add nextLevel (-1)) 1
    else if String.eqb (str previousEmotion) "excited"
            || String.eqb (str previousEmotion) "happy"
    then JS.Math_min (JS.nan_add nextLevel 1) 10
    else nextLevel
  else nextLevel.

(** The level the questions are generated at:
    [if (isNaN(nextLevel) || nextLevel < 1 || nextLevel > 10) nextLevel = 5]. *)
Definition quizLevel (level previousScore previousEmotion previousLevel : JS.value)
  : Z :=
  match parsedLevel level previousScore previousEmotion previousLevel with
  | None => 5
  | Some n => if (n <? 1) || (n >? 10) then 5 else n
  end.

(** ** Database state *)

(** An identifier is an ObjectId, written as its string.

    A request carries its identifiers as strings.  Mongoose casts them
    to ObjectIds when a query first uses them on an ObjectId path; for
    a string it cannot cast the query throws before anything is read or
    written, and the handler's [catch] answers 500.  The handlers below
    that read an identifier from the request take that conversion as
    [cast], [None] when it fails.  The identifier of the authenticated
    user comes from a stored document and is an ObjectId already. *)
Definition Id := string.

Inductive Status := active | inactive.

Record TherapistAssignment := {
  ta_therapistId : Id;
  ta_userId : Id;
  ta_status : Status
}.

Record Message := {
  m_senderId : Id;
  m_receiverId : Id;
  m_content : string;
  m_read : bool;
  m_attachment : option string;
  m_createdAt : Z;
  m_updatedAt : Z
}.

Record QuizInProgress := {
  q_userId : Id;
  q_subjectId : Id;
  q_subtopicId : Id;
  q_level : Z;
  q_attempted : bool;
  q_lastUpdated : Z
}.

(** The three collections, each in insertion order. *)
Record DB := {
  assignments : list TherapistAssignment;
  messages : list Message;
  quizzesInProgress : list QuizInProgress
}.

Inductive Body :=
| Failure (message : string)
| History (msgs : list Message)
| Sent (message : Message)
| Saved (quiz : QuizInProgress)
| Done (created : bool).

Record Response := {
  code : Z;
  body : Body
}.

(** ** Chat *)

Definition is_active (s : Status) : bool :=
  match s with active => true | inactive => false end.

(** The filter both chat handlers pass to
    [TherapistAssignment.findOne]. *)
Definition links (currentUserId userId : Id) (a : TherapistAssignment) : bool :=
  ((String.eqb (ta_therapistId a) currentUserId && String.eqb (ta_userId a) userId)
   || (String.eqb (ta_therapistId a) userId && String.eqb (ta_userId a) currentUserId))
  && is_active (ta_status a).

Definition findAssignment (db : DB) (currentUserId userId : Id)
  : option TherapistAssignment :=
  find (links currentUserId userId) (assignments db).

(** The filter of [Message.updateMany]. *)
Definition unreadFrom (userId currentUserId : Id) (m : Message) : bool :=
  String.eqb (m_senderId m) userId && String.eqb (m_receiverId m) currentUserId
  && negb (m_read m).

(** [{ read: true }] applied to one document; the schema's
    [timestamps] option refreshes [updatedAt]. *)
Definition markRead (now : Z) (m : Message) : Message :=
  {| m_senderId := m_senderId m;
     m_receiverId := m_receiverId m;
     m_content := m_content m;
     m_read := true;
     m_attachment := m_attachment m;
     m_createdAt := m_createdAt m;
     m_updatedAt := now |}.

Definition updateMany (now : Z) (userId currentUserId : Id) (ms : list Message)
  : list Message :=
  map (fun m => if unreadFrom userId currentUserId m then markRead now m else m) ms.

Definition between (currentUserId userId : Id) (m : Message) : bool :=
  (String.eqb (m_senderId m) currentUserId && String.eqb (m_receiverId m) userId)
  || (String.eqb (m_senderId m) userId && String.eqb (m_receiverId m) currentUserId).

(** [GET /api/chat/:userId] for the authenticated [currentUserId], from
    the point where [userId] has been cast ([getChatHistoryEndpoint]
    below is the whole handler).  Documents are inserted with
    increasing [createdAt], so the sort keeps the collection's
    order. *)
Definition getChat (now : Z) (currentUserId userId : Id) (db : DB) : Response * DB :=
  match findAssignment db currentUserId userId with
  | None =>
      ({| code := 403; body := Failure "Not authorized to chat with this user" |}, db)
  | Some _ =>
      let found := filter (between currentUserId userId) (messages db) in
      ({| code := 200; body := History found |},
       {| assignments := assignments db;
          messages := updateMany now userId currentUserId (messages db);
          quizzesInProgress := quizzesInProgress db |})
  end.

(** [POST /api/chat/:userId] on a [userId] that has been cast
    ([sendMessageEndpoint] below is the whole handler).
    [message.save()] trims the content and rejects an empty one
    ([required]); the handler's [catch] turns that into a 500.  The
    push to the receiver's socket changes neither the response nor the
    database and is left out. *)
Definition postChat (now : Z) (currentUserId userId : Id)
           (content attachment : JS.value) (db : DB) : Response * DB :=
  if negb (JS.truthy content) then
    ({| code := 400; body := Failure "Message content is required" |}, db)
  else
    match findAssignment db currentUserId userId with
    | None =>
        ({| code := 403; body := Failure "Not authorized to chat with this user" |}, db)
    | Some _ =>
        let message :=
          {| m_senderId := currentUserId;
             m_receiverId := userId;
             m_content := JS.trim (str content);
             m_read := false;
             m_attachment := attachment;
             m_createdAt := now;
             m_updatedAt := now |} in
        if String.eqb (m_content message) "" then
          ({| code := 500; body := Failure "Error sending message" |}, db)
        else
          ({| code := 201; body := Sent message |},
           {| assignments := assignments db;
              messages := messages db ++ [message];
              quizzesInProgress := quizzesInProgress db |})
    end.

(** The two chat handlers as Express runs them, on the [:userId] of
    the URL.  The first query, [TherapistAssignment.findOne], casts it;
    the send handler tests the content before that. *)
Definition getChatHistoryEndpoint (cast : string -> option Id) (now : Z)
           (currentUserId : Id) (userId : string) (db : DB) : Response * DB :=
  match cast userId with
  | Some userId => getChat now currentUserId userId db
  | None => ({| code := 500; body := Failure "Error fetching chat history" |}, db)
  end.

Definition sendMessageEndpoint (cast : string -> option Id) (now : Z)
           (currentUserId : Id) (userId : string) (content attachment : JS.value)
           (db : DB) : Response * DB :=
  if negb (JS.truthy content) then
    ({| code := 400; body := Failure "Message content is required" |}, db)
  else
    match cast userId with
    | Some userId => postChat now currentUserId userId content attachment db
    | None => ({| code := 500; body := Failure "Error sending message" |}, db)
    end.

(** ** Quiz in progress *)

(** The filter [{ userId, subjectId, subtopicId, attempted: false }]. *)
Definition inProgress (userId subjectId subtopicId : Id) (q : QuizInProgress) : bool :=
  String.eqb (q_userId q) userId && String.eqb (q_subjectId q) subjectId
  && String.eqb (q_subtopicId q) subtopicId && negb (q_attempted q).

(** [findOne] followed by [save] on the document found: the first
    match is replaced where it stands.  [None] when nothing matches. *)
Fixpoint updateFirst {A} (p : A -> bool) (f : A -> A) (l : list A)
  : option (A * list A) :=
  match l with
  | [] => None
  | x :: rest =>
      if p x then Some (f x, f x :: rest)
      else match updateFirst p f rest with
           | Some (y, rest') => Some (y, x :: rest')
           | None => None
           end
  end.

Definition withQuizzes (db : DB) (qs : list QuizInProgress) : DB :=
  {| assignments := assignments db;
     messages := messages db;
     quizzesInProgress := qs |}.

(** [POST /api/quiz-in-progress] for the authenticated [userId].  The
    [findOne] casts the two identifiers of the body. *)
Definition saveQuizInProgress (cast : string -> option Id) (now : Z) (userId : Id)
           (subjectId subtopicId : JS.value) (level : option Z) (db : DB)
  : Response * DB :=
  if negb (JS.truthy subjectId) || negb (JS.truthy subtopicId)
     || negb (JS.truthy_num level) then
    ({| code := 400; body := Failure "Missing required fields" |}, db)
  else
    let lv := match level with Some l => l | None => 0 end in
    match cast (str subjectId), cast (str subtopicId) with
    | Some subject, Some subtopic =>
        match updateFirst (inProgress userId subject subtopic)
                (fun quiz =>
                   {| q_userId := q_userId quiz;
                      q_subjectId := q_subjectId quiz;
                      q_subtopicId := q_subtopicId quiz;
                      q_level := lv;
                      q_attempted := q_attempted quiz;
                      q_lastUpdated := now |})
                (quizzesInProgress db) with
        | Some (quiz, qs) =>
            ({| code := 200; body := Saved quiz |}, withQuizzes db qs)
        | None =>
            let quiz :=
              {| q_userId := userId;
                 q_subjectId := subject;
                 q_subtopicId := subtopic;
                 q_level := lv;
                 q_attempted := false;
                 q_lastUpdated := now |} in
            ({| code := 200; body := Saved quiz |},
             withQuizzes db (quizzesInProgress db ++ [quiz]))
        end
    | _, _ =>
        ({| code := 500; body := Failure "Failed to save quiz in progress" |}, db)
    end.

(** [POST /api/quiz-in-progress/complete] with both identifiers
    present, as the client sends them. *)
Definition completeQuizInProgress (cast : string -> option Id) (now : Z) (userId : Id)
           (subjectId subtopicId : string) (level : option Z) (db : DB)
  : Response * DB :=
  match cast subjectId, cast subtopicId with
  | Some subject, Some subtopic =>
      match updateFirst (inProgress userId subject subtopic)
              (fun quiz =>
                 {| q_userId := q_userId quiz;
                    q_subjectId := q_subjectId quiz;
                    q_subtopicId := q_subtopicId quiz;
                    q_level := q_level quiz;
                    q_attempted := true;
                    q_lastUpdated := now |})
              (quizzesInProgress db) with
      | Some (_, qs) =>
          ({| code := 200; body := Done false |}, withQuizzes db qs)
      | None =>
          let quiz :=
            {| q_userId := userId;
               q_subjectId := subject;
               q_subtopicId := subtopic;
               q_level := if JS.truthy_num level
                          then match level with Some l => l | None => 1 end
                          else 1;
               q_attempted := true;
               q_lastUpdated := now |} in
          ({| code := 200; body := Done true |},
           withQuizzes db (quizzesInProgress db ++ [quiz]))
      end
  | _, _ =>
      ({| code := 500; body := Failure "Failed to complete quiz in progress" |}, db)
  end.

(** The requests modelled above, with the identifiers as the request
    carries them. *)
Inductive Request :=
| Save (now : Z) (userId : Id) (subjectId subtopicId : JS.value) (level : option Z)
| Complete (now : Z) (userId : Id) (subjectId subtopicId : string) (level : option Z)
| GetChat (now : Z) (currentUserId : Id) (userId : string)
| PostChat (now : Z) (currentUserId : Id) (userId : string) (content attachment : JS.value).

Definition handle (cast : string -> option Id) (r : Request) (db : DB) : Response * DB :=
  match r with
  | Save now u s t l => saveQuizInProgress cast now u s t l db
  | Complete now u s t l => completeQuizInProgress cast now u s t l db
  | GetChat now c u => getChatHistoryEndpoint cast now c u db
  | PostChat now c u content att => sendMessageEndpoint cast now c u content att db
  end.

(** The database after serving requests one after the other. *)
Definition serve (cast : string -> option Id) (db : DB) (rs : list Request) : DB :=
  fold_left (fun db r => snd (handle cast r db)) rs db.

(** A deployment starts with the assignments in place and nothing
    else. *)
Definition initial (asg : list TherapistAssignment) : DB :=
  {| assignments := asg; messages := []; quizzesInProgress := [] |}.

(** ** Unread messages *)

(** The filter [{ receiverId, read: false }] of
    [GET /api/chat/unread/count], and the count the handler answers. *)
Definition unreadFor (userId : Id) (m : Message) : bool :=
  String.eqb (m_receiverId m) userId && negb (m_read m).

Definition unreadCount (userId : Id) (db : DB) : Z :=
  Z.of_nat (List.length (filter (unreadFor userId) (messages db))).

(** ** Sorting a query *)

(** [.sort({ key: -1 })]: largest key first; documents with equal keys
    keep the collection's order. *)
Fixpoint insertDescending {A} (key : A -> Z) (x : A) (sorted : list A) : list A :=
  match sorted with
  | [] => [x]
  | y :: rest =>
      if key y <=? key x then x :: y :: rest
      else y :: insertDescending key x rest
  end.

Definition sortDescending {A} (key : A -> Z) (l : list A) : list A :=
  fold_right (insertDescending key) [] l.

(** ** Subjects *)

Record Subtopic := {
  st_id : Id;
  st_name : string
}.

Record SubjectDoc := {
  s_id : Id;
  s_name : string;
  s_subtopics : list Subtopic
}.

(** [populate('subjectId', 'name subtopics')]: the subject document, or
    [null] when the collection has none with this id. *)
Definition populate (subjects : list SubjectDoc) (subjectId : Id) : option SubjectDoc :=
  find (fun s => String.eqb (s_id s) subjectId) subjects.

(** [subject.subtopics.find(st => st._id.toString() === subtopicId.toString())]. *)
Definition findSubtopic (subject : SubjectDoc) (subtopicId : Id) : option Subtopic :=
  find (fun st => String.eqb (st_id st) subtopicId) (s_subtopics subject).

(** ** Listing the quizzes in progress *)

(** An element of the [quizzes] array of [GET /api/quiz-in-progress]:
    the record with its [subjectId] populated, and the two names. *)
Record ListedQuiz := {
  l_quiz : QuizInProgress;
  l_subject : option SubjectDoc;
  l_subjectName : string;
  l_subtopicName : string
}.

(** The filter [{ userId, attempted: false }]. *)
Definition openOf (userId : Id) (q : QuizInProgress) : bool :=
  String.eqb (q_userId q) userId && negb (q_attempted q).

Definition withNames (subjects : list SubjectDoc) (q : QuizInProgress) : ListedQuiz :=
  let subject := populate subjects (q_subjectId q) in
  let subtopicName :=
    match subject with
    | Some s =>
        match findSubtopic s (q_subtopicId q) with
        | Some found => st_name found
        | None => ""
        end
    | None => ""
    end in
  {| l_quiz := q;
     l_subject := subject;
     l_subjectName := match subject with Some s => s_name s | None => "" end;
     l_subtopicName := subtopicName |}.

(** [GET /api/quiz-in-progress] for the authenticated [userId]. *)
Definition listQuizzesInProgress (subjects : list SubjectDoc) (userId : Id) (db : DB)
  : list ListedQuiz :=
  let quizzes := sortDescending q_lastUpdated (filter (openOf userId) (quizzesInProgress db)) in
  map (withNames subjects) quizzes.

(** ** Assigning a therapist *)

Inductive Role := role_user | role_therapist.

(** What the handlers read of a [User] document. *)
Record User := {
  u_id : Id;
  u_role : Role
}.

Inductive AssignBody :=
| AssignFailure (message : string)
| Assigned (assignment : TherapistAssignment).

Record AssignResponse := {
  as_code : Z;
  as_body : AssignBody
}.

Definition is_therapist (r : Role) : bool :=
  match r with role_therapist => true | role_user => false end.

(** The pair of the unique index [{ therapistId: 1, userId: 1 }]. *)
Definition samePair (therapistId userId : Id) (a : TherapistAssignment) : bool :=
  String.eqb (ta_therapistId a) therapistId && String.eqb (ta_userId a) userId.

(** [POST /api/therapists/:therapistId/assign] for the authenticated
    [currentUser], on a [therapistId] that has been cast.  A new
    assignment gets the schema's default status;
    [save] fails on the unique index (error 11000) when the pair is
    already there, whatever its status. *)
Definition assignTherapist (users : list User) (currentUser : User) (therapistId : Id)
           (db : DB) : AssignResponse * DB :=
  match u_role currentUser with
  | role_therapist =>
      ({| as_code := 403;
          as_body := AssignFailure "Only users can assign themselves to therapists" |}, db)
  | role_user =>
      let userId := u_id currentUser in
      match find (fun u => String.eqb (u_id u) therapistId && is_therapist (u_role u))
                 users with
      | None => ({| as_code := 404; as_body := AssignFailure "Therapist not found" |}, db)
      | Some _ =>
          match find (fun a => samePair therapistId userId a && is_active (ta_status a))
                     (assignments db) with
          | Some _ =>
              ({| as_code := 400;
                  as_body := AssignFailure "Already assigned to this therapist" |}, db)
          | None =>
              let assignment :=
                {| ta_therapistId := therapistId;
                   ta_userId := userId;
                   ta_status := active |} in
              if existsb (samePair therapistId userId) (assignments db) then
                ({| as_code := 400;
                    as_body := AssignFailure "Already assigned to this therapist" |}, db)
              else
                ({| as_code := 201; as_body := Assigned assignment |},
                 {| assignments := assignments db ++ [assignment];
                    messages := messages db;
                    quizzesInProgress := quizzesInProgress db |})
          end
      end
  end.

(** ** Quiz results *)

(** A subdocument of [results]. *)
Record QuizResult := {
  r_score : Z;
  r_emotion : string;
  r_presentLevel : Z;
  r_nextLevel : Z;
  r_createdAt : Z
}.

(** A [UserQuiz] document: all the results of one user on one
    subtopic. *)
Record UserQuiz := {
  uq_userId : Id;
  uq_subjectId : Id;
  uq_subtopicId : Id;
  uq_results : list QuizResult;
  uq_createdAt : Z;
  uq_updatedAt : Z
}.

(** The body of the POST: numbers as the client sends them, [None]
    for a field that is absent or [null]. *)
Record ResultBody := {
  b_score : option Z;
  b_emotion : JS.value;
  b_presentLevel : option Z;
  b_nextLevel : option Z
}.

Inductive ResultsBody :=
| ResultsFailure (message : string)
| ResultsSaved (userQuiz : UserQuiz).

Record ResultsResponse := {
  rr_code : Z;
  rr_body : ResultsBody
}.

(** The [enum] of the emotion path. *)
Definition emotionEnum : list string :=
  ["happy"; "sad"; "neutral"; "angry"; "confused"; "excited"].

(** The subdocument pushed, when it passes the schema's validation on
    [save]: the three numbers and the emotion are required, and the
    emotion is one of the enumerated strings. *)
Definition validated (now : Z) (b : ResultBody) : option QuizResult :=
  match b_score b, b_emotion b, b_presentLevel b, b_nextLevel b with
  | Some score, Some emotion, Some presentLevel, Some nextLevel =>
      if existsb (String.eqb emotion) emotionEnum then
        Some {| r_score := score;
                r_emotion := emotion;
                r_presentLevel := presentLevel;
                r_nextLevel := nextLevel;
                r_createdAt := now |}
      else None
  | _, _, _, _ => None
  end.

(** The filter [{ userId, subjectId, subtopicId }]. *)
Definition sameTriple (userId subjectId subtopicId : Id) (uq : UserQuiz) : bool :=
  String.eqb (uq_userId uq) userId && String.eqb (uq_subjectId uq) subjectId
  && String.eqb (uq_subtopicId uq) subtopicId.

(** [POST /api/subjects/:subjectId/subtopics/:subtopicId/quiz-results]
    for the authenticated [userId]; [isValid] is
    [mongoose.Types.ObjectId.isValid].  A failed validation throws in
    [save], before anything is written, and the [catch] answers 500. *)
Definition postQuizResults (isValid : string -> bool) (now : Z) (userId : Id)
           (subjectId subtopicId : string) (b : ResultBody) (store : list UserQuiz)
  : ResultsResponse * list UserQuiz :=
  if negb (isValid subjectId) || negb (isValid subtopicId) then
    ({| rr_code := 400; rr_body := ResultsFailure "Invalid subject or subtopic ID" |},
     store)
  else
    match validated now b with
    | None =>
        ({| rr_code := 500; rr_body := ResultsFailure "Failed to save quiz results" |},
         store)
    | Some result =>
        match updateFirst (sameTriple userId subjectId subtopicId)
                (fun userQuiz =>
                   {| uq_userId := uq_userId userQuiz;
                      uq_subjectId := uq_subjectId userQuiz;
                      uq_subtopicId := uq_subtopicId userQuiz;
                      uq_results := uq_results userQuiz ++ [result];
                      uq_createdAt := uq_createdAt userQuiz;
                      uq_updatedAt := now |})
                store with
        | Some (userQuiz, store') =>
            ({| rr_code := 200; rr_body := ResultsSaved userQuiz |}, store')
        | None =>
            let userQuiz :=
              {| uq_userId := userId;
                 uq_subjectId := subjectId;
                 uq_subtopicId := subtopicId;
                 uq_results := [] ++ [result];
                 uq_createdAt := now;
                 uq_updatedAt := now |} in
            ({| rr_code := 200; rr_body := ResultsSaved userQuiz |}, store ++ [userQuiz])
        end
    end.

(** [GET /api/subjects/:subjectId/subtopics/:subtopicId/quiz-results]
    on identifiers that have been cast: the [results] array of the
    answer. *)
Definition getQuizResults (userId subjectId subtopicId : Id) (store : list UserQuiz)
  : list QuizResult :=
  match find (sameTriple userId subjectId subtopicId) store with
  | None => []
  | Some userQuiz => uq_results userQuiz
  end.

(** ** Quiz history *)


(** [a || b] on strings. *)
Definition orElse (a : option string) (b : string) : string :=
  if JS.truthy a then str a else b.







End Server.

(* ================================================================== *)
(** * Frontend: the requests of the [Quiz] and [Dashboard] components  *)
(* ================================================================== *)

Module Client.

Local Open Scope string_scope.
Local Open Scope list_scope.
Local Open Scope Z_scope.

(** ** Quiz *)

(** The level the backend generates the questions at when the
    component asks for [quizLevel]: both fetches send
    [params: { level }] and nothing else, and the number reaches the
    handler as the decimal string of the query. *)
Definition fetchedLevel (quizLevel : Z) : Z :=
  Server.quizLevel (Some (JS.show quizLevel)) None None None.

(** [handleGoHome]: the body posted to [/api/quiz-in-progress]. *)
Definition handleGoHome (now : Z) (userId subjectId subtopicId : Server.Id)
           (st : Quiz.State) : Server.Request :=
  Server.Save now userId (Some subjectId) (Some subtopicId) (Some (Quiz.currentLevel st)).

(** [handleSubmit]: the body posted to [/api/quiz-in-progress/complete]
    (no level), and the body posted to [.../quiz-results]. *)
Definition completeRequest (now : Z) (userId subjectId subtopicId : Server.Id)
  : Server.Request :=
  Server.Complete now userId subjectId subtopicId None.

Definition resultBody (a : Quiz.QuizAttempt) : Server.ResultBody :=
  {| Server.b_score := Some (Quiz.a_score a);
     Server.b_emotion := Some (Quiz.a_emotion a);
     Server.b_presentLevel := Some (Quiz.a_presentLevel a);
     Server.b_nextLevel := Some (Quiz.a_nextLevel a) |}.

(** ** Dashboard *)

(** An element of [continueLearning]. *)
Record ContinueLearning := {
  cl_subjectId : Server.Id;
  cl_subtopicId : Server.Id;
  cl_level : Z;
  cl_subjectName : string;
  cl_subtopicName : string
}.

(** The callback of [response.data.quizzes.map]: [q.subjectId._id]
    throws when the populated subject is [null] ([None] here).
    Identifiers are never empty, so [q.subjectId._id || q.subjectId]
    is the subject's id. *)
Definition continueOf (q : Server.ListedQuiz) : option ContinueLearning :=
  match Server.l_subject q with
  | None => None
  | Some subject =>
      Some {| cl_subjectId := Server.s_id subject;
              cl_subtopicId := Server.q_subtopicId (Server.l_quiz q);
              cl_level := Server.q_level (Server.l_quiz q);
              cl_subjectName :=
                Server.orElse (Some (Server.l_subjectName q))
                              (Server.orElse (Some (Server.s_name subject)) "");
              cl_subtopicName := Server.orElse (Some (Server.l_subtopicName q)) "" |}
  end.

Fixpoint continueAll (quizzes : list Server.ListedQuiz) : option (list ContinueLearning) :=
  match quizzes with
  | [] => Some []
  | q :: rest =>
      match continueOf q with
      | None => None
      | Some c =>
          match continueAll rest with
          | None => None
          | Some cs => Some (c :: cs)
          end
      end
  end.

(** [fetchInProgress]: the value [continueLearning] gets from the
    answer; the [catch] sets the empty list. *)
Definition fetchInProgress (quizzes : list Server.ListedQuiz) : list ContinueLearning :=
  match continueAll quizzes with
  | Some continueLearning => continueLearning
  | None => []
  end.

(** [handleContinueLearning]: the quiz route with
    [state: { level: quiz.level }]; the component mounts and fetches at
    its start level. *)
Definition handleContinueLearning (quiz : ContinueLearning) (quizProgress : option Z)
  : Quiz.State :=
  Quiz.mount (Quiz.startLevel (Some (cl_level quiz)) quizProgress).

End Client.

(* ================================================================== *)
(** * The vocabulary of the statements                                 *)
(* ================================================================== *)

Section LevelEngineContract.

Local Open Scope string_scope.
Local Open Scope list_scope.
Local Open Scope Z_scope.

(** The six emotions of the data model, and the label each one has in
    the code. *)
Inductive Emotion := happy | sad | angry | neutral | confused | excited.

Definition label (e : Emotion) : string :=
  match e with
  | happy => "happy" | sad => "sad" | angry => "angry"
  | neutral => "neutral" | confused => "confused" | excited => "excited"
  end.

(** The contract's two deltas and its clamp, in the specification's
    words. *)
Definition scoreDelta (score : Z) : Z :=
  if 80 <=? score then 2 else if score <? 50 then -1 else 0.

Definition emotionDelta (e : Emotion) : Z :=
  match e with
  | happy | excited => 1
  | sad | angry | confused => -1
  | neutral => 0
  end.

Definition clamp (lo hi x : Z) : Z :=
  if x <? lo then lo else if hi <? x then hi else x.

End LevelEngineContract.

Section RangeTables.

Local Open Scope Z_scope.

(** The integers [lo], [lo + 1], ..., [lo + n - 1]. *)
Definition range (lo : Z) (n : nat) : list Z :=
  map (fun k => lo + Z.of_nat k) (seq 0 n).

End RangeTables.

Section PoolSamples.

Local Open Scope string_scope.
Local Open Scope list_scope.
Local Open Scope Z_scope.

Import Performance.

(** One subject with one subtopic, attempted once. *)
Definition oneAttempt (level score : Z) : Totals :=
  totals [ {| name := "Maths"; subtopics := ["Fractions"] |} ]
         [ {| subjectName := "Maths"; subtopicName := "Fractions";
              score := score; nextLevel := level |} ].

End PoolSamples.

Section FallbackRule.

Local Open Scope string_scope.
Local Open Scope list_scope.
Local Open Scope Z_scope.

Import Server.

(** The fallback as a client reaches it: no [level] parameter, and the
    previous level, score and emotion written into the query string. *)
Definition fallbackLevel (previousLevel previousScore : Z) (previousEmotion : Emotion)
  : Z :=
  quizLevel None (Some (JS.show previousScore)) (Some (label previousEmotion))
            (Some (JS.show previousLevel)).

(** The backend's own score step: one level up from 80, one level down
    under 50. *)
Definition backendScoreDelta (score : Z) : Z :=
  if 80 <=? score then 1 else if score <? 50 then -1 else 0.

(** The backend's rule: the score step, clamped, then the emotion step,
    clamped. *)
Definition backendRule (previousLevel previousScore : Z) (e : Emotion) : Z :=
  clamp 1 10 (clamp 1 10 (previousLevel + backendScoreDelta previousScore)
              + emotionDelta e).

Definition emotions : list Emotion := [happy; sad; angry; neutral; confused; excited].

Definition levels : list Z := range 1 10.
Definition scores : list Z := range 0 101.

(** A property of (level, score, emotion) that holds on the whole
    table. *)
Definition onTable (P : Z -> Z -> Emotion -> bool) : bool :=
  forallb (fun l => forallb (fun s => forallb (P l s) emotions) scores) levels.

Definition isAngry (e : Emotion) : bool :=
  match e with angry => true | _ => false end.

End FallbackRule.

Section CompletionCounts.

Local Open Scope string_scope.
Local Open Scope list_scope.
Local Open Scope Z_scope.

Import Performance.

(** How many of the given subtopics were attempted, and how many of
    those were mastered. *)
Definition countAttempted (quizHistory : list Quiz) (es : list (string * string)) : Z :=
  Z.of_nat (List.length (filter (isAttempted quizHistory) es)).

Definition countMastered (quizHistory : list Quiz) (es : list (string * string)) : Z :=
  Z.of_nat (List.length
              (filter (isMastered quizHistory) (filter (isAttempted quizHistory) es))).

End CompletionCounts.

Section CompletionSamples.

Local Open Scope string_scope.
Local Open Scope list_scope.
Local Open Scope Z_scope.

Import Performance.

(** Three subtopics: one mastered at the first try; one whose two
    attempts share the highest [nextLevel], the earlier one failed; one
    never attempted. *)
Definition sampleSubjects : list Subject :=
  [ {| name := "Maths"; subtopics := ["Fractions"; "Decimals"; "Geometry"] |} ].

Definition sampleHistory : list Quiz :=
  [ {| subjectName := "Maths"; subtopicName := "Fractions"; score := 90; nextLevel := 8 |};
    {| subjectName := "Maths"; subtopicName := "Decimals"; score := 40; nextLevel := 9 |};
    {| subjectName := "Maths"; subtopicName := "Decimals"; score := 95; nextLevel := 9 |} ].

End CompletionSamples.

Section CompletionAtForty.

Local Open Scope string_scope.
Local Open Scope list_scope.
Local Open Scope Z_scope.

Import Performance.



End CompletionAtForty.

Section ChatRelations.

Local Open Scope string_scope.
Local Open Scope list_scope.
Local Open Scope Z_scope.

Import Server.

(** An active assignment links the two users, whichever of them is the
    therapist. *)
Definition linked (db : DB) (u v : Id) : Prop :=
  exists a, In a (assignments db)
            /\ ta_status a = active
            /\ ((ta_therapistId a = u /\ ta_userId a = v)
                \/ (ta_therapistId a = v /\ ta_userId a = u)).

(** A therapist and a student who are assigned, and a stranger. *)
Definition sampleDB : DB :=
  {| assignments := [ {| ta_therapistId := "thea"; ta_userId := "sam";
                         ta_status := active |};
                      {| ta_therapistId := "thea"; ta_userId := "ian";
                         ta_status := inactive |} ];
     messages := [ {| m_senderId := "thea"; m_receiverId := "sam";
                      m_content := "How was the quiz?"; m_read := false;
                      m_attachment := None; m_createdAt := 10; m_updatedAt := 10 |};
                   {| m_senderId := "sam"; m_receiverId := "thea";
                      m_content := "Hard."; m_read := false;
                      m_attachment := None; m_createdAt := 11; m_updatedAt := 11 |};
                   {| m_senderId := "thea"; m_receiverId := "sam";
                      m_content := "Try level 4."; m_read := false;
                      m_attachment := None; m_createdAt := 12; m_updatedAt := 12 |} ];
     quizzesInProgress := [] |}.

(** What the fetch by [viewer] does to one message of [peer]'s. *)
Definition unreadFromPeer (viewer peer : Id) (m : Message) : Prop :=
  m_senderId m = peer /\ m_receiverId m = viewer /\ m_read m = false.

(** A message before and after the fetch. *)
Definition markedBy (viewer peer : Id) (m m' : Message) : Prop :=
  m_senderId m' = m_senderId m
  /\ m_receiverId m' = m_receiverId m
  /\ m_content m' = m_content m
  /\ m_attachment m' = m_attachment m
  /\ m_createdAt m' = m_createdAt m
  /\ (unreadFromPeer viewer peer m -> m_read m' = true)
  /\ (~ unreadFromPeer viewer peer m -> m' = m).

End ChatRelations.

Section OpenRecords.

Local Open Scope string_scope.
Local Open Scope list_scope.
Local Open Scope Z_scope.

Import Server.

(** No user has two open records for the same subtopic. *)
Definition atMostOneOpen (qs : list QuizInProgress) : Prop :=
  forall u s t, (List.length (filter (inProgress u s t) qs) <= 1)%nat.

End OpenRecords.

Section SessionHistories.

Local Open Scope string_scope.
Local Open Scope list_scope.
Local Open Scope Z_scope.

Import Quiz.

(** The submissions since the component was mounted end with two, or
    with three, scores under 60. *)
Definition twoFailuresInARow (history : list HistoryEntry) : Prop :=
  exists earlier a b,
    history = earlier ++ [a; b] /\ h_score a < 60 /\ h_score b < 60.

Definition threeFailuresInARow (history : list HistoryEntry) : Prop :=
  exists earlier a b c,
    history = earlier ++ [a; b; c]
    /\ h_score a < 60 /\ h_score b < 60 /\ h_score c < 60.

(** The counter [handleSubmit] keeps, replayed over a history. *)
Definition streak (history : list HistoryEntry) : Z :=
  fold_left (fun n h => if h_score h <? 60 then n + 1 else 0) history 0.

(** What every page of a session satisfies: the counter is the streak of
    the history, and the results view shows the last submission's
    score. *)
Definition consistent (p : Page) : Prop :=
  match p with
  | QuizPage st =>
      consecutiveFailures st = streak (quizHistory st)
      /\ (showResults st = true ->
          exists earlier h, quizHistory st = earlier ++ [h] /\ score st = Some (h_score h))
  | ReviewPage _ => True
  end.

(** While a quiz is in progress the selected emotion is the latest
    reading collected, or neutral when there is none. *)
Definition tracksLatest (p : Page) : Prop :=
  match p with
  | QuizPage st =>
      showResults st = false ->
      selectedEmotion st = last (emotionDetections st) "neutral"
  | ReviewPage _ => True
  end.

End SessionHistories.

Section ReadingCounts.

Local Open Scope string_scope.
Local Open Scope list_scope.
Local Open Scope Z_scope.

Import Quiz.

(** How often a reading occurs among the collected ones. *)
Definition occurrences (e : string) (readings : list string) : Z :=
  Z.of_nat (count_occ string_dec readings e).

(** [freq[e]] for a key of [freq]'s own, [None] when it has none. *)
Fixpoint frequencyOf (e : string) (freq : list (string * FreqValue)) : option FreqValue :=
  match freq with
  | [] => None
  | (k, v) :: rest => if String.eqb k e then Some v else frequencyOf e rest
  end.

(** The table built by the counting loop of [getMostFrequentEmotion]
    and the choice its second loop makes from a table. *)
Definition frequencies (readings : list string) (freq : list (string * FreqValue))
  : list (string * FreqValue) :=
  fold_left (fun freq e => if countable e then bump e freq else freq) readings freq.

Definition pickMax (freq : list (string * FreqValue)) (start : Z * string) : Z * string :=
  fold_left
    (fun '(max, result) '(emotion, count) =>
       match count with
       | Count n => if n >? max then (n, emotion) else (max, result)
       | NotANumber => (max, result)
       end)
    freq start.

(** The table has each key once: the readings seen so far that pass
    the guard, [__proto__] apart; an inherited name holds a string,
    any other key its count. *)
Definition countsOf (seen : list string) (freq : list (string * FreqValue)) : Prop :=
  NoDup (map fst freq)
  /\ forall k, frequencyOf k freq
               = if countable k && (0 <? occurrences k seen)
                    && negb (String.eqb k "__proto__")
                 then Some (if inherited k then NotANumber else Count (occurrences k seen))
                 else None.

(** How many questions, counted from [index], have their correct answer
    selected. *)
Fixpoint correctFrom (index : nat) (questions : list Question) (selectedAnswers : Answers)
  : Z :=
  match questions with
  | [] => 0
  | q :: rest =>
      (match answerAt selectedAnswers index with
       | Some answer => if String.eqb answer (correctAnswer q) then 1 else 0
       | None => 0
       end) + correctFrom (S index) rest selectedAnswers
  end.

(** The levels a page holds are difficulty levels. *)
Definition levelsInRange (p : Page) : Prop :=
  match p with
  | QuizPage st => 1 <= currentLevel st <= 10 /\ 1 <= nextLevel st <= 10
  | ReviewPage (Some l) => 1 <= l <= 10
  | ReviewPage None => True
  end.

End ReadingCounts.

Section ScoringSamples.

Local Open Scope string_scope.
Local Open Scope list_scope.
Local Open Scope Z_scope.

Import Quiz.

(** Three questions; the second answer is changed from wrong to right. *)
Definition sampleQuestions : list Question :=
  [ {| question := "1 + 1"; options := ["1"; "2"; "3"; "4"]; correctAnswer := "2" |};
    {| question := "2 + 2"; options := ["1"; "2"; "3"; "4"]; correctAnswer := "4" |};
    {| question := "3 - 2"; options := ["1"; "2"; "3"; "4"]; correctAnswer := "1" |} ].

Definition sampleAnswers : Answers :=
  handleAnswerSelect
    (handleAnswerSelect
       (handleAnswerSelect (handleAnswerSelect [] 0 "2") 1 "3") 2 "1") 1 "4".

End ScoringSamples.

Section PoolOfScores.

Local Open Scope string_scope.
Local Open Scope list_scope.
Local Open Scope Z_scope.

Import Performance.

(** The attempts of the listed subtopics, subject after subject, and
    the banded score of each. *)
Definition listedAttempts (subjects : list Subject) (quizHistory : list Quiz)
  : list Quiz :=
  flat_map (attemptsOf quizHistory) (catalogue subjects).

Definition bandedScore (quiz : Quiz) : Q :=
  calculatePerformanceScore (nextLevel quiz) (score quiz).

(** A quiz of the history names this subtopic of the catalogue. *)
Definition names (quiz : Quiz) (e : string * string) : bool :=
  String.eqb (subjectName quiz) (fst e) && String.eqb (subtopicName quiz) (snd e).

End PoolOfScores.

Section StoreRelations.

Local Open Scope string_scope.
Local Open Scope list_scope.
Local Open Scope Z_scope.

Import Server.

(** Largest key first. *)
Fixpoint descending {A} (key : A -> Z) (l : list A) : Prop :=
  match l with
  | [] => True
  | x :: rest => (forall y, In y rest -> key y <= key x) /\ descending key rest
  end.

(** An entry of the dashboard's list resumes this record. *)
Definition resumes (c : Client.ContinueLearning) (q : QuizInProgress) : Prop :=
  Client.cl_subjectId c = q_subjectId q
  /\ Client.cl_subtopicId c = q_subtopicId q
  /\ Client.cl_level c = q_level q.

Definition forSubtopic (subjectId subtopicId : Id) (c : Client.ContinueLearning) : bool :=
  String.eqb (Client.cl_subjectId c) subjectId
  && String.eqb (Client.cl_subtopicId c) subtopicId.

(** The unique index of the assignments: no pair of therapist and user
    twice. *)
Definition pairsUnique (asg : list TherapistAssignment) : Prop :=
  NoDup (map (fun a => (ta_therapistId a, ta_userId a)) asg).



(** A student and two therapist accounts, two subjects, a body as the
    quiz posts it and a store with one result.  Identifiers are written
    as ObjectIds are: twenty-four characters. *)
Definition sam : Id := "64b7f0a1c2d3e4f5a6b7c801".
Definition thea : Id := "64b7f0a1c2d3e4f5a6b7c802".
Definition theo : Id := "64b7f0a1c2d3e4f5a6b7c803".
Definition maths : Id := "64b7f0a1c2d3e4f5a6b7c901".
Definition fractions : Id := "64b7f0a1c2d3e4f5a6b7c911".
Definition primes : Id := "64b7f0a1c2d3e4f5a6b7c912".
Definition physics : Id := "64b7f0a1c2d3e4f5a6b7c902".
Definition optics : Id := "64b7f0a1c2d3e4f5a6b7c921".

Definition sampleIsValid (id : string) : bool :=
  Nat.eqb (String.length id) 24.

(** A cast for the samples: twenty-four hexadecimal digits, read
    without regard to case. *)
Fixpoint allHex (s : string) : bool :=
  match s with
  | EmptyString => true
  | String c r =>
      match JS.digit_val c with
      | Some _ => allHex r
      | None => false
      end
  end.

Definition sampleCast (id : string) : option Id :=
  if Nat.eqb (String.length id) 24 && allHex id then Some (JS.toLowerCase id) else None.

(** Sam is assigned to Thea and to nobody else. *)
Definition sampleClinic : DB :=
  {| assignments := [ {| ta_therapistId := thea; ta_userId := sam;
                         ta_status := active |} ];
     messages := [];
     quizzesInProgress := [] |}.

Definition sampleUsers : list User :=
  [ {| u_id := sam; u_role := role_user |};
    {| u_id := thea; u_role := role_therapist |};
    {| u_id := theo; u_role := role_therapist |} ].

Definition sampleCollection : list SubjectDoc :=
  [ {| s_id := maths; s_name := "Mathematics";
       s_subtopics := [ {| st_id := fractions; st_name := "Fractions" |};
                        {| st_id := primes; st_name := "Prime numbers" |} ] |};
    {| s_id := physics; s_name := "Physics";
       s_subtopics := [ {| st_id := optics; st_name := "Optics" |} ] |} ].


Definition sampleStore : list UserQuiz :=
  [ {| uq_userId := sam; uq_subjectId := maths; uq_subtopicId := fractions;
       uq_results := [ {| r_score := 40; r_emotion := "sad"; r_presentLevel := 5;
                          r_nextLevel := 3; r_createdAt := 7 |} ];
       uq_createdAt := 7; uq_updatedAt := 7 |} ].

End StoreRelations.

(* ================================================================== *)
(** * Level engine                                                     *)
(* ================================================================== *)

(** Settles the integer tests of a goal from the hypotheses at hand. *)
Ltac settle_tests :=
  repeat match goal with
    | |- context [(?a >=? ?b)%Z] => rewrite (Z.geb_leb a b)
    | |- context [(?a >? ?b)%Z] => rewrite (Z.gtb_ltb a b)
    | |- context [(?a <=? ?b)%Z] => destruct (Z.leb_spec a b); try lia
    | |- context [(?a <? ?b)%Z] => destruct (Z.ltb_spec a b); try lia
    end.

Section LevelEngine.

Local Open Scope string_scope.
Local Open Scope list_scope.
Local Open Scope Z_scope.

Lemma clamp_range lo hi x : lo <= hi -> lo <= clamp lo hi x <= hi.
Proof. intros Hle. unfold clamp. settle_tests. Qed.

Lemma max_min_clamp x : Z.max 1 (Z.min 10 x) = clamp 1 10 x.
Proof. unfold clamp. settle_tests. Qed.

(** The code's running [levelChange] is the sum of the two deltas,
    whatever the level and the score. *)
Lemma calculateNewLevel_deltas currentLevel score e :
  Quiz.calculateNewLevel currentLevel score (label e)
  = clamp 1 10 (currentLevel + scoreDelta score + emotionDelta e).
Proof.
  unfold Quiz.calculateNewLevel, scoreDelta. rewrite max_min_clamp.
  f_equal. rewrite Z.geb_leb.
  destruct (80 <=? score); [|destruct (score <? 50)]; destruct e; simpl; lia.
Qed.

(** C1.  For a level in 1..10, a score in 0..100 and any of the six
    emotions, [calculateNewLevel] returns
    clamp(1, 10, level + scoreDelta + emotionDelta); the result lies
    in 1..10; and level 5 with score 85 and a happy user gives 8. *)
Theorem C1_level_engine_contract (currentLevel score : Z) (e : Emotion) :
  1 <= currentLevel <= 10 ->
  0 <= score <= 100 ->
  Quiz.calculateNewLevel currentLevel score (label e)
  = clamp 1 10 (currentLevel + scoreDelta score + emotionDelta e)
  /\ 1 <= Quiz.calculateNewLevel currentLevel score (label e) <= 10
  /\ Quiz.calculateNewLevel 5 85 (label happy) = 8.
Proof.
  intros _ _. rewrite calculateNewLevel_deltas.
  split; [reflexivity|]. split; [apply clamp_range; lia | reflexivity].
Qed.

Lemma C1_level_engine_witness :
  Quiz.calculateNewLevel 5 85 "happy" = clamp 1 10 (5 + 2 + 1)
  /\ 1 <= Quiz.calculateNewLevel 5 85 "happy" <= 10
  /\ Quiz.calculateNewLevel 5 85 "happy" = 8.
Proof.
  apply (C1_level_engine_contract 5 85 happy); lia.
Defined.

End LevelEngine.

(* ================================================================== *)
(** * Checking a finite range by evaluation                            *)
(* ================================================================== *)

Section Ranges.

Local Open Scope Z_scope.

Lemma in_range lo n z : lo <= z < lo + Z.of_nat n -> In z (range lo n).
Proof.
  intros Hz. unfold range. apply in_map_iff.
  exists (Z.to_nat (z - lo)). split; [lia|].
  apply in_seq. lia.
Qed.

Lemma forallb_range (P : Z -> bool) lo n :
  forallb P (range lo n) = true ->
  forall z, lo <= z < lo + Z.of_nat n -> P z = true.
Proof.
  intros Hall z Hz. rewrite forallb_forall in Hall.
  apply Hall, in_range, Hz.
Qed.

End Ranges.

(* ================================================================== *)
(** * Performance score                                                *)
(* ================================================================== *)

Section PerformanceScore.

Local Open Scope string_scope.
Local Open Scope list_scope.
Local Open Scope Z_scope.

Import Performance.

(** C4.  [calculatePerformanceScore] by band: from level 8 up a score
    under 50 counts 75 and any other score counts as itself; at levels
    5 to 7 the score counts as itself; under level 5 a score of 80 or
    more counts 40 and any other score counts half.  An attempt at
    level 9 scoring 40 adds 75 to the pool that is averaged, one at
    level 2 scoring 90 adds 40. *)
Theorem C4_performance_score_bands (level score : Z) :
  (8 <= level -> score < 50 -> calculatePerformanceScore level score = 75%Q)
  /\ (8 <= level -> 50 <= score ->
      calculatePerformanceScore level score = inject_Z score)
  /\ (5 <= level <= 7 -> calculatePerformanceScore level score = inject_Z score)
  /\ (level < 5 -> 80 <= score -> calculatePerformanceScore level score = 40%Q)
  /\ (level < 5 -> score < 80 ->
      calculatePerformanceScore level score = (inject_Z score / 2)%Q)
  /\ calculatePerformanceScore 9 40 = 75%Q
  /\ calculatePerformanceScore 2 90 = 40%Q
  /\ totalPerformanceScore (oneAttempt 9 40) = 75%Q
  /\ totalPerformanceScore (oneAttempt 2 90) = 40%Q.
Proof.
  unfold calculatePerformanceScore.
  repeat split; try reflexivity; intros; settle_tests; reflexivity.
Qed.

(** The bands at work: level 8 with 49, level 8 with 50, level 6 with
    33, level 4 with 80 and level 4 with 79. *)
Lemma C4_performance_score_witness :
  calculatePerformanceScore 8 49 = 75%Q
  /\ calculatePerformanceScore 8 50 = 50%Q
  /\ calculatePerformanceScore 6 33 = 33%Q
  /\ calculatePerformanceScore 4 80 = 40%Q
  /\ calculatePerformanceScore 4 79 = (79 # 2)%Q.
Proof.
  destruct (C4_performance_score_bands 8 49) as (H1 & _).
  destruct (C4_performance_score_bands 8 50) as (_ & H2 & _).
  destruct (C4_performance_score_bands 6 33) as (_ & _ & H3 & _).
  destruct (C4_performance_score_bands 4 80) as (_ & _ & _ & H4 & _).
  destruct (C4_performance_score_bands 4 79) as (_ & _ & _ & _ & H5 & _).
  split; [apply H1; lia|].
  split; [apply H2; lia|].
  split; [apply H3; lia|].
  split; [apply H4; lia|].
  apply H5; lia.
Defined.

End PerformanceScore.

(* ================================================================== *)
(** * Backend: the level of a fetched quiz                             *)
(* ================================================================== *)

Section QuizLevel.

Local Open Scope string_scope.
Local Open Scope list_scope.
Local Open Scope Z_scope.

Import Server.

Lemma emotions_complete e : In e emotions.
Proof. destruct e; simpl; tauto. Qed.

Lemma onTable_spec P :
  onTable P = true ->
  forall l s e, 1 <= l <= 10 -> 0 <= s <= 100 -> P l s e = true.
Proof.
  unfold onTable. intros Hall l s e Hl Hs.
  pose proof (forallb_range
                (fun l => forallb (fun s => forallb (P l s) emotions) scores)
                1 10 Hall l ltac:(lia)) as Hrow.
  cbv beta in Hrow.
  pose proof (forallb_range (fun s => forallb (P l s) emotions)
                0 101 Hrow s ltac:(lia)) as Hcell.
  cbv beta in Hcell.
  rewrite forallb_forall in Hcell. apply Hcell, emotions_complete.
Qed.

Lemma fallback_table :
  onTable (fun l s e =>
             isAngry e || (fallbackLevel l s e =? backendRule l s e)) = true.
Proof. vm_compute. reflexivity. Qed.

Lemma fallback_agreement_table :
  onTable (fun l s e =>
             isAngry e || (s <? 50) || (80 <=? s)
             || (fallbackLevel l s e =? Quiz.calculateNewLevel l s (label e))) = true.
Proof. vm_compute. reflexivity. Qed.

Lemma fallback_angry_table :
  onTable (fun l s e =>
             negb (isAngry e)
             || (fallbackLevel l s e =? clamp 1 10 (l + backendScoreDelta s))) = true.
Proof. vm_compute. reflexivity. Qed.

(** X13.  For a previous level in 1..10 and a previous score in 0..100
    the fallback moves an angry user by the score alone (one level up
    from 80, one down under 50, kept in 1..10): its test of the emotion
    has no case for angry. *)
Lemma fallback_ignores_anger l s :
  1 <= l <= 10 -> 0 <= s <= 100 ->
  fallbackLevel l s angry = clamp 1 10 (l + backendScoreDelta s).
Proof.
  intros Hl Hs.
  pose proof (onTable_spec _ fallback_angry_table l s angry Hl Hs) as H.
  cbv beta in H. apply Z.eqb_eq, H.
Qed.

(** C5, as the code has it.  For a previous level in 1..10, a previous
    score in 0..100 and a previous emotion other than angry, the
    fallback moves one level on the score (up from 80, down under 50),
    clamps, then applies the level engine's emotion delta and clamps
    again.  With a score from 50 to 79 this is the level engine's
    value. *)
Theorem C5_fallback_rule (previousLevel previousScore : Z) (e : Emotion) :
  1 <= previousLevel <= 10 ->
  0 <= previousScore <= 100 ->
  e <> angry ->
  fallbackLevel previousLevel previousScore e
  = clamp 1 10 (clamp 1 10 (previousLevel + backendScoreDelta previousScore)
                + emotionDelta e)
  /\ (50 <= previousScore < 80 ->
      fallbackLevel previousLevel previousScore e
      = clamp 1 10 (previousLevel + scoreDelta previousScore + emotionDelta e)).
Proof.
  intros Hl Hs He.
  assert (Ha : isAngry e = false) by (destruct e; try reflexivity; contradiction).
  split.
  - pose proof (onTable_spec _ fallback_table _ _ e Hl Hs) as H.
    cbv beta in H. rewrite Ha in H. apply Z.eqb_eq, H.
  - intros Hmid.
    pose proof (onTable_spec _ fallback_agreement_table _ _ e Hl Hs) as H.
    cbv beta in H. rewrite Ha in H.
    replace (previousScore <? 50) with false in H by (symmetry; apply Z.ltb_ge; lia).
    replace (80 <=? previousScore) with false in H by (symmetry; apply Z.leb_gt; lia).
    apply Z.eqb_eq in H. rewrite H.
    apply calculateNewLevel_deltas.
Qed.

Lemma C5_fallback_rule_witness :
  fallbackLevel 5 60 happy = clamp 1 10 (clamp 1 10 (5 + backendScoreDelta 60) + 1)
  /\ fallbackLevel 5 60 happy = clamp 1 10 (5 + scoreDelta 60 + 1).
Proof.
  destruct (C5_fallback_rule 5 60 happy) as [Hrule Hsame];
    [lia | lia | discriminate |].
  split; [exact Hrule | apply Hsame; lia].
Defined.

(** Against C5 as the specification states it: after level 5 and a score of 85 with a neutral
    user the fallback asks for level 6, the level engine for level 7. *)
Lemma C5_fallback_differs_from_level_engine :
  fallbackLevel 5 85 neutral = 6
  /\ clamp 1 10 (5 + scoreDelta 85 + emotionDelta neutral) = 7
  /\ Quiz.calculateNewLevel 5 85 (label neutral) = 7.
Proof. vm_compute. repeat split. Qed.

(** C10.  The questions are generated at level 5 when no [level]
    parameter is usable and the three previous-attempt parameters are
    not all there, and also when the level obtained from the parameters
    is not a number or falls outside 1..10. *)
Theorem C10_default_level (level previousScore previousEmotion previousLevel : JS.value) :
  (JS.truthy level = false
   /\ (JS.truthy previousScore && JS.truthy previousEmotion
       && JS.truthy previousLevel) = false)
  \/ parsedLevel level previousScore previousEmotion previousLevel = None
  \/ (exists n, parsedLevel level previousScore previousEmotion previousLevel = Some n
                /\ (n < 1 \/ 10 < n)) ->
  quizLevel level previousScore previousEmotion previousLevel = 5.
Proof.
  unfold quizLevel. intros [[Hlevel Htriple] | [Hnan | (n & Hn & Hout)]].
  - unfold parsedLevel. rewrite Hlevel, Htriple. reflexivity.
  - rewrite Hnan. reflexivity.
  - rewrite Hn. settle_tests; reflexivity.
Qed.

(** Only a score and a level are sent; then [level=abc]; then
    [level=42]. *)
Lemma C10_default_level_witness :
  quizLevel None (Some "85") None (Some "7") = 5
  /\ quizLevel (Some "abc") None None None = 5
  /\ quizLevel (Some "42") None None None = 5.
Proof.
  split; [|split].
  - apply (C10_default_level None (Some "85") None (Some "7")).
    left. split; reflexivity.
  - apply (C10_default_level (Some "abc") None None None).
    right. left. reflexivity.
  - apply (C10_default_level (Some "42") None None None).
    right. right. exists 42. split; [reflexivity | lia].
Defined.

(** Whatever the four query parameters are (each any string, or
    absent), the level the questions are generated at lies in 1..10. *)
Lemma quizLevel_range level previousScore previousEmotion previousLevel :
  1 <= quizLevel level previousScore previousEmotion previousLevel <= 10.
Proof.
  unfold quizLevel.
  destruct (parsedLevel _ _ _ _) as [n|]; [|lia].
  settle_tests; simpl; lia.
Qed.

End QuizLevel.

(* ================================================================== *)
(** * Completion statistics                                            *)
(* ================================================================== *)

Section Completion.

Local Open Scope string_scope.
Local Open Scope list_scope.
Local Open Scope Z_scope.

Import Performance.

Variable quizHistory : list Quiz.

Lemma filter_twice {A} (p q : A -> bool) (l : list A) :
  filter q (filter p l) = filter (fun x => p x && q x) l.
Proof.
  induction l as [|x l IH]; simpl; [reflexivity|].
  destruct (p x); simpl; [|exact IH].
  destruct (q x); rewrite IH; reflexivity.
Qed.

(** The running maximum of the [reduce], against [topAttempt]. *)
Lemma reduce_highest (rest : list Quiz) (h : Quiz) :
  fold_left
    (fun highest quiz => if nextLevel quiz >? nextLevel highest then quiz else highest)
    rest h
  = match topAttempt rest with
    | Some r => if nextLevel r >? nextLevel h then r else h
    | None => h
    end.
Proof.
  revert h. induction rest as [|q rest IH]; intros h; simpl; [reflexivity|].
  rewrite IH. destruct (topAttempt rest) as [r|].
  - destruct (Z.gtb_spec (nextLevel q) (nextLevel h)); cbn iota;
      destruct (Z.gtb_spec (nextLevel r) (nextLevel q)); cbn iota;
      try destruct (Z.gtb_spec (nextLevel r) (nextLevel h)); cbn iota;
      try destruct (Z.gtb_spec (nextLevel q) (nextLevel h));
      try reflexivity; lia.
  - destruct (Z.gtb_spec (nextLevel q) (nextLevel h)); reflexivity.
Qed.

Lemma highestLevelQuiz_top (q : Quiz) (rest : list Quiz) :
  topAttempt (q :: rest) = Some (highestLevelQuiz (q :: rest) q).
Proof.
  unfold highestLevelQuiz. simpl.
  replace (nextLevel q >? nextLevel q) with false
    by (symmetry; rewrite Z.gtb_ltb; apply Z.ltb_irrefl).
  rewrite reduce_highest.
  destruct (topAttempt rest) as [r|]; [|reflexivity].
  destruct (nextLevel r >? nextLevel q); reflexivity.
Qed.

(** [topAttempt] does pick the earliest attempt among those with the
    highest [nextLevel]. *)
Lemma topAttempt_earliest_highest (l : list Quiz) (q : Quiz) :
  topAttempt l = Some q ->
  exists before after,
    l = before ++ q :: after
    /\ (forall x, In x before -> nextLevel x < nextLevel q)
    /\ (forall x, In x after -> nextLevel x <= nextLevel q).
Proof.
  revert q. induction l as [|a l IH]; intros q; simpl; [discriminate|].
  destruct (topAttempt l) as [r|] eqn:Htop.
  - destruct (IH r eq_refl) as (before & after & Hl & Hb & Ha).
    destruct (Z.gtb_spec (nextLevel r) (nextLevel a)) as [Hgt|Hle];
      intros Hq; injection Hq as <-.
    + exists (a :: before), after. rewrite Hl. split; [reflexivity|].
      split; [|exact Ha].
      intros x [<-|Hx]; [lia | apply Hb, Hx].
    + exists [], l. split; [reflexivity|].
      split; [intros x []|].
      intros x Hx. rewrite Hl in Hx. apply in_app_or in Hx.
      destruct Hx as [Hx|[<-|Hx]].
      * specialize (Hb x Hx). lia.
      * exact Hle.
      * specialize (Ha x Hx). lia.
  - intros Hq; injection Hq as <-.
    exists [], l. split; [reflexivity|]. split; [intros x []|].
    destruct l; [intros x []|simpl in Htop].
    destruct (topAttempt l); [destruct (_ >? _)|]; discriminate.
Qed.

Lemma countAttempted_cons e es :
  countAttempted quizHistory (e :: es)
  = (if isAttempted quizHistory e then 1 else 0) + countAttempted quizHistory es.
Proof.
  unfold countAttempted. simpl.
  destruct (isAttempted quizHistory e); simpl List.length; lia.
Qed.

Lemma countMastered_cons e es :
  countMastered quizHistory (e :: es)
  = (if isAttempted quizHistory e && isMastered quizHistory e then 1 else 0)
    + countMastered quizHistory es.
Proof.
  unfold countMastered. simpl.
  destruct (isAttempted quizHistory e); simpl; [|lia].
  destruct (isMastered quizHistory e); simpl List.length; lia.
Qed.

Lemma countAttempted_app es es' :
  countAttempted quizHistory (es ++ es') = countAttempted quizHistory es + countAttempted quizHistory es'.
Proof.
  unfold countAttempted. rewrite filter_app, length_app. lia.
Qed.

Lemma countMastered_app es es' :
  countMastered quizHistory (es ++ es') = countMastered quizHistory es + countMastered quizHistory es'.
Proof.
  unfold countMastered. rewrite !filter_app, length_app. lia.
Qed.

(** One pass of the inner loop. *)
Lemma subtopicStep_counts (subject : string) (acc : SubjectLoop) (subtopic : string) :
  let subjectQuizzes :=
    filter (fun quiz => String.eqb (subjectName quiz) subject) quizHistory in
  let acc' := subtopicStep subjectQuizzes acc subtopic in
  l_totalSubtopics acc'
  = l_totalSubtopics acc + countAttempted quizHistory [(subject, subtopic)]
  /\ l_completedSubtopics acc'
     = l_completedSubtopics acc + countMastered quizHistory [(subject, subtopic)].
Proof.
  intros subjectQuizzes acc'. subst subjectQuizzes acc'.
  rewrite countAttempted_cons, countMastered_cons.
  unfold subtopicStep, isAttempted, isMastered, attemptsOf. simpl fst. simpl snd.
  rewrite filter_twice.
  destruct (filter _ quizHistory) as [|first rest] eqn:Hf.
  - unfold countAttempted, countMastered. simpl. lia.
  - rewrite highestLevelQuiz_top. cbn [l_totalSubtopics l_completedSubtopics andb].
    unfold countAttempted, countMastered. simpl filter. simpl List.length.
    destruct (_ && _); simpl; lia.
Qed.

Lemma subtopics_counts (subject : string) (subs : list string) (acc : SubjectLoop) :
  let subjectQuizzes :=
    filter (fun quiz => String.eqb (subjectName quiz) subject) quizHistory in
  let acc' := fold_left (subtopicStep subjectQuizzes) subs acc in
  l_totalSubtopics acc'
  = l_totalSubtopics acc + countAttempted quizHistory (map (fun x => (subject, x)) subs)
  /\ l_completedSubtopics acc'
     = l_completedSubtopics acc + countMastered quizHistory (map (fun x => (subject, x)) subs).
Proof.
  revert acc. induction subs as [|t subs IH]; intros acc; simpl.
  - unfold countAttempted, countMastered. simpl. lia.
  - destruct (IH (subtopicStep
                    (filter (fun quiz => String.eqb (subjectName quiz) subject)
                            quizHistory) acc t)) as [IHt IHc].
    destruct (subtopicStep_counts subject acc t) as [Ht Hc].
    cbv zeta in Ht, Hc, IHt, IHc.
    rewrite IHt, IHc, Ht, Hc.
    change ((subject, t) :: map (fun x => (subject, x)) subs)
      with ([(subject, t)] ++ map (fun x => (subject, x)) subs).
    rewrite countAttempted_app, countMastered_app. lia.
Qed.

(** A subject without any quiz has no attempted subtopic. *)
Lemma unattempted_subject (subject : string) (subs : list string) :
  filter (fun quiz => String.eqb (subjectName quiz) subject) quizHistory = [] ->
  countAttempted quizHistory (map (fun x => (subject, x)) subs) = 0
  /\ countMastered quizHistory (map (fun x => (subject, x)) subs) = 0.
Proof.
  intros Hnone.
  assert (Hf : filter (isAttempted quizHistory) (map (fun x => (subject, x)) subs) = []).
  { induction subs as [|t subs IH]; simpl; [reflexivity|].
    unfold isAttempted at 1, attemptsOf. simpl fst. simpl snd.
    rewrite <- filter_twice, Hnone. simpl. exact IH. }
  unfold countAttempted, countMastered. rewrite Hf. split; reflexivity.
Qed.

Lemma subjectStep_counts (t : Totals) (subject : Subject) :
  let t' := subjectStep quizHistory t subject in
  totalSubtopics t'
  = totalSubtopics t + countAttempted quizHistory (map (fun x => (name subject, x)) (subtopics subject))
  /\ completedSubtopics t'
     = completedSubtopics t
       + countMastered quizHistory (map (fun x => (name subject, x)) (subtopics subject)).
Proof.
  unfold subjectStep.
  destruct (filter (fun quiz => String.eqb (subjectName quiz) (name subject))
                   quizHistory) as [|q l] eqn:Hf.
  - destruct (unattempted_subject (name subject) (subtopics subject) Hf) as [-> ->].
    simpl. lia.
  - cbv zeta. cbn [totalSubtopics completedSubtopics].
    rewrite <- Hf.
    destruct (subtopics_counts (name subject) (subtopics subject)
                {| l_totalSubtopics := totalSubtopics t;
                   l_completedSubtopics := completedSubtopics t;
                   subjectPerformanceScores := [] |}) as [Ht Hc].
    cbv zeta in Ht, Hc. rewrite Ht, Hc. simpl. lia.
Qed.

Lemma subjects_counts (subjects : list Subject) (t : Totals) :
  let t' := fold_left (subjectStep quizHistory) subjects t in
  totalSubtopics t' = totalSubtopics t + countAttempted quizHistory (catalogue subjects)
  /\ completedSubtopics t' = completedSubtopics t + countMastered quizHistory (catalogue subjects).
Proof.
  revert t. induction subjects as [|s subjects IH]; intros t; simpl.
  - unfold countAttempted, countMastered. simpl. lia.
  - destruct (IH (subjectStep quizHistory t s)) as [IHt IHc].
    destruct (subjectStep_counts t s) as [Ht Hc].
    cbv zeta in IHt, IHc, Ht, Hc.
    rewrite IHt, IHc, Ht, Hc.
    unfold catalogue at 3 4. simpl flat_map.
    fold (catalogue subjects).
    rewrite countAttempted_app, countMastered_app. lia.
Qed.

Lemma totals_counts (subjects : list Subject) :
  totalSubtopics (totals subjects quizHistory) = countAttempted quizHistory (catalogue subjects)
  /\ completedSubtopics (totals subjects quizHistory)
     = countMastered quizHistory (catalogue subjects).
Proof.
  unfold totals.
  destruct (subjects_counts subjects
              {| totalSubtopics := 0; completedSubtopics := 0;
                 totalPerformanceScore := 0%Q; totalQuizzes := 0 |}) as [Ht Hc].
  cbv zeta in Ht, Hc. rewrite Ht, Hc. simpl. lia.
Qed.

End Completion.

Section OverallCompletion.

Local Open Scope string_scope.
Local Open Scope list_scope.
Local Open Scope Z_scope.

Import Performance.

(** Below 40 attempted subtopics the binary64 computation
    [Math.round((c / t) * 100)] is the exact percentage rounded to the
    nearest integer, halves upwards. *)
Lemma round_percent_exact_table :
  forallb (fun t =>
             forallb (fun c => (t <? c)
                               || match JS.round_percent c t with
                                  | Some r => r =? (200 * c + t) / (2 * t)
                                  | None => false
                                  end)
                     (range 0 40))
          (range 1 39) = true.
Proof. vm_compute. reflexivity. Qed.

Lemma round_percent_exact (c t : Z) :
  0 <= c <= t -> 0 < t < 40 ->
  JS.round_percent c t = Some ((200 * c + t) / (2 * t)).
Proof.
  intros Hc Ht.
  pose proof (forallb_range _ 1 39 round_percent_exact_table t ltac:(lia)) as Hrow.
  cbv beta in Hrow.
  pose proof (forallb_range _ 0 40 Hrow c ltac:(lia)) as Hcell.
  cbv beta in Hcell.
  replace (t <? c) with false in Hcell by (symmetry; apply Z.ltb_ge; lia).
  destruct (JS.round_percent c t) as [r|]; [|discriminate].
  apply Z.eqb_eq in Hcell. subst r. reflexivity.
Qed.

(** At 40 the quotient's binary rounding first shows: 23 of 40 is
    57.5 percent, computed as 57.49999999999999 and rounded to 57. *)
Lemma round_percent_23_of_40 : JS.round_percent 23 40 = Some 57.
Proof. vm_compute. reflexivity. Qed.

Lemma nothing_attempted (subjects : list Subject) (quizHistory : list Quiz) :
  attempted subjects quizHistory = [] ->
  overallPercentage subjects quizHistory = Some 0.
Proof.
  intros Hnone. unfold overallPercentage.
  destruct (totals_counts quizHistory subjects) as [Ht _].
  rewrite Ht. unfold countAttempted. fold (attempted subjects quizHistory).
  rewrite Hnone. reflexivity.
Qed.



Example sample_completion : overallPercentage sampleSubjects sampleHistory = Some 50.
Proof. vm_compute. reflexivity. Qed.


End OverallCompletion.

(* ================================================================== *)
(** * Backend: chat                                                    *)
(* ================================================================== *)

Section Chat.

Local Open Scope string_scope.
Local Open Scope list_scope.
Local Open Scope Z_scope.

Import Server.

Lemma links_true u v a :
  links u v a = true <->
  ta_status a = active
  /\ ((ta_therapistId a = u /\ ta_userId a = v)
      \/ (ta_therapistId a = v /\ ta_userId a = u)).
Proof.
  unfold links.
  rewrite andb_true_iff, orb_true_iff, !andb_true_iff, !String.eqb_eq.
  unfold is_active. destruct (ta_status a); intuition congruence.
Qed.

Lemma findAssignment_some db u v a : findAssignment db u v = Some a -> linked db u v.
Proof.
  unfold findAssignment. intros Hfind. apply find_some in Hfind.
  destruct Hfind as [Hin Hlinks]. apply links_true in Hlinks.
  exists a. tauto.
Qed.

Lemma findAssignment_none db u v : findAssignment db u v = None -> ~ linked db u v.
Proof.
  unfold findAssignment. intros Hfind (a & Hin & Hact & Hpair).
  pose proof (find_none _ _ Hfind a Hin) as Hno.
  assert (Hyes : links u v a = true) by (apply links_true; tauto).
  congruence.
Qed.

Lemma linked_found db u v : linked db u v -> exists a, findAssignment db u v = Some a.
Proof.
  intros Hl. destruct (findAssignment db u v) as [a|] eqn:Hfind; [eauto|].
  exfalso. exact (findAssignment_none _ _ _ Hfind Hl).
Qed.

(** A send that is not answered with 201 stores nothing. *)
Lemma postChat_rejected now u v content attachment db :
  code (fst (postChat now u v content attachment db)) <> 201 ->
  snd (postChat now u v content attachment db) = db.
Proof.
  unfold postChat.
  destruct (negb (JS.truthy content)); [reflexivity|].
  destruct (findAssignment db u v); [|reflexivity].
  destruct (String.eqb _ ""); [reflexivity|].
  simpl. intros H. contradiction H. reflexivity.
Qed.

(** The two handlers on an identifier that is not an ObjectId: the
    query throws and the answer is 500 (unless the send has no content,
    which is tested first); nothing is stored. *)
Lemma chat_not_an_ObjectId cast now currentUserId userId content attachment db :
  cast userId = None ->
  getChatHistoryEndpoint cast now currentUserId userId db
  = ({| code := 500; body := Failure "Error fetching chat history" |}, db)
  /\ (JS.truthy content = true ->
      sendMessageEndpoint cast now currentUserId userId content attachment db
      = ({| code := 500; body := Failure "Error sending message" |}, db)).
Proof.
  intros Hcast. unfold getChatHistoryEndpoint, sendMessageEndpoint. rewrite Hcast.
  split; [reflexivity|]. intros ->. reflexivity.
Qed.

(** On an identifier Mongoose casts, the handlers go on with the
    ObjectId. *)
Lemma chat_on_ObjectId cast now currentUserId userId peer content attachment db :
  cast userId = Some peer ->
  getChatHistoryEndpoint cast now currentUserId userId db
  = getChat now currentUserId peer db
  /\ sendMessageEndpoint cast now currentUserId userId content attachment db
     = postChat now currentUserId peer content attachment db.
Proof.
  intros Hcast. unfold getChatHistoryEndpoint, sendMessageEndpoint, postChat.
  rewrite Hcast. split; [reflexivity|].
  destruct (negb (JS.truthy content)); reflexivity.
Qed.

(** A send that is not answered with 201 stores nothing, whatever the
    reason. *)
Lemma send_rejected cast now currentUserId userId content attachment db :
  code (fst (sendMessageEndpoint cast now currentUserId userId content attachment db))
  <> 201 ->
  snd (sendMessageEndpoint cast now currentUserId userId content attachment db) = db.
Proof.
  unfold sendMessageEndpoint.
  destruct (negb (JS.truthy content)); [reflexivity|].
  destruct (cast userId); [apply postChat_rejected | reflexivity].
Qed.

(** C7.  For a message that has content and a [:userId] that Mongoose
    casts to an ObjectId, as the identifier of any user is: a send
    answered with 201 and a history fetch answered with 200 both imply
    an active assignment between the two users, in either direction;
    without one, both are answered with 403 (not 404) and the database,
    hence the stored messages, stays as it was; and no send that is
    refused, for this or any other reason, stores a message. *)
Theorem C7_chat_requires_assignment
        (cast : string -> option Id) (now : Z) (currentUserId : Id) (userId : string)
        (peer : Id) (content attachment : JS.value) (db : DB) :
  JS.truthy content = true ->
  cast userId = Some peer ->
  let sent := sendMessageEndpoint cast now currentUserId userId content attachment db in
  let fetched := getChatHistoryEndpoint cast now currentUserId userId db in
  (code (fst sent) = 201 -> linked db currentUserId peer)
  /\ (code (fst fetched) = 200 -> linked db currentUserId peer)
  /\ (~ linked db currentUserId peer ->
      code (fst sent) = 403 /\ code (fst sent) <> 404 /\ snd sent = db
      /\ code (fst fetched) = 403 /\ code (fst fetched) <> 404 /\ snd fetched = db)
  /\ (code (fst sent) <> 201 -> snd sent = db).
Proof.
  intros Hcontent Hcast sent fetched.
  assert (Hrefused : code (fst sent) <> 201 -> snd sent = db)
    by (apply send_rejected).
  subst sent fetched.
  unfold sendMessageEndpoint, getChatHistoryEndpoint in *.
  rewrite Hcontent, Hcast in *. simpl negb in *. cbv iota in *.
  split; [|split; [|split; [|exact Hrefused]]]; clear Hrefused;
    unfold postChat, getChat; rewrite ?Hcontent; simpl negb; cbv iota;
    destruct (findAssignment db currentUserId peer) as [a|] eqn:Hfind.
  - intros _. exact (findAssignment_some _ _ _ _ Hfind).
  - discriminate.
  - intros _. exact (findAssignment_some _ _ _ _ Hfind).
  - discriminate.
  - intros Hno. contradiction Hno. exact (findAssignment_some _ _ _ _ Hfind).
  - intros _. simpl. repeat split; discriminate.
Qed.

Lemma sample_linked : linked sampleDB "sam" "thea".
Proof.
  exists {| ta_therapistId := "thea"; ta_userId := "sam"; ta_status := active |}.
  split; [left; reflexivity|]. split; [reflexivity|]. right. split; reflexivity.
Defined.

Lemma sample_not_linked : ~ linked sampleDB "ian" "thea".
Proof.
  apply findAssignment_none. reflexivity.
Defined.

Lemma clinic_not_linked : ~ linked sampleClinic theo sam.
Proof.
  apply findAssignment_none. reflexivity.
Defined.

(** Theo is not Sam's therapist, Thea is; and "sam" is no ObjectId. *)
Lemma C7_chat_witness :
  (code (fst (sendMessageEndpoint sampleCast 20 theo sam (Some "hello") None sampleClinic))
   = 403
   /\ snd (sendMessageEndpoint sampleCast 20 theo sam (Some "hello") None sampleClinic)
      = sampleClinic
   /\ code (fst (getChatHistoryEndpoint sampleCast 20 theo sam sampleClinic)) = 403
   /\ snd (getChatHistoryEndpoint sampleCast 20 theo sam sampleClinic) = sampleClinic)
  /\ code (fst (sendMessageEndpoint sampleCast 20 sam thea (Some "hello") None sampleClinic))
     = 201
  /\ code (fst (sendMessageEndpoint sampleCast 20 thea "sam" (Some "hello") None
                  sampleClinic)) = 500.
Proof.
  destruct (C7_chat_requires_assignment sampleCast 20 theo sam sam (Some "hello") None
              sampleClinic) as (_ & _ & Hrej & _); [reflexivity | reflexivity |].
  destruct (Hrej clinic_not_linked) as (H1 & _ & H2 & H3 & _ & H4).
  split; [|split; reflexivity]. repeat split; assumption.
Defined.

(** ** Marking read *)

Lemma unreadFrom_true viewer peer m :
  unreadFrom peer viewer m = true <-> unreadFromPeer viewer peer m.
Proof.
  unfold unreadFrom, unreadFromPeer.
  rewrite !andb_true_iff, !String.eqb_eq, negb_true_iff. tauto.
Qed.

Lemma updateMany_marks now viewer peer ms :
  Forall2 (markedBy viewer peer) ms (updateMany now peer viewer ms).
Proof.
  induction ms as [|m ms IH]; simpl; constructor; [|exact IH].
  unfold markedBy.
  destruct (unreadFrom peer viewer m) eqn:Hu.
  - apply unreadFrom_true in Hu. simpl. repeat split; try reflexivity.
    intros Hno. contradiction.
  - assert (Hno : ~ unreadFromPeer viewer peer m).
    { intros Hyes. apply unreadFrom_true in Hyes. congruence. }
    repeat split; try reflexivity. intros Hyes. contradiction.
Qed.

Lemma updateMany_again now later viewer peer ms :
  updateMany later peer viewer (updateMany now peer viewer ms)
  = updateMany now peer viewer ms.
Proof.
  induction ms as [|m ms IH]; simpl; [reflexivity|]. rewrite IH. f_equal.
  destruct (unreadFrom peer viewer m) eqn:Hu.
  - unfold unreadFrom, markRead. simpl. rewrite andb_false_r. reflexivity.
  - rewrite Hu. reflexivity.
Qed.

(** C8.  When the viewer may chat with the peer, fetching the history
    keeps every message's sender, receiver, content, attachment and
    creation time; it sets [read] on the messages from the peer to the
    viewer that were unread and leaves every other message exactly as
    it was; the other collections are untouched; and fetching again
    changes nothing more. *)
Theorem C8_fetch_marks_read (now : Z) (viewer peer : Id) (db : DB) :
  linked db viewer peer ->
  let db' := snd (getChat now viewer peer db) in
  Forall2 (markedBy viewer peer) (messages db) (messages db')
  /\ assignments db' = assignments db
  /\ quizzesInProgress db' = quizzesInProgress db
  /\ (forall later, snd (getChat later viewer peer db') = db').
Proof.
  intros Hl db'. subst db'. unfold getChat.
  destruct (linked_found _ _ _ Hl) as [a Hfind].
  rewrite Hfind. simpl.
  split; [apply updateMany_marks|]. split; [reflexivity|]. split; [reflexivity|].
  intros later. unfold findAssignment. simpl.
  unfold findAssignment in Hfind. rewrite Hfind. simpl.
  rewrite updateMany_again. reflexivity.
Qed.

Lemma C8_fetch_witness :
  let db' := snd (getChat 30 "sam" "thea" sampleDB) in
  Forall2 (markedBy "sam" "thea") (messages sampleDB) (messages db')
  /\ assignments db' = assignments sampleDB
  /\ quizzesInProgress db' = quizzesInProgress sampleDB
  /\ (forall later, snd (getChat later "sam" "thea" db') = db').
Proof.
  apply (C8_fetch_marks_read 30 "sam" "thea" sampleDB). exact sample_linked.
Defined.

Example sample_fetch :
  map m_read (messages (snd (getChat 30 "sam" "thea" sampleDB))) = [true; false; true]
  /\ map m_read (messages sampleDB) = [false; false; false].
Proof. split; reflexivity. Qed.

End Chat.

(* ================================================================== *)
(** * Backend: quiz in progress                                        *)
(* ================================================================== *)

Section QuizInProgressRecords.

Local Open Scope string_scope.
Local Open Scope list_scope.
Local Open Scope Z_scope.

Import Server.

Lemma updateFirst_none {A} (p : A -> bool) f l :
  updateFirst p f l = None -> filter p l = [].
Proof.
  induction l as [|x l IH]; simpl; [reflexivity|].
  destruct (p x); [discriminate|].
  destruct (updateFirst p f l) as [[y l']|]; [discriminate|].
  intros _. apply IH. reflexivity.
Qed.

Lemma updateFirst_some {A} (p : A -> bool) f l y l' :
  updateFirst p f l = Some (y, l') ->
  exists before x after,
    l = before ++ x :: after /\ filter p before = [] /\ p x = true
    /\ y = f x /\ l' = before ++ f x :: after.
Proof.
  revert l'. induction l as [|a l IH]; intros l'; simpl; [discriminate|].
  destruct (p a) eqn:Hp.
  - intros H. injection H as <- <-.
    exists [], a, l. repeat split. exact Hp.
  - destruct (updateFirst p f l) as [[z l'']|]; [|discriminate].
    intros H. injection H as <- <-.
    destruct (IH l'' eq_refl) as (before & x & after & -> & Hb & Hx & -> & ->).
    exists (a :: before), x, after. simpl. rewrite Hp. repeat split; assumption.
Qed.

Lemma inProgress_same u s t q :
  inProgress u s t q = true ->
  q_userId q = u /\ q_subjectId q = s /\ q_subtopicId q = t /\ q_attempted q = false.
Proof.
  unfold inProgress. rewrite !andb_true_iff, !String.eqb_eq, negb_true_iff. tauto.
Qed.

Lemma inProgress_own q :
  q_attempted q = false ->
  inProgress (q_userId q) (q_subjectId q) (q_subtopicId q) q = true.
Proof.
  intros Ha. unfold inProgress. rewrite !String.eqb_refl, Ha. reflexivity.
Qed.

(** Replacing a record by one with the same key and state keeps every
    count; closing or adding a closed record cannot raise one. *)
Lemma replace_keeps_count (p : QuizInProgress -> bool) before x x' after :
  p x' = p x ->
  List.length (filter p (before ++ x' :: after))
  = List.length (filter p (before ++ x :: after)).
Proof.
  intros Hp. rewrite !filter_app, !length_app. simpl. rewrite Hp.
  destruct (p x); reflexivity.
Qed.

Lemma close_lowers_count (p : QuizInProgress -> bool) before x x' after :
  p x' = false ->
  (List.length (filter p (before ++ x' :: after))
   <= List.length (filter p (before ++ x :: after)))%nat.
Proof.
  intros Hp. rewrite !filter_app, !length_app. simpl. rewrite Hp.
  destruct (p x); simpl; lia.
Qed.

Lemma save_keeps_invariant cast now u s t l db :
  atMostOneOpen (quizzesInProgress db) ->
  atMostOneOpen (quizzesInProgress (snd (saveQuizInProgress cast now u s t l db))).
Proof.
  intros Hinv. unfold saveQuizInProgress.
  destruct (negb (JS.truthy s) || negb (JS.truthy t) || negb (JS.truthy_num l));
    [exact Hinv|].
  destruct (cast (str s)) as [subject|]; [|exact Hinv].
  destruct (cast (str t)) as [subtopic|]; [|exact Hinv].
  destruct (updateFirst _ _ _) as [[y qs]|] eqn:Hup; simpl.
  - apply updateFirst_some in Hup.
    destruct Hup as (before & x & after & Hl & _ & _ & _ & ->).
    intros u' s' t'. specialize (Hinv u' s' t'). rewrite Hl in Hinv.
    rewrite replace_keeps_count with (x := x); [exact Hinv | reflexivity].
  - apply updateFirst_none in Hup.
    intros u' s' t'. rewrite filter_app, length_app. simpl.
    destruct (inProgress u' s' t' _) eqn:Hnew.
    + apply inProgress_same in Hnew. simpl in Hnew.
      destruct Hnew as (<- & <- & <- & _). rewrite Hup. simpl. lia.
    + specialize (Hinv u' s' t'). simpl. lia.
Qed.

Lemma complete_keeps_invariant cast now u s t l db :
  atMostOneOpen (quizzesInProgress db) ->
  atMostOneOpen (quizzesInProgress (snd (completeQuizInProgress cast now u s t l db))).
Proof.
  intros Hinv. unfold completeQuizInProgress.
  destruct (cast s) as [subject|]; [|exact Hinv].
  destruct (cast t) as [subtopic|]; [|exact Hinv].
  destruct (updateFirst _ _ _) as [[y qs]|] eqn:Hup; simpl.
  - apply updateFirst_some in Hup.
    destruct Hup as (before & x & after & Hl & _ & _ & _ & ->).
    intros u' s' t'. specialize (Hinv u' s' t'). rewrite Hl in Hinv.
    eapply Nat.le_trans; [|exact Hinv].
    apply close_lowers_count. unfold inProgress. simpl. apply andb_false_r.
  - intros u' s' t'. rewrite filter_app, length_app.
    specialize (Hinv u' s' t'). unfold inProgress at 2. simpl.
    rewrite andb_false_r. simpl. lia.
Qed.

Lemma chat_keeps_quizzes cast r db :
  match r with Save _ _ _ _ _ | Complete _ _ _ _ _ => True
          | _ => quizzesInProgress (snd (handle cast r db)) = quizzesInProgress db end.
Proof.
  destruct r; simpl; try exact I.
  - unfold getChatHistoryEndpoint, getChat. destruct (cast userId); [|reflexivity].
    destruct (findAssignment _ _ _); reflexivity.
  - unfold sendMessageEndpoint, postChat. destruct (negb _); [reflexivity|].
    destruct (cast userId); [|reflexivity].
    destruct (findAssignment _ _ _); [|reflexivity].
    destruct (String.eqb _ ""); reflexivity.
Qed.

Lemma handle_keeps_invariant cast r db :
  atMostOneOpen (quizzesInProgress db) ->
  atMostOneOpen (quizzesInProgress (snd (handle cast r db))).
Proof.
  intros Hinv. pose proof (chat_keeps_quizzes cast r db) as Hchat.
  destruct r; simpl in *.
  - apply save_keeps_invariant, Hinv.
  - apply complete_keeps_invariant, Hinv.
  - rewrite Hchat. exact Hinv.
  - rewrite Hchat. exact Hinv.
Qed.

(** Every database the server can reach keeps the invariant. *)
Lemma serve_keeps_invariant cast rs db :
  atMostOneOpen (quizzesInProgress db) ->
  atMostOneOpen (quizzesInProgress (serve cast db rs)).
Proof.
  revert db. induction rs as [|r rs IH]; intros db Hinv; simpl; [exact Hinv|].
  apply IH, handle_keeps_invariant, Hinv.
Qed.

Lemma reachable_invariant cast asg rs :
  atMostOneOpen (quizzesInProgress (serve cast (initial asg) rs)).
Proof.
  apply serve_keeps_invariant. intros u s t. simpl. lia.
Qed.

(** One save of a complete payload whose identifiers are ObjectIds:
    answered with 200, and afterwards the user's only open record for
    the subtopic holds the level. *)
Lemma save_once cast now u s t subject subtopic l db :
  atMostOneOpen (quizzesInProgress db) ->
  s <> "" -> t <> "" -> l <> 0 ->
  cast s = Some subject -> cast t = Some subtopic ->
  let r := saveQuizInProgress cast now u (Some s) (Some t) (Some l) db in
  code (fst r) = 200
  /\ exists q, filter (inProgress u subject subtopic) (quizzesInProgress (snd r)) = [q]
               /\ q_level q = l /\ q_attempted q = false /\ q_lastUpdated q = now.
Proof.
  intros Hinv Hs Ht Hl Hcs Hct. unfold saveQuizInProgress.
  assert (Hts : JS.truthy (Some s) = true) by (destruct s; [contradiction|reflexivity]).
  assert (Htt : JS.truthy (Some t) = true) by (destruct t; [contradiction|reflexivity]).
  assert (Htl : JS.truthy_num (Some l) = true) by (destruct l; [contradiction| |]; reflexivity).
  rewrite Hts, Htt, Htl. simpl negb. simpl orb. cbv iota. simpl str.
  rewrite Hcs, Hct.
  destruct (updateFirst _ _ _) as [[y qs]|] eqn:Hup; simpl.
  - split; [reflexivity|].
    apply updateFirst_some in Hup.
    destruct Hup as (before & x & after & Hqs & Hbefore & Hx & -> & ->).
    specialize (Hinv u subject subtopic). rewrite Hqs, filter_app, Hbefore in Hinv.
    simpl in Hinv. rewrite Hx in Hinv. simpl in Hinv.
    assert (Hafter : filter (inProgress u subject subtopic) after = [])
      by (destruct (filter (inProgress u subject subtopic) after);
          [reflexivity | simpl in Hinv; lia]).
    eexists. rewrite filter_app, Hbefore. simpl.
    change (inProgress u subject subtopic _) with (inProgress u subject subtopic x) at 1.
    rewrite Hx, Hafter. split; [reflexivity|].
    apply inProgress_same in Hx. simpl. tauto.
  - split; [reflexivity|].
    apply updateFirst_none in Hup.
    eexists. rewrite filter_app, Hup. simpl.
    unfold inProgress at 1. simpl. rewrite !String.eqb_refl. simpl.
    repeat split; reflexivity.
Qed.

Lemma save_found_keeps_length cast now u s t subject subtopic l db q :
  cast s = Some subject -> cast t = Some subtopic ->
  filter (inProgress u subject subtopic) (quizzesInProgress db) = [q] ->
  List.length
    (quizzesInProgress (snd (saveQuizInProgress cast now u (Some s) (Some t) l db)))
  = List.length (quizzesInProgress db).
Proof.
  intros Hcs Hct Hq. unfold saveQuizInProgress.
  destruct (negb _ || negb _ || negb _); [reflexivity|]. simpl str. rewrite Hcs, Hct.
  destruct (updateFirst _ _ _) as [[y qs]|] eqn:Hup; simpl.
  - apply updateFirst_some in Hup.
    destruct Hup as (before & x & after & -> & _ & _ & _ & ->).
    rewrite !length_app. reflexivity.
  - apply updateFirst_none in Hup. rewrite Hup in Hq. discriminate.
Qed.

(** A save that is not answered with 200 stores nothing; that is the
    answer to an identifier that is not an ObjectId. *)
Lemma save_refused cast now u s t l db :
  code (fst (saveQuizInProgress cast now u s t l db)) <> 200 ->
  snd (saveQuizInProgress cast now u s t l db) = db.
Proof.
  unfold saveQuizInProgress.
  destruct (negb _ || negb _ || negb _); [reflexivity|].
  destruct (cast (str s)); [|reflexivity]. destruct (cast (str t)); [|reflexivity].
  destruct (updateFirst _ _ _) as [[y qs]|]; simpl; intros H; contradiction H; reflexivity.
Qed.

Lemma save_not_an_ObjectId cast now u s t l db :
  s <> "" -> t <> "" -> l <> 0 ->
  cast s = None \/ cast t = None ->
  saveQuizInProgress cast now u (Some s) (Some t) (Some l) db
  = ({| code := 500; body := Failure "Failed to save quiz in progress" |}, db).
Proof.
  intros Hs Ht Hl Hcast. unfold saveQuizInProgress.
  assert (Hts : JS.truthy (Some s) = true) by (destruct s; [contradiction|reflexivity]).
  assert (Htt : JS.truthy (Some t) = true) by (destruct t; [contradiction|reflexivity]).
  assert (Htl : JS.truthy_num (Some l) = true) by (destruct l; [contradiction| |]; reflexivity).
  rewrite Hts, Htt, Htl. simpl negb. simpl orb. cbv iota. simpl str.
  destruct Hcast as [-> | ->]; [reflexivity|]. destruct (cast s); reflexivity.
Qed.

(** C9.  On any database the server has reached, saving the same
    complete payload (level non-zero, both identifiers non-empty
    strings that Mongoose casts to ObjectIds) twice in a row is
    answered with 200 both times and leaves the user exactly one open
    record ([attempted = false]) for that subject and subtopic, holding
    the given level; the second save adds no record. *)
Theorem C9_save_twice_one_record
        (cast : string -> option Id)
        (asg : list TherapistAssignment) (rs : list Request)
        (now1 now2 : Z) (userId : Id) (subjectId subtopicId : string)
        (subject subtopic : Id) (level : Z) :
  subjectId <> "" -> subtopicId <> "" -> level <> 0 ->
  cast subjectId = Some subject -> cast subtopicId = Some subtopic ->
  let db := serve cast (initial asg) rs in
  let first :=
    saveQuizInProgress cast now1 userId (Some subjectId) (Some subtopicId) (Some level)
                       db in
  let second :=
    saveQuizInProgress cast now2 userId (Some subjectId) (Some subtopicId) (Some level)
                       (snd first) in
  code (fst first) = 200
  /\ code (fst second) = 200
  /\ (exists q,
        filter (inProgress userId subject subtopic) (quizzesInProgress (snd second))
        = [q]
        /\ q_level q = level /\ q_attempted q = false)
  /\ List.length (quizzesInProgress (snd second))
     = List.length (quizzesInProgress (snd first)).
Proof.
  intros Hs Ht Hl Hcs Hct db first second.
  pose proof (reachable_invariant cast asg rs) as Hinv. fold db in Hinv.
  destruct (save_once cast now1 userId subjectId subtopicId subject subtopic level db
              Hinv Hs Ht Hl Hcs Hct) as (Hcode1 & q1 & Hq1 & _).
  fold first in Hcode1, Hq1.
  assert (Hinv1 : atMostOneOpen (quizzesInProgress (snd first)))
    by (apply save_keeps_invariant, Hinv).
  destruct (save_once cast now2 userId subjectId subtopicId subject subtopic level
              (snd first) Hinv1 Hs Ht Hl Hcs Hct)
    as (Hcode2 & q2 & Hq2 & Hlevel & Hopen & _).
  fold second in Hcode2, Hq2.
  split; [exact Hcode1|]. split; [exact Hcode2|].
  split; [exists q2; exact (conj Hq2 (conj Hlevel Hopen))|].
  apply save_found_keeps_length with (subject := subject) (subtopic := subtopic) (q := q1);
    assumption.
Qed.

(** A student saves level 6 twice after an earlier quiz on the same
    subtopic was completed. *)
Lemma C9_save_twice_witness :
  let db := serve sampleCast (initial [])
                  [Save 1 sam (Some maths) (Some fractions) (Some 4);
                   Complete 2 sam maths fractions None] in
  let first :=
    saveQuizInProgress sampleCast 3 sam (Some maths) (Some fractions) (Some 6) db in
  let second :=
    saveQuizInProgress sampleCast 4 sam (Some maths) (Some fractions) (Some 6)
                       (snd first) in
  code (fst first) = 200
  /\ code (fst second) = 200
  /\ (exists q,
        filter (inProgress sam maths fractions) (quizzesInProgress (snd second))
        = [q]
        /\ q_level q = 6 /\ q_attempted q = false)
  /\ List.length (quizzesInProgress (snd second))
     = List.length (quizzesInProgress (snd first)).
Proof.
  apply (C9_save_twice_one_record
           sampleCast
           [] [Save 1 sam (Some maths) (Some fractions) (Some 4);
               Complete 2 sam maths fractions None]
           3 4 sam maths fractions maths fractions 6);
    try discriminate; reflexivity.
Defined.

(** Two saves, a completion and two more saves; a last save, whose
    identifiers are no ObjectIds, stores nothing. *)
Example sample_saves :
  map (fun q => (q_level q, q_attempted q, q_lastUpdated q))
      (quizzesInProgress
         (serve sampleCast (initial [])
                [Save 1 sam (Some maths) (Some fractions) (Some 4);
                 Complete 2 sam maths fractions None;
                 Save 3 sam (Some maths) (Some fractions) (Some 6);
                 Save 4 sam (Some maths) (Some fractions) (Some 6);
                 Save 5 sam (Some "maths") (Some "fractions") (Some 9)]))
  = [(4, true, 2); (6, false, 4)].
Proof. reflexivity. Qed.

End QuizInProgressRecords.

(* ================================================================== *)
(** * Frontend: quiz sessions                                          *)
(* ================================================================== *)

Section QuizSessions.

Local Open Scope string_scope.
Local Open Scope list_scope.
Local Open Scope Z_scope.

Import Quiz.

Lemma streak_snoc history h :
  streak (history ++ [h]) = if h_score h <? 60 then streak history + 1 else 0.
Proof. unfold streak. rewrite fold_left_app. reflexivity. Qed.

Lemma streak_nonneg history : 0 <= streak history.
Proof.
  induction history as [|h history IH] using rev_ind; [unfold streak; simpl; lia|].
  rewrite streak_snoc. destruct (h_score h <? 60); lia.
Qed.

Lemma streak_positive history :
  1 <= streak history <-> exists earlier a, history = earlier ++ [a] /\ h_score a < 60.
Proof.
  destruct history as [|h history _] using rev_ind.
  - split; [unfold streak; simpl; lia|]. intros (earlier & a & H & _).
    destruct earlier; discriminate.
  - rewrite streak_snoc. pose proof (streak_nonneg history).
    destruct (Z.ltb_spec (h_score h) 60) as [Hlt|Hge].
    + split; [|lia]. intros _. exists history, h. split; [reflexivity | exact Hlt].
    + split; [lia|]. intros (earlier & a & Heq & Ha).
      apply app_inj_tail in Heq. destruct Heq as [_ <-]. lia.
Qed.

Lemma streak_two history : 2 <= streak history <-> twoFailuresInARow history.
Proof.
  unfold twoFailuresInARow.
  destruct history as [|h history _] using rev_ind.
  - split; [unfold streak; simpl; lia|]. intros (earlier & a & b & H & _).
    destruct earlier as [|? [|? ?]]; discriminate.
  - rewrite streak_snoc.
    destruct (Z.ltb_spec (h_score h) 60) as [Hlt|Hge].
    + split.
      * intros Hstreak. assert (Hone : 1 <= streak history) by lia.
        apply streak_positive in Hone. destruct Hone as (earlier & a & -> & Ha).
        exists earlier, a, h. rewrite <- app_assoc. repeat split; assumption.
      * intros (earlier & a & b & Heq & Ha & Hb).
        change [a; b] with ([a] ++ [b]) in Heq. rewrite app_assoc in Heq.
        apply app_inj_tail in Heq. destruct Heq as [-> _].
        assert (1 <= streak (earlier ++ [a])) by (apply streak_positive; eauto).
        lia.
    + split; [lia|]. intros (earlier & a & b & Heq & _ & Hb).
      change [a; b] with ([a] ++ [b]) in Heq. rewrite app_assoc in Heq.
      apply app_inj_tail in Heq. destruct Heq as [_ <-]. lia.
Qed.

(** The two effects leave the score, the history, the counter and the
    results flag alone. *)
Lemma effects_frame st :
  let st' := captureEffect (quizEndEffect st) in
  score st' = score st /\ quizHistory st' = quizHistory st
  /\ consecutiveFailures st' = consecutiveFailures st
  /\ showResults st' = showResults st
  /\ nextLevel st' = nextLevel st.
Proof.
  unfold captureEffect, quizEndEffect.
  destruct (score st) as [[| |]|] eqn:Hs; destruct (emotionDetections st);
    simpl; rewrite ?Hs; simpl; repeat split; reflexivity || assumption.
Qed.

Lemma step_consistent p ev p' :
  consistent p -> step p ev = Some p' -> consistent p'.
Proof.
  destruct p as [st|carried]; destruct ev; unfold step; try discriminate.
  - intros [Hc Hr]. destruct (negb (showResults st) && _) eqn:Hg; [|discriminate].
    intros H. injection H as <-. simpl. split; [exact Hc | exact Hr].
  - intros [Hc _]. destruct (negb (showResults st)); [|discriminate].
    remember (fst (handleSubmit st calculatedScore)) as submitted eqn:Hsub.
    intros H. injection H as <-. unfold consistent.
    destruct (effects_frame submitted) as (Hs & Hh & Hcf & _).
    cbv zeta in Hs, Hh, Hcf. rewrite Hs, Hh, Hcf. subst submitted. simpl.
    rewrite streak_snoc. simpl. rewrite Hc.
    split; [reflexivity|]. intros _. eexists _, _. split; reflexivity.
  - intros [Hc _]. destruct (showResults st && _); [|discriminate].
    intros H. injection H as <-. unfold handleNextQuiz.
    destruct (consecutiveFailures st >=? 3); simpl; [exact I|].
    split; [exact Hc | discriminate].
  - intros _. destruct (showResults st && _); [|discriminate].
    intros H. injection H as <-. exact I.
  - intros _ H. injection H as <-. simpl. split; [reflexivity | discriminate].
Qed.

Lemma run_consistent events p p' :
  consistent p -> run p events = Some p' -> consistent p'.
Proof.
  revert p. induction events as [|ev events IH]; intros p Hp; simpl.
  - intros H. injection H as <-. exact Hp.
  - destruct (step p ev) as [q|] eqn:Hstep; [|discriminate].
    apply IH. exact (step_consistent _ _ _ Hp Hstep).
Qed.

Lemma mount_consistent quizLevel : consistent (QuizPage (mount quizLevel)).
Proof. simpl. split; [reflexivity | discriminate]. Qed.

(** X8.  Whenever the next quiz is offered the counter is at most 1,
    so the test [consecutiveFailures >= 3] in [handleNextQuiz] never
    sends a session to the review page. *)
Lemma next_quiz_never_reviews (quizLevel : Z) (events : list Event) (st : State) p :
  run (QuizPage (mount quizLevel)) events = Some (QuizPage st) ->
  step (QuizPage st) TakeNextQuiz = Some p ->
  consecutiveFailures st <= 1 /\ exists st', p = QuizPage st'.
Proof.
  intros Hrun Hstep.
  pose proof (run_consistent _ _ _ (mount_consistent quizLevel) Hrun) as [Hc Hr].
  unfold step in Hstep.
  destruct (showResults st) eqn:Hshown; [|discriminate].
  destruct (showReviewContent st) eqn:Hreview; [discriminate|].
  simpl in Hstep. injection Hstep as <-.
  destruct (Hr eq_refl) as (earlier & h & Hh & Hs).
  assert (Hle : consecutiveFailures st <= 1).
  { unfold showReviewContent in Hreview. rewrite Hs in Hreview.
    apply andb_false_iff in Hreview. destruct Hreview as [Hcf|Hscore].
    - rewrite Z.geb_leb in Hcf. apply Z.leb_gt in Hcf. lia.
    - apply Z.ltb_ge in Hscore. rewrite Hc, Hh, streak_snoc.
      destruct (Z.ltb_spec (h_score h) 60); lia. }
  split; [exact Hle|]. unfold handleNextQuiz.
  replace (consecutiveFailures st >=? 3) with false
    by (symmetry; rewrite Z.geb_leb; apply Z.leb_gt; lia).
  eexists. reflexivity.
Qed.

(** C2, as the code has it.  In a session started from a fresh mount,
    when the results are shown: the review-content branch is offered
    exactly when the last two submissions both scored under 60; after a
    submission scoring 60 or more the counter is 0, the next quiz is
    offered, and whatever the next score the branch is not offered;
    and taking the branch and coming back to the quiz starts again with
    the counter at 0. *)
Theorem C2_review_after_two_failures
        (quizLevel : Z) (events : list Event) (st : State) :
  run (QuizPage (mount quizLevel)) events = Some (QuizPage st) ->
  showResults st = true ->
  (showReviewContent st = true <-> twoFailuresInARow (quizHistory st))
  /\ (forall s, score st = Some s -> 60 <= s ->
      consecutiveFailures st = 0
      /\ forall s', exists st',
           run (QuizPage st) [TakeNextQuiz; Submit s'] = Some (QuizPage st')
           /\ showReviewContent st' = false)
  /\ (showReviewContent st = true ->
      exists st',
        run (QuizPage st) [ReviewContent; BackToQuiz] = Some (QuizPage st')
        /\ consecutiveFailures st' = 0).
Proof.
  intros Hrun Hshown.
  pose proof (run_consistent _ _ _ (mount_consistent quizLevel) Hrun) as [Hc Hr].
  destruct (Hr Hshown) as (earlier & h & Hh & Hs).
  assert (Hpass : forall s, score st = Some s -> 60 <= s -> consecutiveFailures st = 0).
  { intros s Hscore Hge. rewrite Hc, Hh, streak_snoc.
    rewrite Hs in Hscore. injection Hscore as Hscore. rewrite Hscore.
    destruct (Z.ltb_spec s 60); [lia | reflexivity]. }
  split; [|split].
  - rewrite <- streak_two, <- Hc. unfold showReviewContent.
    rewrite andb_true_iff, Z.geb_le. split; [tauto|].
    intros Htwo. split; [exact Htwo|].
    rewrite Hs. apply Z.ltb_lt.
    rewrite Hc, Hh, streak_snoc in Htwo.
    destruct (Z.ltb_spec (h_score h) 60); [assumption | lia].
  - intros s Hscore Hge. pose proof (Hpass s Hscore Hge) as Hzero.
    split; [exact Hzero|]. intros s'.
    unfold run, step. unfold showReviewContent at 1.
    rewrite Hshown, Hzero. simpl andb. cbv iota.
    unfold handleNextQuiz. rewrite Hzero. simpl.
    eexists. split; [reflexivity|].
    unfold showReviewContent.
    match goal with
    | |- context [captureEffect (quizEndEffect ?x)] =>
        destruct (effects_frame x) as (_ & _ & Hcf & _)
    end.
    cbv zeta in Hcf. rewrite Hcf. simpl.
    destruct (s' <? 60); reflexivity.
  - intros Hreview. unfold run, step. rewrite Hshown, Hreview. simpl.
    eexists. split; reflexivity.
Qed.

Lemma C2_review_witness :
  exists st,
    run (QuizPage (mount 5)) [Submit 40; TakeNextQuiz; Submit 55] = Some (QuizPage st)
    /\ showReviewContent st = true
    /\ twoFailuresInARow (quizHistory st)
    /\ exists st',
         run (QuizPage st) [ReviewContent; BackToQuiz] = Some (QuizPage st')
         /\ consecutiveFailures st' = 0.
Proof.
  eexists. split; [reflexivity|].
  match goal with
  | |- showReviewContent ?st = true /\ _ =>
      destruct (C2_review_after_two_failures
                  5 [Submit 40; TakeNextQuiz; Submit 55] st eq_refl eq_refl)
        as (Hiff & _ & Hback)
  end.
  split; [reflexivity|]. split; [apply Hiff; reflexivity|].
  apply Hback. reflexivity.
Defined.

(** Against C2 as the specification states it: two submissions under 60 are enough for the
    results view to offer the review content and withhold the next
    quiz. *)
Lemma C2_review_without_three_failures :
  exists st,
    run (QuizPage (mount 5)) [Submit 40; TakeNextQuiz; Submit 40] = Some (QuizPage st)
    /\ showResults st = true
    /\ showReviewContent st = true
    /\ step (QuizPage st) TakeNextQuiz = None
    /\ List.length (quizHistory st) = 2%nat
    /\ ~ threeFailuresInARow (quizHistory st).
Proof.
  eexists. split; [reflexivity|]. repeat split.
  intros (earlier & a & b & c & Heq & _).
  apply (f_equal (@List.length HistoryEntry)) in Heq.
  rewrite length_app in Heq. simpl in Heq. lia.
Qed.

(** ** The emotion of a submission *)

Lemma step_tracksLatest p ev p' :
  tracksLatest p -> step p ev = Some p' -> tracksLatest p'.
Proof.
  destruct p as [st|carried]; destruct ev; unfold step; try discriminate.
  - intros _. destruct (negb (showResults st) && _); [|discriminate].
    intros H. injection H as <-. simpl. intros _. rewrite last_last. reflexivity.
  - intros _. destruct (negb (showResults st)); [|discriminate].
    remember (fst (handleSubmit st calculatedScore)) as submitted eqn:Hsub.
    intros H. injection H as <-. unfold tracksLatest.
    destruct (effects_frame submitted) as (_ & _ & _ & Hsr & _).
    cbv zeta in Hsr. rewrite Hsr. subst submitted. discriminate.
  - intros _. destruct (showResults st && _); [|discriminate].
    intros H. injection H as <-. unfold handleNextQuiz.
    destruct (consecutiveFailures st >=? 3); simpl; [exact I | reflexivity].
  - intros _. destruct (showResults st && _); [|discriminate].
    intros H. injection H as <-. exact I.
  - intros _ H. injection H as <-. simpl. reflexivity.
Qed.

Lemma run_tracksLatest events p p' :
  tracksLatest p -> run p events = Some p' -> tracksLatest p'.
Proof.
  revert p. induction events as [|ev events IH]; intros p Hp; simpl.
  - intros H. injection H as <-. exact Hp.
  - destruct (step p ev) as [q|] eqn:Hstep; [|discriminate].
    apply IH. exact (step_tracksLatest _ _ _ Hp Hstep).
Qed.

(** X9.  In every session, the attempt a submission stores carries the
    latest reading of the quiz in progress, in lower case, and neutral
    when nothing was read; the level engine is run on that value. *)
Lemma submission_carries_latest_reading
      (quizLevel : Z) (events : list Event) (st : State) (calculatedScore : Z) :
  run (QuizPage (mount quizLevel)) events = Some (QuizPage st) ->
  showResults st = false ->
  let attempt := snd (handleSubmit st calculatedScore) in
  a_emotion attempt = last (emotionDetections st) "neutral"
  /\ a_nextLevel attempt
     = calculateNewLevel (currentLevel st) calculatedScore
                         (last (emotionDetections st) "neutral").
Proof.
  intros Hrun Hprogress.
  assert (Hstart : tracksLatest (QuizPage (mount quizLevel))) by (simpl; reflexivity).
  pose proof (run_tracksLatest _ _ _ Hstart Hrun) as Hinv.
  simpl in Hinv. specialize (Hinv Hprogress).
  simpl. rewrite Hinv. split; reflexivity.
Qed.

(** C3 does not hold of the code.  After the readings happy, happy, sad in a
    quiz at level 5, a submission scoring 85 stores the emotion sad
    and the next level 6, although the most frequent reading is happy
    (which the level engine would turn into level 8); the results view
    then displays happy. *)
Theorem C3_submission_uses_latest_reading :
  let session := [EmotionDetected "happy"; EmotionDetected "happy";
                  EmotionDetected "sad"; Submit 85] in
  lastAttempt (QuizPage (mount 5)) session None
  = Some {| a_score := 85; a_emotion := "sad"; a_presentLevel := 5; a_nextLevel := 6 |}
  /\ getMostFrequentEmotion ["happy"; "happy"; "sad"] = "happy"
  /\ calculateNewLevel 5 85 "happy" = 8
  /\ (exists st, run (QuizPage (mount 5)) session = Some (QuizPage st)
                 /\ selectedEmotion st = "happy"
                 /\ nextLevel st = 6).
Proof.
  cbv zeta. split; [reflexivity|]. split; [reflexivity|]. split; [reflexivity|].
  eexists. split; [reflexivity|]. split; reflexivity.
Qed.

(** With no reading at all the attempt carries neutral. *)
Example no_reading_is_neutral :
  lastAttempt (QuizPage (mount 5)) [Submit 70] None
  = Some {| a_score := 70; a_emotion := "neutral"; a_presentLevel := 5; a_nextLevel := 5 |}.
Proof. reflexivity. Qed.

(** The error strings are compared as the detector spells them, but the
    readings are collected in lower case: they are counted like any
    other reading. *)
Example lowercased_errors_are_counted :
  (exists st,
     run (QuizPage (mount 5))
         [EmotionDetected "No Face Detected"; EmotionDetected "No Face Detected";
          EmotionDetected "happy"; Submit 70] = Some (QuizPage st)
     /\ selectedEmotion st = "no face detected")
  /\ getMostFrequentEmotion ["No Face Detected"; "No Face Detected"; "happy"] = "happy".
Proof.
  split; [|reflexivity]. eexists. split; reflexivity.
Qed.

End QuizSessions.

(* ================================================================== *)
(** * Frontend: level steps, labels and scores                         *)
(* ================================================================== *)

Section LevelSteps.

Local Open Scope string_scope.
Local Open Scope list_scope.
Local Open Scope Z_scope.

Import Quiz.

(** X1.  From a level in 1..10, whatever the score and whatever string
    the emotion is, one submission moves the level down by at most two
    and up by at most three, and the new level is again in 1..10. *)
Theorem calculateNewLevel_step (currentLevel score : Z) (emotion : string) :
  1 <= currentLevel <= 10 ->
  1 <= calculateNewLevel currentLevel score emotion <= 10
  /\ currentLevel - 2 <= calculateNewLevel currentLevel score emotion <= currentLevel + 3.
Proof.
  intros Hl. unfold calculateNewLevel.
  repeat match goal with |- context [String.eqb ?a ?b] => destruct (String.eqb a b) end;
    settle_tests; lia.
Qed.

Lemma calculateNewLevel_step_witness :
  1 <= calculateNewLevel 9 95 "excited" <= 10
  /\ 9 - 2 <= calculateNewLevel 9 95 "excited" <= 9 + 3.
Proof. apply (calculateNewLevel_step 9 95 "excited"). lia. Defined.

(** X2.  The level engine is monotone: a higher score or a higher
    current level never gives a lower next level, the emotion being the
    same. *)
Theorem calculateNewLevel_monotone (l l' s s' : Z) (emotion : string) :
  l <= l' -> s <= s' ->
  calculateNewLevel l s emotion <= calculateNewLevel l' s' emotion.
Proof.
  intros Hl Hs. unfold calculateNewLevel.
  repeat match goal with |- context [String.eqb ?a ?b] => destruct (String.eqb a b) end;
    settle_tests; lia.
Qed.

Lemma calculateNewLevel_monotone_witness :
  calculateNewLevel 4 45 "sad" <= calculateNewLevel 6 80 "sad".
Proof. apply (calculateNewLevel_monotone 4 6 45 80 "sad"); lia. Defined.

Lemma getDifficultyText_unknown (level : Z) :
  getDifficultyText level = "Unknown" <-> level < 1 \/ 10 < level.
Proof.
  unfold getDifficultyText. rewrite !Z.geb_leb.
  destruct (Z.leb_spec 1 level), (Z.leb_spec level 4), (Z.leb_spec 5 level),
    (Z.leb_spec level 7), (Z.eqb_spec level 8), (Z.leb_spec 9 level),
    (Z.leb_spec level 10); simpl;
    split; intros Hx; try discriminate; try lia; reflexivity.
Qed.

(** [getDifficultyText] answers "Unknown" exactly outside 1..10;
    so the label of a level computed by the level engine is never
    "Unknown". *)
Theorem getDifficultyText_known (level currentLevel score : Z) (emotion : string) :
  (getDifficultyText level = "Unknown" <-> level < 1 \/ 10 < level)
  /\ getDifficultyText (calculateNewLevel currentLevel score emotion) <> "Unknown".
Proof.
  split; [apply getDifficultyText_unknown|].
  intros Hunknown. apply getDifficultyText_unknown in Hunknown.
  unfold calculateNewLevel in Hunknown. lia.
Qed.

End LevelSteps.

Section Scoring.

Local Open Scope string_scope.
Local Open Scope list_scope.
Local Open Scope Z_scope.

Import Quiz.

Lemma countCorrect_fold questions selectedAnswers correct index :
  fold_left
    (fun '(correct, index) q =>
       (match answerAt selectedAnswers index with
        | Some answer =>
            if String.eqb answer (correctAnswer q) then correct + 1 else correct
        | None => correct
        end, S index))
    questions (correct, index)
  = (correct + correctFrom index questions selectedAnswers,
     (index + List.length questions)%nat).
Proof.
  revert correct index. induction questions as [|q questions IH]; intros correct index.
  - simpl. f_equal; lia.
  - simpl fold_left. rewrite IH. simpl correctFrom. simpl List.length.
    destruct (answerAt selectedAnswers index) as [answer|];
      [destruct (String.eqb answer (correctAnswer q))|]; f_equal; lia.
Qed.

Lemma countCorrect_correctFrom questions selectedAnswers :
  countCorrect questions selectedAnswers = correctFrom 0 questions selectedAnswers.
Proof. unfold countCorrect. rewrite countCorrect_fold. reflexivity. Qed.

Lemma correctFrom_bounds index questions selectedAnswers :
  0 <= correctFrom index questions selectedAnswers <= Z.of_nat (List.length questions).
Proof.
  revert index. induction questions as [|q questions IH]; intros index; simpl correctFrom.
  - simpl. lia.
  - specialize (IH (S index)). simpl List.length.
    destruct (answerAt selectedAnswers index) as [answer|];
      [destruct (String.eqb answer (correctAnswer q))|]; lia.
Qed.

Lemma correctFrom_all index questions selectedAnswers :
  (forall i q, nth_error questions i = Some q ->
               answerAt selectedAnswers (index + i) = Some (correctAnswer q)) ->
  correctFrom index questions selectedAnswers = Z.of_nat (List.length questions).
Proof.
  revert index. induction questions as [|q questions IH]; intros index Hall; [reflexivity|].
  simpl correctFrom. rewrite IH.
  - specialize (Hall 0%nat q eq_refl). rewrite Nat.add_0_r in Hall.
    rewrite Hall, String.eqb_refl. simpl List.length. lia.
  - intros i q' Hi. specialize (Hall (S i) q' Hi).
    rewrite <- Hall. f_equal. lia.
Qed.

Lemma correctFrom_none index questions selectedAnswers :
  (forall i q, nth_error questions i = Some q ->
               answerAt selectedAnswers (index + i) <> Some (correctAnswer q)) ->
  correctFrom index questions selectedAnswers = 0.
Proof.
  revert index. induction questions as [|q questions IH]; intros index Hnone; [reflexivity|].
  simpl correctFrom. rewrite IH.
  - specialize (Hnone 0%nat q eq_refl). rewrite Nat.add_0_r in Hnone.
    destruct (answerAt selectedAnswers index) as [answer|]; [|reflexivity].
    destruct (String.eqb_spec answer (correctAnswer q)); [|reflexivity].
    subst answer. contradiction Hnone. reflexivity.
  - intros i q' Hi. specialize (Hnone (S i) q' Hi).
    replace (S index + i)%nat with (index + S i)%nat by lia. exact Hnone.
Qed.

(** X3.  For a quiz of 1 to 39 questions [calculateScore] is the exact
    percentage of correct answers rounded to the nearest integer and
    lies in 0..100; with five questions, the number the quiz route
    asks the generator for, it is 20 times the number of correct
    answers. *)
Theorem calculateScore_exact (questions : list Question) (selectedAnswers : Answers) :
  (0 < List.length questions < 40)%nat ->
  let n := Z.of_nat (List.length questions) in
  let correct := countCorrect questions selectedAnswers in
  0 <= correct <= n
  /\ calculateScore questions selectedAnswers = Some ((200 * correct + n) / (2 * n))
  /\ 0 <= (200 * correct + n) / (2 * n) <= 100
  /\ (n = 5 -> calculateScore questions selectedAnswers = Some (20 * correct)).
Proof.
  intros Hn n correct.
  assert (Hc : 0 <= correct <= n).
  { subst correct n. rewrite countCorrect_correctFrom. apply correctFrom_bounds. }
  assert (Hs : calculateScore questions selectedAnswers
               = Some ((200 * correct + n) / (2 * n))).
  { unfold calculateScore. apply round_percent_exact; [exact Hc | subst n; lia]. }
  assert (Hpos : 0 < n) by (subst n; lia).
  split; [exact Hc|]. split; [exact Hs|]. split.
  - split.
    + apply Z.div_pos; lia.
    + assert ((200 * correct + n) / (2 * n) < 101)
        by (apply Z.div_lt_upper_bound; lia).
      lia.
  - intros H5. rewrite Hs. f_equal. rewrite H5.
    replace (200 * correct + 5) with (5 + (20 * correct) * (2 * 5)) by lia.
    rewrite Z.div_add by lia. reflexivity.
Qed.

(** X4.  In a quiz of 1 to 39 questions the score is 100 when the
    correct answer is selected for every question and 0 when it is
    selected for none, in particular when nothing was selected; an
    empty quiz scores [NaN]. *)
Theorem calculateScore_extremes (questions : list Question) (selectedAnswers : Answers) :
  (0 < List.length questions < 40)%nat ->
  ((forall i q, nth_error questions i = Some q ->
                answerAt selectedAnswers i = Some (correctAnswer q)) ->
   calculateScore questions selectedAnswers = Some 100)
  /\ ((forall i q, nth_error questions i = Some q ->
                   answerAt selectedAnswers i <> Some (correctAnswer q)) ->
      calculateScore questions selectedAnswers = Some 0)
  /\ calculateScore questions [] = Some 0
  /\ calculateScore [] selectedAnswers = None.
Proof.
  intros Hn.
  assert (Hscore : forall answers c,
             countCorrect questions answers = c -> 0 <= c <= Z.of_nat (List.length questions) ->
             calculateScore questions answers
             = Some ((200 * c + Z.of_nat (List.length questions))
                     / (2 * Z.of_nat (List.length questions)))).
  { intros answers c <- Hc. unfold calculateScore.
    apply round_percent_exact; [exact Hc | lia]. }
  assert (Hzero : forall answers,
             countCorrect questions answers = 0 ->
             calculateScore questions answers = Some 0).
  { intros answers H0. rewrite (Hscore answers 0 H0) by lia. f_equal.
    apply Z.div_small. lia. }
  split; [|split; [|split]].
  - intros Hall. rewrite (Hscore selectedAnswers (Z.of_nat (List.length questions))).
    + f_equal.
      replace (200 * Z.of_nat (List.length questions) + Z.of_nat (List.length questions))
        with (Z.of_nat (List.length questions)
              + 100 * (2 * Z.of_nat (List.length questions))) by lia.
      rewrite Z.div_add by lia. rewrite Z.div_small by lia. reflexivity.
    + rewrite countCorrect_correctFrom. apply correctFrom_all. exact Hall.
    + lia.
  - intros Hnone. apply Hzero.
    rewrite countCorrect_correctFrom. apply correctFrom_none. exact Hnone.
  - apply Hzero. rewrite countCorrect_correctFrom. apply correctFrom_none.
    intros i q _. simpl. discriminate.
  - vm_compute. reflexivity.
Qed.

End Scoring.

Section ScoringWitnesses.

Local Open Scope string_scope.
Local Open Scope list_scope.
Local Open Scope Z_scope.

Import Quiz.

Lemma calculateScore_exact_witness :
  0 <= countCorrect sampleQuestions sampleAnswers <= 3
  /\ calculateScore sampleQuestions sampleAnswers
     = Some ((200 * countCorrect sampleQuestions sampleAnswers + 3) / (2 * 3))
  /\ 0 <= (200 * countCorrect sampleQuestions sampleAnswers + 3) / (2 * 3) <= 100
  /\ (3 = 5 -> calculateScore sampleQuestions sampleAnswers
               = Some (20 * countCorrect sampleQuestions sampleAnswers)).
Proof.
  apply (calculateScore_exact sampleQuestions sampleAnswers). simpl. lia.
Defined.

Lemma calculateScore_extremes_witness :
  calculateScore sampleQuestions sampleAnswers = Some 100
  /\ calculateScore sampleQuestions (handleAnswerSelect [] 5 "2") = Some 0.
Proof.
  destruct (calculateScore_extremes sampleQuestions sampleAnswers) as (Hall & _);
    [simpl; lia|].
  destruct (calculateScore_extremes sampleQuestions (handleAnswerSelect [] 5 "2"))
    as (_ & Hnone & _); [simpl; lia|].
  split.
  - apply Hall. intros i q Hq. destruct i as [|[|[|i]]]; simpl in Hq;
      [injection Hq as <-; reflexivity .. | destruct i; discriminate].
  - apply Hnone. intros i q Hq. destruct i as [|[|[|i]]]; simpl in Hq;
      [injection Hq as <-; discriminate .. | destruct i; discriminate].
Defined.

End ScoringWitnesses.

(* ================================================================== *)
(** * Frontend: the most frequent reading                              *)
(* ================================================================== *)

Section Readings.

Local Open Scope string_scope.
Local Open Scope list_scope.
Local Open Scope Z_scope.

Import Quiz.

Lemma occurrences_snoc k seen e :
  occurrences k (seen ++ [e]) = occurrences k seen + (if String.eqb e k then 1 else 0).
Proof.
  unfold occurrences. rewrite count_occ_app. simpl.
  destruct (string_dec e k) as [->|Hne].
  - rewrite String.eqb_refl. lia.
  - apply String.eqb_neq in Hne. rewrite Hne. lia.
Qed.

Lemma occurrences_nonneg k seen : 0 <= occurrences k seen.
Proof. unfold occurrences. lia. Qed.

Lemma occurrences_in k seen : 0 < occurrences k seen -> In k seen.
Proof.
  unfold occurrences. intros Hpos.
  apply (count_occ_In string_dec). lia.
Qed.

Lemma frequencyOf_in k v freq : frequencyOf k freq = Some v -> In (k, v) freq.
Proof.
  induction freq as [|[k' v'] freq IH]; simpl; [discriminate|].
  destruct (String.eqb_spec k' k) as [->|Hne].
  - intros H. injection H as <-. left. reflexivity.
  - intros H. right. apply IH, H.
Qed.

Lemma in_frequencyOf k v freq :
  NoDup (map fst freq) -> In (k, v) freq -> frequencyOf k freq = Some v.
Proof.
  induction freq as [|[k' v'] freq IH]; simpl; [intros _ []|].
  intros Hnd [Heq|Hin].
  - injection Heq as -> ->. rewrite String.eqb_refl. reflexivity.
  - inversion Hnd as [|? ? Hnotin Hnd']; subst.
    destruct (String.eqb_spec k' k) as [->|Hne]; [|apply IH; assumption].
    contradiction Hnotin. apply in_map_iff. exists (k, v). split; [reflexivity | exact Hin].
Qed.

Lemma frequencyOf_none k freq : frequencyOf k freq = None -> ~ In k (map fst freq).
Proof.
  induction freq as [|[k' v'] freq IH]; simpl; [intros _ []|].
  destruct (String.eqb_spec k' k) as [->|Hne]; [discriminate|].
  intros Hnone [Heq|Hin]; [contradiction | exact (IH Hnone Hin)].
Qed.

(** With each key once, only the entries matter, not their order. *)
Lemma frequencyOf_perm k freq freq' :
  NoDup (map fst freq) -> Permutation freq freq' ->
  frequencyOf k freq' = frequencyOf k freq.
Proof.
  intros Hnd Hperm.
  assert (Hnd' : NoDup (map fst freq'))
    by (apply (Permutation_NoDup (Permutation_map fst Hperm)), Hnd).
  destruct (frequencyOf k freq) as [v|] eqn:Hf.
  - apply in_frequencyOf; [exact Hnd'|].
    apply (Permutation_in _ Hperm), frequencyOf_in, Hf.
  - destruct (frequencyOf k freq') as [v|] eqn:Hf'; [|reflexivity].
    apply frequencyOf_in in Hf'.
    apply (Permutation_in _ (Permutation_sym Hperm)) in Hf'.
    apply (in_frequencyOf _ _ _ Hnd) in Hf'. congruence.
Qed.

Lemma placeIndex_perm i e v freq : Permutation (placeIndex i e v freq) ((e, v) :: freq).
Proof.
  induction freq as [|[k w] freq IH]; simpl; [apply Permutation_refl|].
  destruct (JS.arrayIndex k) as [j|]; [|apply Permutation_refl].
  destruct (j <? i); [|apply Permutation_refl].
  apply Permutation_trans with ((k, w) :: (e, v) :: freq); [|apply perm_swap].
  apply perm_skip, IH.
Qed.

Lemma define_perm e v freq : Permutation (define e v freq) ((e, v) :: freq).
Proof.
  unfold define. destruct (JS.arrayIndex e) as [i|].
  - apply placeIndex_perm.
  - apply Permutation_sym, Permutation_cons_append.
Qed.

(** A new key: the table gains it and keeps the others. *)
Lemma define_new e v freq :
  NoDup (map fst freq) -> frequencyOf e freq = None ->
  NoDup (map fst (define e v freq))
  /\ forall k, frequencyOf k (define e v freq)
               = if String.eqb e k then Some v else frequencyOf k freq.
Proof.
  intros Hnd Hnew.
  assert (Hnd' : NoDup (map fst ((e, v) :: freq)))
    by (simpl; constructor; [apply frequencyOf_none, Hnew | exact Hnd]).
  split.
  - apply (Permutation_NoDup (Permutation_map fst (Permutation_sym (define_perm e v freq)))).
    exact Hnd'.
  - intros k.
    rewrite (frequencyOf_perm k _ _ Hnd' (Permutation_sym (define_perm e v freq))).
    reflexivity.
Qed.

(** A key of the table's own: its value grows, nothing else changes. *)
Lemma increment_spec e freq :
  match increment e freq with
  | Some freq' =>
      map fst freq' = map fst freq
      /\ exists v, frequencyOf e freq = Some v
                   /\ forall k, frequencyOf k freq'
                                = if String.eqb e k then Some (plusOne v)
                                  else frequencyOf k freq
  | None => frequencyOf e freq = None
  end.
Proof.
  induction freq as [|[k' v'] freq IH]; simpl; [reflexivity|].
  destruct (String.eqb_spec k' e) as [->|Hne].
  - split; [reflexivity|]. exists v'. split; [reflexivity|].
    intros k. simpl. destruct (String.eqb e k); reflexivity.
  - destruct (increment e freq) as [freq'|]; [|exact IH].
    destruct IH as (Hkeys & v & Hv & Hrest).
    split; [simpl; rewrite Hkeys; reflexivity|].
    exists v. split; [exact Hv|].
    intros k. simpl. rewrite Hrest.
    destruct (String.eqb_spec k' k) as [->|Hne']; [|reflexivity].
    apply not_eq_sym, String.eqb_neq in Hne. rewrite Hne. reflexivity.
Qed.

Lemma proto_is_inherited : inherited "__proto__" = true.
Proof. reflexivity. Qed.

(** One round of the counting loop keeps the table exact. *)
Lemma bump_counts e seen freq :
  countable e = true -> countsOf seen freq -> countsOf (seen ++ [e]) (bump e freq).
Proof.
  intros He [Hnd Hfreq]. unfold bump.
  pose proof (increment_spec e freq) as Hinc.
  pose proof (occurrences_nonneg e seen) as Hnonneg.
  assert (Hstep : forall k, occurrences k (seen ++ [e])
                            = occurrences k seen + (if String.eqb e k then 1 else 0))
    by (intros k; apply occurrences_snoc).
  destruct (increment e freq) as [freq'|].
  - destruct Hinc as (Hkeys & v & Hv & Hrest).
    split; [rewrite Hkeys; exact Hnd|].
    intros k. rewrite Hrest, Hstep.
    destruct (String.eqb_spec e k) as [<-|Hne]; [|rewrite Z.add_0_r; apply Hfreq].
    rewrite Hfreq, He in Hv. simpl in Hv.
    destruct (Z.ltb_spec 0 (occurrences e seen)) as [Hpos|]; [|discriminate].
    destruct (String.eqb e "__proto__"); [discriminate|]. simpl in Hv.
    injection Hv as <-. rewrite He. simpl.
    destruct (Z.ltb_spec 0 (occurrences e seen + 1)); [|lia].
    destruct (inherited e); reflexivity.
  - assert (Hfirst : occurrences e seen = 0 \/ String.eqb e "__proto__" = true).
    { rewrite Hfreq, He in Hinc. simpl in Hinc.
      destruct (Z.ltb_spec 0 (occurrences e seen)); [|left; lia].
      destruct (String.eqb e "__proto__"); [right; reflexivity | discriminate]. }
    destruct (String.eqb_spec e "__proto__") as [->|Hproto].
    + split; [exact Hnd|]. intros k. rewrite Hfreq, Hstep.
      destruct (String.eqb_spec "__proto__" k) as [<-|Hne];
        [|rewrite Z.add_0_r; reflexivity].
      rewrite !andb_false_r. reflexivity.
    + destruct Hfirst as [Hzero|Hp]; [|discriminate].
      assert (Hgoal : forall v,
                 v = (if inherited e then NotANumber else Count (occurrences e seen + 1)) ->
                 countsOf (seen ++ [e]) (define e v freq)).
      { intros v Hv. destruct (define_new e v freq Hnd Hinc) as [Hnd' Hlook].
        split; [exact Hnd'|]. intros k. rewrite Hlook, Hstep.
        destruct (String.eqb_spec e k) as [<-|Hne]; [|rewrite Z.add_0_r; apply Hfreq].
        rewrite He. simpl.
        destruct (Z.ltb_spec 0 (occurrences e seen + 1)); [|lia].
        apply String.eqb_neq in Hproto. rewrite Hproto. simpl. rewrite Hv. reflexivity. }
      destruct (inherited e) eqn:Hinh; apply Hgoal; rewrite ?Hzero; reflexivity.
Qed.

(** The counting loop keeps its table exact. *)
Lemma frequencies_counts readings seen freq :
  countsOf seen freq -> countsOf (seen ++ readings) (frequencies readings freq).
Proof.
  revert seen freq. induction readings as [|e readings IH]; intros seen freq Hc.
  - rewrite app_nil_r. exact Hc.
  - replace (seen ++ e :: readings) with ((seen ++ [e]) ++ readings)
      by (rewrite <- app_assoc; reflexivity).
    simpl. apply IH.
    destruct (countable e) eqn:He; [apply bump_counts; assumption|].
    destruct Hc as [Hnd Hfreq]. split; [exact Hnd|]. intros k.
    rewrite Hfreq, occurrences_snoc.
    destruct (String.eqb_spec e k) as [->|Hne].
    + rewrite He. reflexivity.
    + rewrite Z.add_0_r. reflexivity.
Qed.

Lemma pickMax_cons k v freq m0 r0 :
  pickMax ((k, v) :: freq) (m0, r0)
  = pickMax freq (match v with
                  | Count n => if n >? m0 then (n, k) else (m0, r0)
                  | NotANumber => (m0, r0)
                  end).
Proof. reflexivity. Qed.

(** The second loop returns the largest count, and the key that holds
    it unless no count exceeds the start. *)
Lemma pickMax_spec freq m0 r0 m r :
  pickMax freq (m0, r0) = (m, r) ->
  m0 <= m
  /\ (forall k n, In (k, Count n) freq -> n <= m)
  /\ ((m, r) = (m0, r0) \/ (In (r, Count m) freq /\ m0 < m)).
Proof.
  revert m0 r0. induction freq as [|[k v] freq IH]; intros m0 r0.
  - intros Hp. injection Hp as <- <-.
    split; [lia|]. split; [intros ? ? []|]. left. reflexivity.
  - rewrite pickMax_cons. destruct v as [n|].
    + destruct (Z.gtb_spec n m0) as [Hgt|Hle]; intros Hp.
      * destruct (IH _ _ Hp) as (Hm & Hall & Hpick).
        split; [lia|]. split.
        -- intros k' n' [Heq|Hin];
             [injection Heq as <- <-; exact Hm | exact (Hall _ _ Hin)].
        -- right. destruct Hpick as [Heq|[Hin Hlt]].
           ++ injection Heq as -> ->. split; [left; reflexivity | exact Hgt].
           ++ split; [right; exact Hin | lia].
      * destruct (IH _ _ Hp) as (Hm & Hall & Hpick).
        split; [exact Hm|]. split.
        -- intros k' n' [Heq|Hin];
             [injection Heq as <- <-; lia | exact (Hall _ _ Hin)].
        -- destruct Hpick as [Heq|[Hin Hlt]]; [left; exact Heq | right].
           split; [right; exact Hin | exact Hlt].
    + intros Hp. destruct (IH _ _ Hp) as (Hm & Hall & Hpick).
      split; [exact Hm|]. split.
      * intros k' n' [Heq|Hin]; [discriminate | exact (Hall _ _ Hin)].
      * destruct Hpick as [Heq|[Hin Hlt]]; [left; exact Heq | right].
        split; [right; exact Hin | exact Hlt].
Qed.

Lemma countsOf_start : countsOf [] [].
Proof.
  split; [constructor|]. intros k. simpl.
  destruct (countable k); reflexivity.
Qed.

Lemma getMostFrequentEmotion_pick readings :
  getMostFrequentEmotion readings
  = match readings with
    | [] => "neutral"
    | _ => snd (pickMax (frequencies readings []) (0, "neutral"))
    end.
Proof. destruct readings; reflexivity. Qed.

(** In the table of the readings, a key and its count. *)
Lemma table_entry readings k n :
  In (k, Count n) (frequencies readings []) ->
  countable k = true /\ inherited k = false /\ n = occurrences k readings /\ 0 < n.
Proof.
  intros Hin.
  destruct (frequencies_counts readings [] [] countsOf_start) as [Hnd Hfreq].
  simpl in Hfreq. apply (in_frequencyOf _ _ _ Hnd) in Hin.
  rewrite Hfreq in Hin.
  destruct (countable k); [|discriminate].
  destruct (Z.ltb_spec 0 (occurrences k readings)); [|discriminate].
  destruct (negb (String.eqb k "__proto__")); [|discriminate]. simpl in Hin.
  destruct (inherited k); [discriminate|].
  injection Hin as <-. repeat split. assumption.
Qed.

(** X5.  [getMostFrequentEmotion] returns "neutral" or one of the
    readings it was given that passes the guard of its counting loop
    (non-empty, none of the four error strings). *)
Theorem most_frequent_is_a_counted_reading (readings : list string) :
  getMostFrequentEmotion readings = "neutral"
  \/ (In (getMostFrequentEmotion readings) readings
      /\ countable (getMostFrequentEmotion readings) = true).
Proof.
  rewrite getMostFrequentEmotion_pick.
  destruct readings as [|e readings]; [left; reflexivity|].
  destruct (pickMax (frequencies (e :: readings) []) (0, "neutral")) as [m r] eqn:Hp.
  destruct (pickMax_spec _ _ _ _ _ Hp) as (_ & _ & [Heq|[Hin _]]); simpl snd.
  - left. injection Heq as _ Hr. exact Hr.
  - right. apply table_entry in Hin. destruct Hin as (Hc & _ & Hn & Hpos).
    split; [|exact Hc]. apply occurrences_in. lia.
Qed.

(** X6.  A name [freq] inherits from [Object.prototype] (constructor,
    toString, [__proto__], ...) is never counted, and so never
    returned.  Among the other readings that pass the guard none
    occurs more often than the one [getMostFrequentEmotion] returns. *)
Theorem most_frequent_is_maximal (readings : list string) (e : string) :
  countable e = true -> inherited e = false ->
  occurrences e readings <= occurrences (getMostFrequentEmotion readings) readings
  /\ inherited (getMostFrequentEmotion readings) = false.
Proof.
  intros He Hown. rewrite getMostFrequentEmotion_pick.
  destruct readings as [|e0 readings]; [unfold occurrences; simpl; split; [lia | reflexivity]|].
  set (l := e0 :: readings).
  destruct (pickMax (frequencies l []) (0, "neutral")) as [m r] eqn:Hp. simpl snd.
  pose proof (occurrences_nonneg e l) as Hnonneg.
  pose proof (occurrences_nonneg r l) as Hnonneg'.
  destruct (pickMax_spec _ _ _ _ _ Hp) as (_ & Hall & Hpick).
  assert (Hresult : inherited r = false).
  { destruct Hpick as [Heq|[Hr _]].
    - injection Heq as _ ->. reflexivity.
    - apply table_entry in Hr. tauto. }
  split; [|exact Hresult].
  destruct (Z.eq_dec (occurrences e l) 0) as [Hzero|Hpos]; [lia|].
  destruct (frequencies_counts l [] [] countsOf_start) as [Hnd Hfreq].
  simpl in Hfreq. fold l in Hfreq.
  assert (Hin : In (e, Count (occurrences e l)) (frequencies l [])).
  { apply frequencyOf_in. rewrite Hfreq, He, Hown.
    destruct (Z.ltb_spec 0 (occurrences e l)); [|lia].
    destruct (String.eqb_spec e "__proto__") as [->|]; [discriminate | reflexivity]. }
  specialize (Hall _ _ Hin).
  destruct Hpick as [Heq|[Hr _]].
  - injection Heq as Hm _. lia.
  - apply table_entry in Hr. destruct Hr as (_ & _ & Hn & _). lia.
Qed.

Lemma most_frequent_is_maximal_witness :
  occurrences "sad" ["happy"; "sad"; "constructor"; "sad"; "constructor"; "constructor"]
  <= occurrences
       (getMostFrequentEmotion
          ["happy"; "sad"; "constructor"; "sad"; "constructor"; "constructor"])
       ["happy"; "sad"; "constructor"; "sad"; "constructor"; "constructor"]
  /\ getMostFrequentEmotion
       ["happy"; "sad"; "constructor"; "sad"; "constructor"; "constructor"] = "sad".
Proof.
  split; [|reflexivity].
  apply (most_frequent_is_maximal
           ["happy"; "sad"; "constructor"; "sad"; "constructor"; "constructor"] "sad");
    reflexivity.
Defined.

(** The table lists array indices first: of two readings seen equally
    often the one that is an array index is returned, although it was
    read later; and a reading that is only an inherited name leaves the
    default. *)
Example keys_are_listed_as_the_object_lists_them :
  getMostFrequentEmotion ["happy"; "7"] = "7"
  /\ getMostFrequentEmotion ["sad"; "happy"] = "sad"
  /\ getMostFrequentEmotion ["constructor"] = "neutral"
  /\ getMostFrequentEmotion ["__proto__"; "__proto__"; "happy"] = "happy".
Proof. repeat split. Qed.

End Readings.

(* ================================================================== *)
(** * Frontend: what every session keeps                               *)
(* ================================================================== *)

Section SessionInvariants.

Local Open Scope string_scope.
Local Open Scope list_scope.
Local Open Scope Z_scope.

Import Quiz.

Lemma effects_keep_level st :
  currentLevel (captureEffect (quizEndEffect st)) = currentLevel st.
Proof.
  unfold captureEffect, quizEndEffect.
  destruct (score st) as [[| |]|] eqn:Hs; destruct (emotionDetections st);
    simpl; rewrite ?Hs; reflexivity.
Qed.

Lemma calculateNewLevel_range l s e : 1 <= calculateNewLevel l s e <= 10.
Proof. unfold calculateNewLevel. lia. Qed.

Lemma step_levelsInRange p ev p' :
  levelsInRange p -> step p ev = Some p' -> levelsInRange p'.
Proof.
  destruct p as [st|carried]; destruct ev; unfold step; try discriminate.
  - intros Hl. destruct (negb (showResults st) && _); [|discriminate].
    intros H. injection H as <-. exact Hl.
  - intros [Hc _]. destruct (negb (showResults st)); [|discriminate].
    remember (fst (handleSubmit st calculatedScore)) as submitted eqn:Hsub.
    intros H. injection H as <-. unfold levelsInRange.
    destruct (effects_frame submitted) as (_ & _ & _ & _ & Hn).
    cbv zeta in Hn. rewrite Hn, effects_keep_level. subst submitted. simpl.
    split; [exact Hc | apply calculateNewLevel_range].
  - intros [_ Hn]. destruct (showResults st && _); [|discriminate].
    intros H. injection H as <-. unfold handleNextQuiz.
    destruct (consecutiveFailures st >=? 3); simpl; [exact I | split; exact Hn].
  - intros [_ Hn]. destruct (showResults st && _); [|discriminate].
    intros H. injection H as <-. exact Hn.
  - intros Hl H. injection H as <-. unfold handleTakeQuiz, levelsInRange.
    destruct carried as [[| |]|]; simpl in *; lia.
Qed.

Lemma run_levelsInRange events p p' :
  levelsInRange p -> run p events = Some p' -> levelsInRange p'.
Proof.
  revert p. induction events as [|ev events IH]; intros p Hp; simpl.
  - intros H. injection H as <-. exact Hp.
  - destruct (step p ev) as [q|] eqn:Hstep; [|discriminate].
    apply IH. exact (step_levelsInRange _ _ _ Hp Hstep).
Qed.

(** X7.  In a session started at a level in 1..10 the level of the quiz
    in progress and the recommended next level stay in 1..10, so both
    have a known difficulty label; and when the results view offers the
    review content, reviewing and coming back starts the quiz at the
    recommended next level. *)
Theorem session_keeps_levels (quizLevel : Z) (events : list Event) (st : State) :
  1 <= quizLevel <= 10 ->
  run (QuizPage (mount quizLevel)) events = Some (QuizPage st) ->
  1 <= currentLevel st <= 10
  /\ 1 <= nextLevel st <= 10
  /\ getDifficultyText (currentLevel st) <> "Unknown"
  /\ getDifficultyText (nextLevel st) <> "Unknown"
  /\ (showResults st = true -> showReviewContent st = true ->
      run (QuizPage st) [ReviewContent; BackToQuiz] = Some (QuizPage (mount (nextLevel st)))).
Proof.
  intros Hl Hrun.
  assert (Hstart : levelsInRange (QuizPage (mount quizLevel))) by (simpl; lia).
  pose proof (run_levelsInRange _ _ _ Hstart Hrun) as [Hc Hn].
  split; [exact Hc|]. split; [exact Hn|].
  split; [|split].
  - intros Hu. apply getDifficultyText_unknown in Hu. lia.
  - intros Hu. apply getDifficultyText_unknown in Hu. lia.
  - intros Hshown Hreview. unfold run, step. rewrite Hshown, Hreview. simpl.
    unfold handleTakeQuiz. destruct (nextLevel st); simpl; try reflexivity. lia.
Qed.

Lemma session_keeps_levels_witness :
  exists st,
    run (QuizPage (mount 2)) [Submit 20; TakeNextQuiz; Submit 40] = Some (QuizPage st)
    /\ 1 <= currentLevel st <= 10
    /\ 1 <= nextLevel st <= 10
    /\ run (QuizPage st) [ReviewContent; BackToQuiz] = Some (QuizPage (mount (nextLevel st))).
Proof.
  eexists. split; [reflexivity|].
  match goal with
  | |- 1 <= currentLevel ?st <= 10 /\ _ =>
      destruct (session_keeps_levels 2 [Submit 20; TakeNextQuiz; Submit 40] st)
        as (Hc & Hn & _ & _ & Hback); [lia | reflexivity |]
  end.
  split; [exact Hc|]. split; [exact Hn|]. apply Hback; reflexivity.
Defined.

(** Witnesses of two facts proved with the sessions above. *)
Lemma next_quiz_never_reviews_witness :
  exists st st',
    run (QuizPage (mount 5)) [Submit 40] = Some (QuizPage st)
    /\ consecutiveFailures st <= 1
    /\ step (QuizPage st) TakeNextQuiz = Some (QuizPage st').
Proof.
  eexists. eexists. split; [reflexivity|].
  match goal with
  | |- consecutiveFailures ?st <= 1 /\ step _ _ = Some ?p =>
      destruct (next_quiz_never_reviews 5 [Submit 40] st p eq_refl eq_refl)
        as (Hle & _)
  end.
  split; [exact Hle | reflexivity].
Defined.

Lemma submission_carries_latest_reading_witness :
  exists st,
    run (QuizPage (mount 5))
        [EmotionDetected "Happy"; EmotionDetected "Happy"; EmotionDetected "Confused"]
    = Some (QuizPage st)
    /\ a_emotion (snd (handleSubmit st 85)) = "confused"
    /\ a_nextLevel (snd (handleSubmit st 85)) = calculateNewLevel 5 85 "confused".
Proof.
  eexists. split; [reflexivity|].
  match goal with
  | |- a_emotion (snd (handleSubmit ?st _)) = _ /\ _ =>
      exact (submission_carries_latest_reading
               5 [EmotionDetected "Happy"; EmotionDetected "Happy";
                  EmotionDetected "Confused"] st 85 eq_refl eq_refl)
  end.
Defined.

End SessionInvariants.

(* ================================================================== *)
(** * Frontend: bounds of the performance figures                      *)
(* ================================================================== *)

Section PerformanceBounds.

Local Open Scope string_scope.
Local Open Scope list_scope.
Local Open Scope Z_scope.

Import Performance.

Lemma performance_score_range (level score : Z) :
  0 <= score <= 100 -> (0 <= calculatePerformanceScore level score <= 100)%Q.
Proof.
  intros Hs. unfold calculatePerformanceScore.
  split; settle_tests; unfold Qle; simpl; lia.
Qed.

(** X10.  For a score in 0..100 the banded score lies in 0..100; from
    level 8 up it is never under 50, and under level 5 it is never above
    40. *)
Theorem performance_score_bounds (level score : Z) :
  0 <= score <= 100 ->
  (0 <= calculatePerformanceScore level score <= 100)%Q
  /\ (8 <= level -> (50 <= calculatePerformanceScore level score)%Q)
  /\ (level < 5 -> (calculatePerformanceScore level score <= 40)%Q).
Proof.
  intros Hs. unfold calculatePerformanceScore.
  split; [split | split; intros Hl]; settle_tests; unfold Qle; simpl; lia.
Qed.

Lemma performance_score_bounds_witness :
  (0 <= calculatePerformanceScore 9 30 <= 100)%Q
  /\ (50 <= calculatePerformanceScore 9 30)%Q
  /\ (calculatePerformanceScore 3 79 <= 40)%Q.
Proof.
  destruct (performance_score_bounds 9 30) as (Hr & Hhigh & _); [lia|].
  destruct (performance_score_bounds 3 79) as (_ & _ & Hlow); [lia|].
  split; [exact Hr|]. split; [apply Hhigh; lia | apply Hlow; lia].
Defined.

Lemma mastered_le_attempted quizHistory es :
  0 <= countMastered quizHistory es <= countAttempted quizHistory es.
Proof.
  unfold countMastered, countAttempted. split; [lia|].
  apply Nat2Z.inj_le, filter_length_le.
Qed.

Lemma percent_table :
  forallb (fun t =>
             forallb (fun c =>
                        (t <? c)
                        || match JS.round_percent c t with
                           | Some p => (0 <=? p) && (p <=? 100)
                                       && Bool.eqb (p =? 100) (c =? t)
                                       && Bool.eqb (p =? 0) (c =? 0)
                           | None => false
                           end)
                     (range 0 40))
          (range 1 39) = true.
Proof. vm_compute. reflexivity. Qed.

(** X11.  The completed subtopics never outnumber the attempted ones.
    With 1 to 39 attempted subtopics the overall percentage is a number
    in 0..100 that is 100 exactly when every attempted subtopic is
    completed and 0 exactly when none is. *)
Theorem overall_percentage_bounds (subjects : list Subject) (quizHistory : list Quiz) :
  let t := totals subjects quizHistory in
  0 < totalSubtopics t < 40 ->
  0 <= completedSubtopics t <= totalSubtopics t
  /\ exists p,
       overallPercentage subjects quizHistory = Some p
       /\ 0 <= p <= 100
       /\ (p = 100 <-> completedSubtopics t = totalSubtopics t)
       /\ (p = 0 <-> completedSubtopics t = 0).
Proof.
  intros t Ht.
  assert (Hc : 0 <= completedSubtopics t <= totalSubtopics t).
  { subst t. destruct (totals_counts quizHistory subjects) as [-> ->].
    apply mastered_le_attempted. }
  split; [exact Hc|].
  unfold overallPercentage. fold t.
  replace (totalSubtopics t >? 0) with true by (symmetry; apply Z.gtb_lt; lia).
  pose proof (forallb_range _ 1 39 percent_table (totalSubtopics t) ltac:(lia)) as Hrow.
  cbv beta in Hrow.
  pose proof (forallb_range _ 0 40 Hrow (completedSubtopics t) ltac:(lia)) as Hcell.
  cbv beta in Hcell.
  replace (totalSubtopics t <? completedSubtopics t) with false in Hcell
    by (symmetry; apply Z.ltb_ge; lia).
  destruct (JS.round_percent (completedSubtopics t) (totalSubtopics t)) as [p|];
    [|discriminate].
  simpl in Hcell. rewrite !andb_true_iff in Hcell.
  destruct Hcell as (((Hlo & Hhi) & H100) & H0).
  apply Z.leb_le in Hlo, Hhi. apply Bool.eqb_prop in H100, H0.
  exists p. split; [reflexivity|]. split; [lia|]. split.
  - rewrite <- !Z.eqb_eq. rewrite H100. reflexivity.
  - rewrite <- !Z.eqb_eq. rewrite H0. reflexivity.
Qed.

Lemma overall_percentage_bounds_witness :
  0 <= completedSubtopics (totals sampleSubjects sampleHistory)
    <= totalSubtopics (totals sampleSubjects sampleHistory)
  /\ exists p,
       overallPercentage sampleSubjects sampleHistory = Some p
       /\ 0 <= p <= 100
       /\ (p = 100 <-> completedSubtopics (totals sampleSubjects sampleHistory)
                        = totalSubtopics (totals sampleSubjects sampleHistory))
       /\ (p = 0 <-> completedSubtopics (totals sampleSubjects sampleHistory) = 0).
Proof.
  apply (overall_percentage_bounds sampleSubjects sampleHistory).
  vm_compute. split; reflexivity.
Defined.

End PerformanceBounds.

Section PerformancePool.

Local Open Scope string_scope.
Local Open Scope list_scope.
Local Open Scope Z_scope.

Import Performance.

Variable quizHistory : list Quiz.

Lemma subtopicStep_pool (subject : string) (acc : SubjectLoop) (subtopic : string) :
  subjectPerformanceScores
    (subtopicStep (filter (fun quiz => String.eqb (subjectName quiz) subject) quizHistory)
                  acc subtopic)
  = subjectPerformanceScores acc
    ++ map bandedScore (attemptsOf quizHistory (subject, subtopic)).
Proof.
  unfold subtopicStep, attemptsOf. simpl fst. simpl snd. rewrite filter_twice.
  destruct (filter _ quizHistory) as [|first rest]; simpl.
  - rewrite app_nil_r. reflexivity.
  - reflexivity.
Qed.

Lemma subtopics_pool (subject : string) (subs : list string) (acc : SubjectLoop) :
  subjectPerformanceScores
    (fold_left
       (subtopicStep (filter (fun quiz => String.eqb (subjectName quiz) subject)
                             quizHistory))
       subs acc)
  = subjectPerformanceScores acc
    ++ map bandedScore
         (flat_map (attemptsOf quizHistory) (map (fun x => (subject, x)) subs)).
Proof.
  revert acc. induction subs as [|t subs IH]; intros acc; simpl.
  - rewrite app_nil_r. reflexivity.
  - rewrite IH, subtopicStep_pool, map_app, app_assoc. reflexivity.
Qed.

Lemma sumQ_from (l : list Q) (a : Q) : (fold_left Qplus l a == a + sumQ l)%Q.
Proof.
  unfold sumQ. revert a. induction l as [|x l IH]; intros a; simpl.
  - ring.
  - rewrite IH, (IH (0 + x)%Q). ring.
Qed.

Lemma sumQ_cons x l : (sumQ (x :: l) == x + sumQ l)%Q.
Proof. unfold sumQ at 1. simpl. rewrite sumQ_from. ring. Qed.

Lemma sumQ_app l l' : (sumQ (l ++ l') == sumQ l + sumQ l')%Q.
Proof.
  induction l as [|x l IH]; simpl.
  - unfold sumQ at 2. simpl. ring.
  - rewrite !sumQ_cons, IH. ring.
Qed.

Lemma sumQ_bounds (l : list Q) :
  (forall x, In x l -> (0 <= x <= 100)%Q) ->
  (0 <= sumQ l <= 100 * inject_Z (Z.of_nat (List.length l)))%Q.
Proof.
  induction l as [|x l IH]; intros Hall.
  - unfold sumQ. simpl. split; [apply Qle_refl | unfold Qle; simpl; lia].
  - rewrite sumQ_cons. simpl List.length.
    rewrite Nat2Z.inj_succ, <- Z.add_1_r, inject_Z_plus.
    destruct (Hall x (or_introl eq_refl)) as [Hx0 Hx100].
    destruct IH as [Hl0 Hl100]; [intros y Hy; apply Hall; right; exact Hy|].
    split.
    + setoid_replace 0%Q with (0 + 0)%Q by ring. apply Qplus_le_compat; assumption.
    + setoid_replace (100 * (inject_Z (Z.of_nat (List.length l)) + inject_Z 1))%Q
        with (100 + 100 * inject_Z (Z.of_nat (List.length l)))%Q by ring.
      apply Qplus_le_compat; assumption.
Qed.

(** An idle subject (none of its quizzes in the history) lists no
    attempt. *)
Lemma idle_subject_lists_nothing (subject : string) (subs : list string) :
  filter (fun quiz => String.eqb (subjectName quiz) subject) quizHistory = [] ->
  flat_map (attemptsOf quizHistory) (map (fun x => (subject, x)) subs) = [].
Proof.
  intros Hnone. induction subs as [|t subs IH]; simpl; [reflexivity|].
  rewrite IH, app_nil_r. unfold attemptsOf. simpl fst. simpl snd.
  rewrite <- filter_twice, Hnone. reflexivity.
Qed.

Lemma subjectStep_pool (t : Totals) (subject : Subject) :
  let listed :=
    flat_map (attemptsOf quizHistory)
             (map (fun x => (name subject, x)) (subtopics subject)) in
  totalQuizzes (subjectStep quizHistory t subject)
  = totalQuizzes t + Z.of_nat (List.length listed)
  /\ (totalPerformanceScore (subjectStep quizHistory t subject)
      == totalPerformanceScore t + sumQ (map bandedScore listed))%Q.
Proof.
  intros listed. unfold subjectStep.
  destruct (filter (fun quiz => String.eqb (subjectName quiz) (name subject))
                   quizHistory) as [|q l] eqn:Hf.
  - subst listed. rewrite (idle_subject_lists_nothing _ _ Hf). simpl.
    split; [lia | unfold sumQ; simpl; ring].
  - cbn [totalQuizzes totalPerformanceScore]. rewrite <- Hf.
    rewrite subtopics_pool. simpl app. fold listed.
    rewrite length_map. split; reflexivity.
Qed.

Lemma subjects_pool (subjects : list Subject) (t : Totals) :
  totalQuizzes (fold_left (subjectStep quizHistory) subjects t)
  = totalQuizzes t + Z.of_nat (List.length (listedAttempts subjects quizHistory))
  /\ (totalPerformanceScore (fold_left (subjectStep quizHistory) subjects t)
      == totalPerformanceScore t
         + sumQ (map bandedScore (listedAttempts subjects quizHistory)))%Q.
Proof.
  revert t. induction subjects as [|s subjects IH]; intros t; simpl.
  - unfold listedAttempts, sumQ. simpl. split; [lia | ring].
  - destruct (IH (subjectStep quizHistory t s)) as [IHn IHs].
    destruct (subjectStep_pool t s) as [Hn Hs]. cbv zeta in Hn, Hs.
    unfold listedAttempts in *. unfold catalogue. simpl flat_map.
    fold (catalogue subjects).
    rewrite flat_map_app, length_app, map_app, sumQ_app.
    split.
    + rewrite IHn, Hn. lia.
    + rewrite IHs, Hs. ring.
Qed.

Lemma listed_in_history (subjects : list Subject) (q : Quiz) :
  In q (listedAttempts subjects quizHistory) -> In q quizHistory.
Proof.
  unfold listedAttempts. intros Hin. apply in_flat_map in Hin.
  destruct Hin as (e & _ & Hq). unfold attemptsOf in Hq.
  apply filter_In in Hq. tauto.
Qed.

End PerformancePool.

Section PerformanceAverage.

Local Open Scope string_scope.
Local Open Scope list_scope.
Local Open Scope Z_scope.

Import Performance.

Lemma names_one_entry (q : Quiz) (es : list (string * string)) :
  NoDup es -> (List.length (filter (names q) es) <= 1)%nat.
Proof.
  induction es as [|e es IH]; intros Hnd; simpl; [lia|].
  inversion Hnd as [|? ? Hnotin Hnd']; subst.
  specialize (IH Hnd').
  destruct (names q e) eqn:He; [|exact IH]. simpl.
  destruct (filter (names q) es) as [|e' rest] eqn:Hf; [simpl; lia|].
  exfalso. apply Hnotin.
  assert (Hin : In e' (filter (names q) es)) by (rewrite Hf; left; reflexivity).
  apply filter_In in Hin. destruct Hin as [Hin He'].
  unfold names in He, He'. rewrite andb_true_iff, !String.eqb_eq in He, He'.
  destruct e as [a b], e' as [a' b']. simpl in *.
  destruct He as [<- <-], He' as [<- <-]. exact Hin.
Qed.

Lemma listed_cons (q : Quiz) (quizHistory : list Quiz) (es : list (string * string)) :
  List.length (flat_map (attemptsOf (q :: quizHistory)) es)
  = (List.length (filter (names q) es)
     + List.length (flat_map (attemptsOf quizHistory) es))%nat.
Proof.
  induction es as [|e es IH]; simpl flat_map; [reflexivity|].
  rewrite !length_app, IH. unfold attemptsOf at 1. simpl filter.
  fold (names q e). fold (attemptsOf quizHistory e).
  destruct (names q e); simpl; lia.
Qed.

Lemma listed_le_history (quizHistory : list Quiz) (es : list (string * string)) :
  NoDup es ->
  (List.length (flat_map (attemptsOf quizHistory) es) <= List.length quizHistory)%nat.
Proof.
  intros Hnd. induction quizHistory as [|q quizHistory IH].
  - induction es as [|e es IHes]; simpl; [lia|].
    inversion Hnd; subst. apply IHes. assumption.
  - rewrite listed_cons. pose proof (names_one_entry q es Hnd). simpl. lia.
Qed.

(** X12.  The quizzes averaged by the performance view are exactly the
    attempts of the listed subtopics; when no subject lists a subtopic
    name twice there are no more of them than quizzes in the history;
    and when every score is in 0..100 the sum of the banded scores lies
    between 0 and 100 times their number. *)
Theorem performance_pool (subjects : list Subject) (quizHistory : list Quiz) :
  let t := totals subjects quizHistory in
  totalQuizzes t = Z.of_nat (List.length (listedAttempts subjects quizHistory))
  /\ (NoDup (catalogue subjects) ->
      totalQuizzes t <= Z.of_nat (List.length quizHistory))
  /\ ((forall q, In q quizHistory -> 0 <= score q <= 100) ->
      (0 <= totalPerformanceScore t <= 100 * inject_Z (totalQuizzes t))%Q).
Proof.
  intros t. subst t. unfold totals.
  destruct (subjects_pool quizHistory subjects
              {| totalSubtopics := 0; completedSubtopics := 0;
                 totalPerformanceScore := 0%Q; totalQuizzes := 0 |}) as [Hn Hs].
  cbn [totalQuizzes totalPerformanceScore] in Hn, Hs.
  split; [rewrite Hn; lia|]. split.
  - intros Hnd. rewrite Hn. unfold listedAttempts.
    pose proof (listed_le_history quizHistory (catalogue subjects) Hnd). lia.
  - intros Hscores. rewrite Hs, Hn. simpl Z.add.
    setoid_replace (0 + sumQ (map bandedScore (listedAttempts subjects quizHistory)))%Q
      with (sumQ (map bandedScore (listedAttempts subjects quizHistory))) by ring.
    rewrite <- (length_map bandedScore).
    apply sumQ_bounds. intros x Hx. apply in_map_iff in Hx.
    destruct Hx as (q & <- & Hq). apply listed_in_history in Hq.
    unfold bandedScore.
    destruct (performance_score_range (nextLevel q) (score q) (Hscores q Hq)) as [H0 H100].
    split; assumption.
Qed.

Lemma performance_pool_witness :
  totalQuizzes (totals sampleSubjects sampleHistory)
  = Z.of_nat (List.length (listedAttempts sampleSubjects sampleHistory))
  /\ totalQuizzes (totals sampleSubjects sampleHistory)
     <= Z.of_nat (List.length sampleHistory)
  /\ (0 <= totalPerformanceScore (totals sampleSubjects sampleHistory)
      <= 100 * inject_Z (totalQuizzes (totals sampleSubjects sampleHistory)))%Q.
Proof.
  destruct (performance_pool sampleSubjects sampleHistory) as (Hn & Hle & Hsum).
  split; [exact Hn|]. split.
  - apply Hle. vm_compute.
    repeat (constructor; [simpl; intuition discriminate|]). constructor.
  - apply Hsum. intros q [<-|[<-|[<-|[]]]]; simpl; lia.
Defined.

End PerformanceAverage.

(* ================================================================== *)
(** * Backend: unread messages                                         *)
(* ================================================================== *)

Section UnreadMessages.

Local Open Scope string_scope.
Local Open Scope list_scope.
Local Open Scope Z_scope.

Import Server.

Lemma links_swap c u a : links c u a = links u c a.
Proof. unfold links. rewrite orb_comm. reflexivity. Qed.

Lemma findAssignment_swap db c u : findAssignment db c u = findAssignment db u c.
Proof.
  unfold findAssignment. induction (assignments db) as [|a l IH]; simpl; [reflexivity|].
  rewrite links_swap, IH. reflexivity.
Qed.

(** What a send that is answered 201 has stored. *)
Lemma postChat_created now c u content att db :
  code (fst (postChat now c u content att db)) = 201 ->
  findAssignment db c u <> None
  /\ JS.trim (str content) <> ""
  /\ snd (postChat now c u content att db)
     = {| assignments := assignments db;
          messages := messages db
                      ++ [ {| m_senderId := c; m_receiverId := u;
                              m_content := JS.trim (str content); m_read := false;
                              m_attachment := att; m_createdAt := now;
                              m_updatedAt := now |} ];
          quizzesInProgress := quizzesInProgress db |}.
Proof.
  unfold postChat. destruct (negb (JS.truthy content)); [discriminate|].
  destruct (findAssignment db c u); [|discriminate]. simpl m_content.
  destruct (String.eqb (JS.trim (str content)) "") eqn:He; [discriminate|].
  intros _. apply String.eqb_neq in He. repeat split; [discriminate | exact He].
Qed.

Lemma getChat_ok now c u db :
  code (fst (getChat now c u db)) = 200 ->
  findAssignment db c u <> None
  /\ body (fst (getChat now c u db)) = History (filter (between c u) (messages db))
  /\ messages (snd (getChat now c u db)) = updateMany now u c (messages db).
Proof.
  unfold getChat. destruct (findAssignment db c u); [|discriminate].
  intros _. repeat split. discriminate.
Qed.

Lemma getChat_linked now c u db :
  findAssignment db c u <> None -> code (fst (getChat now c u db)) = 200.
Proof.
  unfold getChat. destruct (findAssignment db c u); [reflexivity | contradiction].
Qed.

Lemma postChat_linked now c u content att db :
  JS.trim content <> "" -> findAssignment db c u <> None ->
  code (fst (postChat now c u (Some content) att db)) = 201.
Proof.
  intros Hcontent Hlink.
  assert (Htruthy : JS.truthy (Some content) = true).
  { destruct content; [|reflexivity]. exfalso. apply Hcontent. reflexivity. }
  apply String.eqb_neq in Hcontent.
  unfold postChat. rewrite Htruthy. simpl negb. cbv iota.
  destruct (findAssignment db c u); [|contradiction].
  simpl m_content. simpl str. rewrite Hcontent. reflexivity.
Qed.

(** X16.  A send answered 201 appends one message, from the sender to
    the receiver, unread, holding the trimmed (and non-empty) content;
    it raises the receiver's unread count by one and leaves every other
    user's count, the assignments and the quizzes in progress as they
    were. *)
Theorem send_raises_unread_count
        (now : Z) (currentUserId userId : Id) (content attachment : JS.value) (db : DB) :
  code (fst (postChat now currentUserId userId content attachment db)) = 201 ->
  let db' := snd (postChat now currentUserId userId content attachment db) in
  (exists m, messages db' = messages db ++ [m]
             /\ m_senderId m = currentUserId /\ m_receiverId m = userId
             /\ m_content m = JS.trim (str content) /\ m_content m <> ""
             /\ m_read m = false /\ m_attachment m = attachment)
  /\ unreadCount userId db' = unreadCount userId db + 1
  /\ (forall other, other <> userId -> unreadCount other db' = unreadCount other db)
  /\ assignments db' = assignments db
  /\ quizzesInProgress db' = quizzesInProgress db.
Proof.
  intros Hcode db'. destruct (postChat_created _ _ _ _ _ _ Hcode) as (_ & Hne & Hdb).
  subst db'. rewrite Hdb. simpl. split.
  - eexists. split; [reflexivity|]. simpl. repeat split. exact Hne.
  - unfold unreadCount. simpl. split; [|split; [|split; reflexivity]].
    + rewrite filter_app, length_app. simpl. unfold unreadFor at 2. simpl.
      rewrite String.eqb_refl. simpl. lia.
    + intros other Hother. rewrite filter_app, length_app. simpl.
      unfold unreadFor at 2. simpl.
      assert (He : String.eqb userId other = false)
        by (apply String.eqb_neq; congruence).
      rewrite He. simpl. lia.
Qed.

Lemma send_raises_unread_count_witness :
  unreadCount "sam" (snd (postChat 13 "thea" "sam" (Some "  See you on Monday. ") None sampleDB))
  = unreadCount "sam" sampleDB + 1
  /\ unreadCount "thea"
       (snd (postChat 13 "thea" "sam" (Some "  See you on Monday. ") None sampleDB))
     = unreadCount "thea" sampleDB.
Proof.
  destruct (send_raises_unread_count 13 "thea" "sam" (Some "  See you on Monday. ") None
              sampleDB eq_refl) as (_ & Hup & Hothers & _).
  split; [exact Hup|]. apply Hothers. discriminate.
Defined.

Lemma length_filter_cons {A} (p : A -> bool) x l :
  List.length (filter p (x :: l))
  = ((if p x then 1 else 0) + List.length (filter p l))%nat.
Proof. simpl. destruct (p x); reflexivity. Qed.

Lemma unread_after_mark now u c w m :
  ((if unreadFor w (if unreadFrom u c m then markRead now m else m) then 1 else 0)
   + (if String.eqb c w && unreadFrom u c m then 1 else 0))%nat
  = (if unreadFor w m then 1 else 0)%nat.
Proof.
  unfold unreadFrom, unreadFor.
  destruct (String.eqb_spec (m_receiverId m) c) as [Hrc|Hrc];
    destruct (String.eqb_spec c w) as [Hcw|Hcw];
    destruct (String.eqb (m_senderId m) u); destruct (m_read m) eqn:Hread; simpl;
    rewrite ?Hread;
    destruct (String.eqb_spec (m_receiverId m) w) as [Hrw|Hrw]; simpl;
    try reflexivity; congruence.
Qed.

Lemma updateMany_counts now u c w ms :
  (List.length (filter (unreadFor w) (updateMany now u c ms))
   + (if String.eqb c w then List.length (filter (unreadFrom u c) ms) else 0))%nat
  = List.length (filter (unreadFor w) ms).
Proof.
  induction ms as [|m ms IH]; [destruct (String.eqb c w); reflexivity|].
  unfold updateMany in *. rewrite map_cons, !length_filter_cons.
  pose proof (unread_after_mark now u c w m) as Hm.
  destruct (String.eqb c w); simpl andb in Hm; cbv iota in Hm;
    set (marked := (if unreadFor w (if unreadFrom u c m then markRead now m else m)
                    then 1 else 0)%nat) in *;
    set (before := (if unreadFor w m then 1 else 0)%nat) in *.
  - set (sent := (if unreadFrom u c m then 1 else 0)%nat) in *. lia.
  - lia.
Qed.

Lemma updateMany_clears now u c ms :
  filter (unreadFrom u c) (updateMany now u c ms) = [].
Proof.
  induction ms as [|m ms IH]; simpl; [reflexivity|].
  destruct (unreadFrom u c m) eqn:Hf.
  - unfold unreadFrom at 1. simpl. rewrite andb_false_r. exact IH.
  - rewrite Hf. exact IH.
Qed.

(** X17.  A fetch answered 200 lowers the viewer's unread count by
    exactly the number of unread messages the peer had sent to the
    viewer, leaves none of them unread, and changes no other user's
    count. *)
Theorem fetch_lowers_unread_count (now : Z) (currentUserId userId : Id) (db : DB) :
  code (fst (getChat now currentUserId userId db)) = 200 ->
  let db' := snd (getChat now currentUserId userId db) in
  let fromPeer :=
    Z.of_nat (List.length (filter (unreadFrom userId currentUserId) (messages db))) in
  unreadCount currentUserId db' = unreadCount currentUserId db - fromPeer
  /\ 0 <= fromPeer <= unreadCount currentUserId db
  /\ filter (unreadFrom userId currentUserId) (messages db') = []
  /\ (forall other, other <> currentUserId ->
                    unreadCount other db' = unreadCount other db).
Proof.
  intros Hcode db' fromPeer. destruct (getChat_ok _ _ _ _ Hcode) as (_ & _ & Hms).
  subst db' fromPeer. unfold unreadCount. rewrite Hms.
  pose proof (updateMany_counts now userId currentUserId currentUserId (messages db))
    as Hn.
  rewrite String.eqb_refl in Hn.
  split; [lia|]. split; [lia|]. split; [apply updateMany_clears|].
  intros other Hother.
  pose proof (updateMany_counts now userId currentUserId other (messages db)) as Hn'.
  assert (He : String.eqb currentUserId other = false)
    by (apply String.eqb_neq; congruence).
  rewrite He in Hn'. lia.
Qed.

Lemma fetch_lowers_unread_count_witness :
  unreadCount "sam" sampleDB = 2
  /\ unreadCount "sam" (snd (getChat 13 "sam" "thea" sampleDB)) = 0
  /\ unreadCount "thea" (snd (getChat 13 "sam" "thea" sampleDB)) = 1.
Proof.
  destruct (fetch_lowers_unread_count 13 "sam" "thea" sampleDB eq_refl)
    as (Hdown & _ & _ & Hothers).
  split; [reflexivity|]. split.
  - rewrite Hdown. reflexivity.
  - rewrite Hothers; [reflexivity | discriminate].
Defined.




End UnreadMessages.

(* ================================================================== *)
(** * Backend and dashboard: resuming a quiz                           *)
(* ================================================================== *)

Section Sorting.

Local Open Scope list_scope.
Local Open Scope Z_scope.

Import Server.

Context {A : Type} (key : A -> Z).

Lemma insertDescending_perm x l : Permutation (insertDescending key x l) (x :: l).
Proof.
  induction l as [|y l IH]; simpl; [apply Permutation_refl|].
  destruct (key y <=? key x); [apply Permutation_refl|].
  apply Permutation_trans with (y :: x :: l); [|apply perm_swap].
  apply perm_skip, IH.
Qed.

Lemma sortDescending_perm l : Permutation (sortDescending key l) l.
Proof.
  induction l as [|x l IH]; simpl; [apply perm_nil|].
  apply Permutation_trans with (x :: sortDescending key l).
  - apply insertDescending_perm.
  - apply perm_skip, IH.
Qed.

Lemma filter_perm (p : A -> bool) l l' :
  Permutation l l' -> Permutation (filter p l) (filter p l').
Proof.
  induction 1 as [|x l l' _ IH|x y l|l l' l'' _ IH1 _ IH2]; simpl.
  - apply perm_nil.
  - destruct (p x); [apply perm_skip|]; exact IH.
  - destruct (p x), (p y); try apply Permutation_refl. apply perm_swap.
  - exact (Permutation_trans IH1 IH2).
Qed.

Lemma insertDescending_descending x l :
  descending key l -> descending key (insertDescending key x l).
Proof.
  induction l as [|y l IH]; simpl; [intros _; split; [intros ? []|exact I]|].
  intros [Hy Hl]. destruct (Z.leb_spec (key y) (key x)) as [Hle|Hgt]; simpl.
  - split; [|split; assumption].
    intros z [<-|Hz]; [exact Hle|]. specialize (Hy z Hz). lia.
  - split; [|apply IH, Hl].
    intros z Hz.
    apply (Permutation_in _ (insertDescending_perm x l)) in Hz.
    destruct Hz as [<-|Hz]; [lia | apply Hy, Hz].
Qed.

Lemma sortDescending_descending l : descending key (sortDescending key l).
Proof.
  induction l as [|x l IH]; simpl; [exact I|].
  apply insertDescending_descending, IH.
Qed.

End Sorting.

Section Resuming.

Local Open Scope string_scope.
Local Open Scope list_scope.
Local Open Scope Z_scope.

Import Server.

Lemma listed_quizzes subjects u db :
  map l_quiz (listQuizzesInProgress subjects u db)
  = sortDescending q_lastUpdated (filter (openOf u) (quizzesInProgress db)).
Proof.
  unfold listQuizzesInProgress. rewrite map_map. simpl. apply map_id.
Qed.

Lemma openOf_spec u q :
  openOf u q = true <-> q_userId q = u /\ q_attempted q = false.
Proof.
  unfold openOf. rewrite andb_true_iff, String.eqb_eq, negb_true_iff. tauto.
Qed.

Lemma inProgress_open u s t qs :
  filter (inProgress u s t) (filter (openOf u) qs) = filter (inProgress u s t) qs.
Proof.
  induction qs as [|q qs IH]; simpl; [reflexivity|].
  destruct (openOf u q) eqn:Ho; simpl; rewrite IH; [reflexivity|].
  destruct (inProgress u s t q) eqn:Hp; [|reflexivity].
  apply inProgress_same in Hp. destruct Hp as (Hu & _ & _ & Ha).
  assert (openOf u q = true) by (apply openOf_spec; tauto). congruence.
Qed.

Lemma listed_for_subtopic subjects u s t db :
  Permutation (filter (inProgress u s t) (map l_quiz (listQuizzesInProgress subjects u db)))
              (filter (inProgress u s t) (quizzesInProgress db)).
Proof.
  rewrite listed_quizzes, <- (inProgress_open u s t (quizzesInProgress db)).
  apply filter_perm, sortDescending_perm.
Qed.

(** X19.  The listing of the quizzes in progress holds exactly the
    user's records that are not attempted, the most recently updated
    first, each with its subject looked up in the collection. *)
Theorem listing_shows_open_records (subjects : list SubjectDoc) (userId : Id) (db : DB) :
  let listed := listQuizzesInProgress subjects userId db in
  (forall q, In q (map l_quiz listed)
             <-> In q (quizzesInProgress db)
                 /\ q_userId q = userId /\ q_attempted q = false)
  /\ descending q_lastUpdated (map l_quiz listed)
  /\ (forall e, In e listed ->
                l_subject e = populate subjects (q_subjectId (l_quiz e))
                /\ (l_subject e = None -> l_subjectName e = "" /\ l_subtopicName e = "")).
Proof.
  intros listed. subst listed. rewrite listed_quizzes. split; [|split].
  - intros q. rewrite <- openOf_spec, <- filter_In. split; intros Hin.
    + exact (Permutation_in _ (sortDescending_perm _ _) Hin).
    + exact (Permutation_in _ (Permutation_sym (sortDescending_perm _ _)) Hin).
  - apply sortDescending_descending.
  - intros e He. unfold listQuizzesInProgress in He. apply in_map_iff in He.
    destruct He as (q & <- & _). unfold withNames. simpl.
    split; [reflexivity|]. intros ->. split; reflexivity.
Qed.

Lemma complete_closes cast now u s t subject subtopic l db :
  atMostOneOpen (quizzesInProgress db) ->
  cast s = Some subject -> cast t = Some subtopic ->
  filter (inProgress u subject subtopic)
         (quizzesInProgress (snd (completeQuizInProgress cast now u s t l db))) = [].
Proof.
  intros Hinv Hcs Hct. unfold completeQuizInProgress. rewrite Hcs, Hct.
  destruct (updateFirst _ _ _) as [[y qs]|] eqn:Hup; simpl.
  - apply updateFirst_some in Hup.
    destruct Hup as (before & x & after & Hqs & Hbefore & Hx & _ & ->).
    specialize (Hinv u subject subtopic). rewrite Hqs, filter_app, Hbefore in Hinv.
    simpl in Hinv. rewrite Hx in Hinv. simpl in Hinv.
    rewrite filter_app, Hbefore. simpl. unfold inProgress at 1. simpl.
    rewrite andb_false_r.
    destruct (filter (inProgress u subject subtopic) after);
      [reflexivity | simpl in Hinv; lia].
  - apply updateFirst_none in Hup. rewrite filter_app, Hup. simpl.
    unfold inProgress. simpl. rewrite andb_false_r. reflexivity.
Qed.

(** X20.  On any database the server has reached, after a save of a
    complete payload whose two identifiers Mongoose casts to ObjectIds
    the user's listing has exactly one entry for the subtopic, holding
    the saved level and time; after the quiz is completed the listing
    has none for it.  A save with an identifier that is not an ObjectId
    is answered 500 and changes nothing. *)
Theorem saved_quiz_is_listed_until_completed
        (cast : string -> option Id)
        (asg : list TherapistAssignment) (rs : list Request) (subjects : list SubjectDoc)
        (now later : Z) (userId : Id) (subjectId subtopicId : string)
        (subject subtopic : Id) (level : Z) (sent : option Z) :
  subjectId <> "" -> subtopicId <> "" -> level <> 0 ->
  cast subjectId = Some subject -> cast subtopicId = Some subtopic ->
  let saved :=
    snd (saveQuizInProgress cast now userId (Some subjectId) (Some subtopicId)
           (Some level) (serve cast (initial asg) rs)) in
  let completed :=
    snd (completeQuizInProgress cast later userId subjectId subtopicId sent saved) in
  (exists q,
      filter (inProgress userId subject subtopic)
             (map l_quiz (listQuizzesInProgress subjects userId saved)) = [q]
      /\ q_level q = level /\ q_lastUpdated q = now)
  /\ filter (inProgress userId subject subtopic)
            (map l_quiz (listQuizzesInProgress subjects userId completed)) = []
  /\ (forall other : string,
        other <> "" -> cast other = None ->
        saveQuizInProgress cast now userId (Some subjectId) (Some other) (Some level)
                           saved
        = ({| code := 500; body := Failure "Failed to save quiz in progress" |}, saved)).
Proof.
  intros Hs Ht Hl Hcs Hct saved completed.
  pose proof (reachable_invariant cast asg rs) as Hinv.
  destruct (save_once cast now userId subjectId subtopicId subject subtopic level _
              Hinv Hs Ht Hl Hcs Hct) as (_ & q & Hq & Hlevel & _ & Hnow).
  fold saved in Hq. split; [|split].
  - exists q. split; [|split; assumption].
    apply Permutation_length_1_inv. rewrite <- Hq.
    apply Permutation_sym, listed_for_subtopic.
  - assert (Hinv' : atMostOneOpen (quizzesInProgress saved))
      by (apply save_keeps_invariant, Hinv).
    pose proof (complete_closes cast later userId subjectId subtopicId subject subtopic
                  sent saved Hinv' Hcs Hct) as Hnone.
    fold completed in Hnone.
    apply Permutation_nil. rewrite <- Hnone.
    apply Permutation_sym, listed_for_subtopic.
  - intros other Hother Hcast.
    apply save_not_an_ObjectId; try assumption. right. exact Hcast.
Qed.

Lemma saved_quiz_is_listed_until_completed_witness :
  let saved :=
    snd (saveQuizInProgress sampleCast 3 sam (Some maths) (Some fractions) (Some 6)
           (serve sampleCast (initial [])
                  [Save 1 sam (Some maths) (Some fractions) (Some 4);
                   Save 2 sam (Some physics) (Some optics) (Some 7)])) in
  (exists q,
      filter (inProgress sam maths fractions)
             (map l_quiz (listQuizzesInProgress sampleCollection sam saved)) = [q]
      /\ q_level q = 6 /\ q_lastUpdated q = 3)
  /\ filter (inProgress sam maths fractions)
            (map l_quiz
               (listQuizzesInProgress sampleCollection sam
                  (snd (completeQuizInProgress sampleCast 4 sam maths fractions None
                          saved)))) = []
  /\ saveQuizInProgress sampleCast 3 sam (Some maths) (Some "fractions") (Some 6) saved
     = ({| code := 500; body := Failure "Failed to save quiz in progress" |}, saved).
Proof.
  destruct (saved_quiz_is_listed_until_completed
              sampleCast
              [] [Save 1 sam (Some maths) (Some fractions) (Some 4);
                  Save 2 sam (Some physics) (Some optics) (Some 7)]
              sampleCollection 3 4 sam maths fractions maths fractions 6 None)
    as (Hlisted & Hdone & Hrefused); try discriminate; try reflexivity.
  split; [exact Hlisted|]. split; [exact Hdone|].
  apply Hrefused; [discriminate | reflexivity].
Defined.

End Resuming.

(* ================================================================== *)
(** * Frontend and backend: the level of a fetched quiz                *)
(* ================================================================== *)

Section FetchedLevels.

Local Open Scope string_scope.
Local Open Scope list_scope.
Local Open Scope Z_scope.

Import Server.

Lemma level_query_parses (n : Z) :
  1 <= n <= 10 ->
  JS.truthy (Some (JS.show n)) = true /\ JS.parseInt (JS.show n) = Some n.
Proof.
  intros Hn.
  assert (Hcases : n = 1 \/ n = 2 \/ n = 3 \/ n = 4 \/ n = 5
                   \/ n = 6 \/ n = 7 \/ n = 8 \/ n = 9 \/ n = 10) by lia.
  repeat (destruct Hcases as [->|Hcases]; [split; reflexivity|]).
  subst n. split; reflexivity.
Qed.

(** X14.  A [level] parameter that is the decimal of a level in 1..10
    decides the level of the fetched quiz, whatever the previous score,
    emotion and level say. *)
Theorem level_parameter_wins (n : Z) (previousScore previousEmotion previousLevel : JS.value) :
  1 <= n <= 10 ->
  quizLevel (Some (JS.show n)) previousScore previousEmotion previousLevel = n.
Proof.
  intros Hn. destruct (level_query_parses n Hn) as [Ht Hp].
  unfold quizLevel, parsedLevel. rewrite Ht. simpl str. rewrite Hp.
  destruct (Z.ltb_spec n 1); [lia|]. destruct (Z.gtb_spec n 10); [lia|]. reflexivity.
Qed.

Lemma level_parameter_wins_witness :
  quizLevel (Some (JS.show 7)) (Some "20") (Some "sad") (Some "3") = 7.
Proof. apply level_parameter_wins. lia. Defined.

Lemma fetchedLevel_same (n : Z) : 1 <= n <= 10 -> Client.fetchedLevel n = n.
Proof.
  intros Hn. destruct (level_query_parses n Hn) as [Ht Hp].
  unfold Client.fetchedLevel, quizLevel, parsedLevel. rewrite Ht. simpl str. rewrite Hp.
  destruct (Z.ltb_spec n 1); [lia|]. destruct (Z.gtb_spec n 10); [lia|]. reflexivity.
Qed.

(** X15.  In a session started at a level in 1..10 the component and
    the backend agree on the level of every quiz: the backend generates
    the first quiz at the start level and each next quiz at the level
    the component then shows as current, which is the level recommended
    after the last submission. *)
Theorem client_and_server_levels_agree
        (quizLevel : Z) (events : list Quiz.Event) (st st' : Quiz.State) :
  1 <= quizLevel <= 10 ->
  Quiz.run (Quiz.QuizPage (Quiz.mount quizLevel)) events = Some (Quiz.QuizPage st) ->
  Quiz.step (Quiz.QuizPage st) Quiz.TakeNextQuiz = Some (Quiz.QuizPage st') ->
  Client.fetchedLevel quizLevel = Quiz.currentLevel (Quiz.mount quizLevel)
  /\ Client.fetchedLevel (Quiz.nextLevel st) = Quiz.currentLevel st'
  /\ Quiz.currentLevel st' = Quiz.nextLevel st
  /\ 1 <= Quiz.currentLevel st' <= 10.
Proof.
  intros Hl Hrun Hstep.
  assert (Hstart : levelsInRange (Quiz.QuizPage (Quiz.mount quizLevel))) by (simpl; lia).
  pose proof (run_levelsInRange _ _ _ Hstart Hrun) as [_ Hn].
  assert (Hcur : Quiz.currentLevel st' = Quiz.nextLevel st).
  { unfold Quiz.step in Hstep.
    destruct (Quiz.showResults st && negb (Quiz.showReviewContent st)); [|discriminate].
    unfold Quiz.handleNextQuiz in Hstep.
    destruct (Quiz.consecutiveFailures st >=? 3); [discriminate|].
    injection Hstep as <-. reflexivity. }
  split; [apply fetchedLevel_same; exact Hl|].
  rewrite Hcur. split; [apply fetchedLevel_same; exact Hn|]. split; [reflexivity | exact Hn].
Qed.

Lemma client_and_server_levels_agree_witness :
  exists st st',
    Quiz.run (Quiz.QuizPage (Quiz.mount 5)) [Quiz.EmotionDetected "Happy"; Quiz.Submit 90]
    = Some (Quiz.QuizPage st)
    /\ Quiz.step (Quiz.QuizPage st) Quiz.TakeNextQuiz = Some (Quiz.QuizPage st')
    /\ Client.fetchedLevel (Quiz.nextLevel st) = Quiz.currentLevel st'
    /\ Quiz.currentLevel st' = 8.
Proof.
  eexists. eexists. split; [reflexivity|]. split; [reflexivity|].
  match goal with
  | |- Client.fetchedLevel (Quiz.nextLevel ?st) = Quiz.currentLevel ?st' /\ _ =>
      destruct (client_and_server_levels_agree
                  5 [Quiz.EmotionDetected "Happy"; Quiz.Submit 90] st st')
        as (_ & Hagree & _); [lia | reflexivity | reflexivity |]
  end.
  split; [exact Hagree | reflexivity].
Defined.

End FetchedLevels.

Section ResumingFromTheDashboard.

Local Open Scope string_scope.
Local Open Scope list_scope.
Local Open Scope Z_scope.

Import Server.

Lemma continueAll_some (es : list ListedQuiz) :
  (forall e, In e es ->
             exists subject, l_subject e = Some subject
                             /\ s_id subject = q_subjectId (l_quiz e)) ->
  exists cs, Client.continueAll es = Some cs
             /\ Forall2 (fun c e => resumes c (l_quiz e)) cs es.
Proof.
  induction es as [|e es IH]; intros Hall; simpl.
  - exists []. split; [reflexivity | constructor].
  - destruct (Hall e (or_introl eq_refl)) as (subject & Hsub & Hid).
    destruct IH as (cs & Hcs & Hrel); [intros e' He'; apply Hall; right; exact He'|].
    unfold Client.continueOf. rewrite Hsub, Hcs. eexists. split; [reflexivity|].
    constructor; [|exact Hrel]. unfold resumes. simpl. repeat split. exact Hid.
Qed.

Lemma continueAll_none (es : list ListedQuiz) (e : ListedQuiz) :
  In e es -> l_subject e = None -> Client.continueAll es = None.
Proof.
  induction es as [|x es IH]; intros Hin Hnone; [destruct Hin|]. simpl.
  destruct Hin as [->|Hin].
  - unfold Client.continueOf. rewrite Hnone. reflexivity.
  - rewrite (IH Hin Hnone). destruct (Client.continueOf x); reflexivity.
Qed.

Lemma filter_related {C E} (R : C -> E -> Prop) (p : C -> bool) (p' : E -> bool) cs es :
  (forall c e, R c e -> p c = p' e) ->
  Forall2 R cs es -> Forall2 R (filter p cs) (filter p' es).
Proof.
  intros Hp. induction 1 as [|c e cs es Hce _ IH]; simpl; [constructor|].
  rewrite (Hp c e Hce). destruct (p' e); [constructor; assumption | exact IH].
Qed.

Lemma populate_id subjects subjectId subject :
  populate subjects subjectId = Some subject -> s_id subject = subjectId.
Proof.
  unfold populate. intros Hf. apply find_some in Hf. destruct Hf as [_ He].
  apply String.eqb_eq, He.
Qed.

(** X21.  Leaving a quiz and coming back resumes it at the same level:
    on any database the server has reached, after [handleGoHome] in a
    quiz at a level in 1..10 whose subject and subtopic identifiers
    Mongoose casts to ObjectIds, and when every listed record names a
    subject of the collection, the dashboard shows exactly one entry
    for the subtopic, with that level; continuing from it mounts the
    quiz at that level and the backend generates the questions at that
    level. *)
Theorem quiz_resumes_at_saved_level
        (cast : string -> option Id)
        (asg : list TherapistAssignment) (rs : list Request) (subjects : list SubjectDoc)
        (now : Z) (userId : Id) (subjectId subtopicId : string) (subject subtopic : Id)
        (st : Quiz.State) (quizProgress : option Z) :
  subjectId <> "" -> subtopicId <> "" -> 1 <= Quiz.currentLevel st <= 10 ->
  cast subjectId = Some subject -> cast subtopicId = Some subtopic ->
  let db :=
    snd (handle cast (Client.handleGoHome now userId subjectId subtopicId st)
                (serve cast (initial asg) rs)) in
  let listed := listQuizzesInProgress subjects userId db in
  (forall e, In e listed -> l_subject e <> None) ->
  exists c,
    filter (forSubtopic subject subtopic) (Client.fetchInProgress listed) = [c]
    /\ Client.cl_level c = Quiz.currentLevel st
    /\ Quiz.currentLevel (Client.handleContinueLearning c quizProgress)
       = Quiz.currentLevel st
    /\ Client.fetchedLevel
         (Quiz.currentLevel (Client.handleContinueLearning c quizProgress))
       = Quiz.currentLevel st.
Proof.
  intros Hs Ht Hl Hcasts Hcastt db listed Hall.
  assert (Hl0 : Quiz.currentLevel st <> 0) by lia.
  pose proof (reachable_invariant cast asg rs) as Hinv.
  destruct (save_once cast now userId subjectId subtopicId subject subtopic
              (Quiz.currentLevel st) _ Hinv Hs Ht Hl0 Hcasts Hcastt)
    as (_ & q & Hq & Hlevel & _).
  change (snd (saveQuizInProgress cast now userId (Some subjectId) (Some subtopicId)
                 (Some (Quiz.currentLevel st)) (serve cast (initial asg) rs)))
    with db in Hq.
  (* every entry is a populated record of the user *)
  assert (Hentries : forall e, In e listed ->
            (exists subject, l_subject e = Some subject
                             /\ s_id subject = q_subjectId (l_quiz e))
            /\ openOf userId (l_quiz e) = true).
  { intros e He. specialize (Hall e He).
    unfold listed, listQuizzesInProgress in He. apply in_map_iff in He.
    destruct He as (x & <- & Hx).
    apply (Permutation_in _ (sortDescending_perm _ _)), filter_In in Hx.
    split; [|simpl; tauto].
    unfold withNames in *. simpl in *.
    destruct (populate subjects (q_subjectId x)) as [found|] eqn:Hpop;
      [|contradiction].
    exists found. split; [reflexivity | exact (populate_id _ _ _ Hpop)]. }
  destruct (continueAll_some listed) as (cs & Hcs & Hrel);
    [intros e He; apply Hentries, He|].
  set (here := fun e : ListedQuiz =>
                 String.eqb (q_subjectId (l_quiz e)) subject
                 && String.eqb (q_subtopicId (l_quiz e)) subtopic).
  assert (Hfiltered : Forall2 (fun c e => resumes c (l_quiz e))
                        (filter (forSubtopic subject subtopic) cs)
                        (filter here listed)).
  { apply filter_related; [|exact Hrel].
    intros c e (Hsub & Htop & _). unfold forSubtopic, here. rewrite Hsub, Htop.
    reflexivity. }
  assert (Hhere : map l_quiz (filter here listed) = [q]).
  { apply Permutation_length_1_inv.
    apply Permutation_trans
      with (filter (inProgress userId subject subtopic) (quizzesInProgress db));
      [rewrite Hq; apply Permutation_refl|].
    apply Permutation_sym.
    apply Permutation_trans
      with (filter (inProgress userId subject subtopic) (map l_quiz listed));
      [|apply listed_for_subtopic].
    assert (Hsame : forall es,
               (forall e, In e es -> openOf userId (l_quiz e) = true) ->
               map l_quiz (filter here es)
               = filter (inProgress userId subject subtopic) (map l_quiz es)).
    { induction es as [|e es IH]; intros Hopen; simpl; [reflexivity|].
      assert (He : here e = inProgress userId subject subtopic (l_quiz e)).
      { specialize (Hopen e (or_introl eq_refl)). unfold openOf in Hopen.
        apply andb_true_iff in Hopen. destruct Hopen as [Hu Ha].
        unfold here, inProgress. rewrite Hu, Ha, andb_true_r. reflexivity. }
      rewrite He. destruct (inProgress _ _ _ _); simpl; rewrite IH;
        try reflexivity; intros e' He'; apply Hopen; right; exact He'. }
    rewrite Hsame; [apply Permutation_refl|].
    intros e He. apply Hentries, He. }
  destruct (filter here listed) as [|e [|e' rest]]; try discriminate.
  injection Hhere as Hq'.
  inversion Hfiltered as [|c e0 cs' es' Hce Hrest Hc He]; subst.
  inversion Hrest; subst.
  exists c. unfold Client.fetchInProgress. rewrite Hcs.
  split; [symmetry; assumption|].
  destruct Hce as (_ & _ & Hclevel). rewrite Hlevel in Hclevel.
  split; [exact Hclevel|].
  assert (Hmount : Quiz.currentLevel (Client.handleContinueLearning c quizProgress)
                   = Quiz.currentLevel st).
  { unfold Client.handleContinueLearning, Quiz.startLevel. rewrite Hclevel.
    destruct (Quiz.currentLevel st); try reflexivity. lia. }
  split; [exact Hmount|]. rewrite Hmount. apply fetchedLevel_same, Hl.
Qed.

Lemma quiz_resumes_at_saved_level_witness :
  exists c,
    filter (forSubtopic maths fractions)
           (Client.fetchInProgress
              (listQuizzesInProgress sampleCollection sam
                 (snd (handle sampleCast
                              (Client.handleGoHome 3 sam maths fractions (Quiz.mount 6))
                              (serve sampleCast (initial [])
                                     [Save 1 sam (Some maths) (Some fractions) (Some 4);
                                      Save 2 sam (Some physics) (Some optics) (Some 7)])))))
    = [c]
    /\ Client.cl_level c = 6
    /\ Client.fetchedLevel (Quiz.currentLevel (Client.handleContinueLearning c None)) = 6.
Proof.
  destruct (quiz_resumes_at_saved_level
              sampleCast
              [] [Save 1 sam (Some maths) (Some fractions) (Some 4);
                  Save 2 sam (Some physics) (Some optics) (Some 7)]
              sampleCollection 3 sam maths fractions maths fractions (Quiz.mount 6) None)
    as (c & Hc & Hlevel & _ & Hfetched).
  - discriminate.
  - discriminate.
  - simpl. lia.
  - reflexivity.
  - reflexivity.
  - intros e [<-|[<-|[]]]; discriminate.
  - exists c. split; [exact Hc|]. split; [exact Hlevel | exact Hfetched].
Defined.

(** X22.  One listed record whose subject is not in the collection
    empties the dashboard's whole list. *)
Theorem missing_subject_empties_the_list
        (subjects : list SubjectDoc) (userId : Id) (db : DB) (q : QuizInProgress) :
  In q (quizzesInProgress db) ->
  q_userId q = userId -> q_attempted q = false ->
  populate subjects (q_subjectId q) = None ->
  Client.fetchInProgress (listQuizzesInProgress subjects userId db) = [].
Proof.
  intros Hin Hu Ha Hpop. unfold Client.fetchInProgress.
  rewrite (continueAll_none _ (withNames subjects q)); [reflexivity | |].
  - unfold listQuizzesInProgress. apply in_map.
    apply (Permutation_in _ (Permutation_sym (sortDescending_perm _ _))).
    apply filter_In. split; [exact Hin|]. apply openOf_spec. tauto.
  - unfold withNames. simpl. exact Hpop.
Qed.

Lemma missing_subject_empties_the_list_witness :
  Client.fetchInProgress
    (listQuizzesInProgress sampleCollection sam
       (serve sampleCast (initial [])
           [Save 1 sam (Some maths) (Some fractions) (Some 4);
            Save 2 sam (Some "64b7f0a1c2d3e4f5a6b7c9ff") (Some optics) (Some 7)]))
  = [].
Proof.
  apply (missing_subject_empties_the_list
           sampleCollection sam _
           {| q_userId := sam; q_subjectId := "64b7f0a1c2d3e4f5a6b7c9ff";
              q_subtopicId := optics; q_level := 7; q_attempted := false;
              q_lastUpdated := 2 |}).
  - right. left. reflexivity.
  - reflexivity.
  - reflexivity.
  - reflexivity.
Defined.

End ResumingFromTheDashboard.

(* ================================================================== *)
(** * Backend: assigning a therapist                                   *)
(* ================================================================== *)

Section Assignments.

Local Open Scope string_scope.
Local Open Scope list_scope.
Local Open Scope Z_scope.

Import Server.

Lemma find_last {A} (p : A -> bool) l x :
  p x = true -> find p (l ++ [x]) <> None.
Proof.
  intros Hx. induction l as [|y l IH]; simpl.
  - rewrite Hx. discriminate.
  - destruct (p y); [discriminate | exact IH].
Qed.

Lemma samePair_spec t u a :
  samePair t u a = true <-> ta_therapistId a = t /\ ta_userId a = u.
Proof. unfold samePair. rewrite andb_true_iff, !String.eqb_eq. tauto. Qed.

Lemma no_pair_not_in t u asg :
  existsb (samePair t u) asg = false ->
  ~ In (t, u) (map (fun a => (ta_therapistId a, ta_userId a)) asg).
Proof.
  intros Hnone Hin. apply in_map_iff in Hin. destruct Hin as (a & Ha & Hin).
  injection Ha as Ht Hu.
  assert (Hex : existsb (samePair t u) asg = true).
  { apply existsb_exists. exists a. split; [exact Hin|]. apply samePair_spec. tauto. }
  congruence.
Qed.

(** What an assignment answered 201 has found and stored. *)
Lemma assignTherapist_created users currentUser therapistId db :
  as_code (fst (assignTherapist users currentUser therapistId db)) = 201 ->
  u_role currentUser = role_user
  /\ (exists t, In t users /\ u_id t = therapistId /\ u_role t = role_therapist)
  /\ existsb (samePair therapistId (u_id currentUser)) (assignments db) = false
  /\ snd (assignTherapist users currentUser therapistId db)
     = {| assignments := assignments db
                         ++ [ {| ta_therapistId := therapistId;
                                 ta_userId := u_id currentUser;
                                 ta_status := active |} ];
          messages := messages db;
          quizzesInProgress := quizzesInProgress db |}.
Proof.
  unfold assignTherapist. destruct (u_role currentUser); [|discriminate].
  destruct (find _ users) as [t|] eqn:Ht; [|discriminate].
  destruct (find _ (assignments db)); [discriminate|].
  destruct (existsb _ (assignments db)) eqn:Hex; [discriminate|].
  intros _. split; [reflexivity|]. split; [|split; reflexivity].
  apply find_some in Ht. destruct Ht as [Hin Hp].
  apply andb_true_iff in Hp. destruct Hp as [Hid Hrole].
  exists t. split; [exact Hin|]. split; [apply String.eqb_eq, Hid|].
  destruct (u_role t); [discriminate | reflexivity].
Qed.

(** X23.  An assignment answered 201 was asked by a user account for
    an existing therapist account; it adds one active assignment of the
    pair, after which the two can fetch their conversation and send
    each other any message that is not blank; it keeps the pairs of the
    collection unique and touches neither messages nor quizzes. *)
Theorem assigned_pair_can_chat
        (users : list User) (currentUser : User) (therapistId : Id) (db : DB) :
  as_code (fst (assignTherapist users currentUser therapistId db)) = 201 ->
  let db' := snd (assignTherapist users currentUser therapistId db) in
  let userId := u_id currentUser in
  u_role currentUser = role_user
  /\ (exists t, In t users /\ u_id t = therapistId /\ u_role t = role_therapist)
  /\ linked db' therapistId userId
  /\ (forall now,
         code (fst (getChat now userId therapistId db')) = 200
         /\ code (fst (getChat now therapistId userId db')) = 200)
  /\ (forall now content attachment,
         JS.trim content <> "" ->
         code (fst (postChat now userId therapistId (Some content) attachment db')) = 201
         /\ code (fst (postChat now therapistId userId (Some content) attachment db'))
            = 201)
  /\ (pairsUnique (assignments db) -> pairsUnique (assignments db'))
  /\ List.length (assignments db') = S (List.length (assignments db))
  /\ messages db' = messages db
  /\ quizzesInProgress db' = quizzesInProgress db.
Proof.
  intros Hcode db' userId.
  destruct (assignTherapist_created _ _ _ _ Hcode) as (Hrole & Htherapist & Hnew & Hdb).
  subst db'. rewrite Hdb. clear Hdb Hcode.
  set (a := {| ta_therapistId := therapistId; ta_userId := userId;
               ta_status := active |}).
  set (db' := {| assignments := assignments db ++ [a]; messages := messages db;
                 quizzesInProgress := quizzesInProgress db |}).
  assert (Hfound : findAssignment db' therapistId userId <> None).
  { unfold findAssignment. simpl. apply find_last. unfold links. simpl.
    rewrite !String.eqb_refl. reflexivity. }
  assert (Hfound' : findAssignment db' userId therapistId <> None)
    by (rewrite findAssignment_swap; exact Hfound).
  split; [exact Hrole|]. split; [exact Htherapist|]. split; [|split; [|split]].
  - exists a. simpl. split; [apply in_or_app; right; left; reflexivity|].
    split; [reflexivity|]. left. split; reflexivity.
  - intros now. split; apply getChat_linked; assumption.
  - intros now content attachment Hcontent.
    split; apply postChat_linked; assumption.
  - split; [|split; [|split; reflexivity]].
    + unfold pairsUnique. simpl. intros Hunique. rewrite map_app. simpl.
      apply (Permutation_NoDup (Permutation_cons_append _ _)).
      constructor; [apply no_pair_not_in; exact Hnew | exact Hunique].
    + simpl. rewrite length_app. simpl. lia.
Qed.

Lemma assigned_pair_can_chat_witness :
  let db' := snd (assignTherapist sampleUsers {| u_id := sam; u_role := role_user |}
                    thea (initial [])) in
  linked db' thea sam
  /\ code (fst (getChat 2 thea sam db')) = 200
  /\ code (fst (postChat 2 sam thea (Some "Hello") None db')) = 201.
Proof.
  destruct (assigned_pair_can_chat sampleUsers {| u_id := sam; u_role := role_user |}
              thea (initial []) eq_refl) as (_ & _ & Hlinked & Hfetch & Hsend & _).
  split; [exact Hlinked|]. split.
  - apply Hfetch.
  - apply (Hsend 2 "Hello" None). discriminate.
Defined.

(** X24.  A pair that has an assignment, active or not, cannot be
    assigned again: the request is refused and the database stays as it
    was; when it comes from a user account and names a therapist
    account the answer is 400. *)
Theorem existing_pair_is_refused
        (users : list User) (currentUser : User) (therapistId : Id) (db : DB)
        (a : TherapistAssignment) :
  In a (assignments db) ->
  ta_therapistId a = therapistId -> ta_userId a = u_id currentUser ->
  let r := assignTherapist users currentUser therapistId db in
  as_code (fst r) <> 201
  /\ snd r = db
  /\ (u_role currentUser = role_user ->
      (exists t, In t users /\ u_id t = therapistId /\ u_role t = role_therapist) ->
      fst r = {| as_code := 400;
                 as_body := AssignFailure "Already assigned to this therapist" |}).
Proof.
  intros Hin Ht Hu r.
  assert (Hex : existsb (samePair therapistId (u_id currentUser)) (assignments db) = true).
  { apply existsb_exists. exists a. split; [exact Hin|]. apply samePair_spec. tauto. }
  subst r. unfold assignTherapist.
  destruct (u_role currentUser) eqn:Hrole.
  - destruct (find _ users) as [t|] eqn:Hfind.
    + destruct (find _ (assignments db)).
      * split; [discriminate|]. split; reflexivity.
      * rewrite Hex. split; [discriminate|]. split; reflexivity.
    + split; [discriminate|]. split; [reflexivity|].
      intros _ (t & Htin & Htid & Htrole). exfalso.
      pose proof (find_none _ _ Hfind t Htin) as Hnone. simpl in Hnone.
      rewrite Htid, String.eqb_refl, Htrole in Hnone. discriminate.
  - split; [discriminate|]. split; [reflexivity|]. discriminate.
Qed.

Lemma existing_pair_is_refused_witness :
  let db := snd (assignTherapist sampleUsers {| u_id := sam; u_role := role_user |}
                   thea (initial [])) in
  fst (assignTherapist sampleUsers {| u_id := sam; u_role := role_user |} thea db)
  = {| as_code := 400; as_body := AssignFailure "Already assigned to this therapist" |}
  /\ snd (assignTherapist sampleUsers {| u_id := sam; u_role := role_user |} thea db) = db.
Proof.
  destruct (existing_pair_is_refused
              sampleUsers {| u_id := sam; u_role := role_user |} thea
              (snd (assignTherapist sampleUsers {| u_id := sam; u_role := role_user |}
                      thea (initial [])))
              {| ta_therapistId := thea; ta_userId := sam; ta_status := active |})
    as (_ & Hsame & Hcode).
  - left. reflexivity.
  - reflexivity.
  - reflexivity.
  - split; [|exact Hsame]. apply Hcode; [reflexivity|].
    exists {| u_id := thea; u_role := role_therapist |}.
    split; [right; left; reflexivity | split; reflexivity].
Defined.

End Assignments.

(* ================================================================== *)
(** * Backend: the store of quiz results                               *)
(* ================================================================== *)

Section QuizResults.

Local Open Scope string_scope.
Local Open Scope list_scope.
Local Open Scope Z_scope.

Import Server.

Lemma no_match_no_find {A} (p : A -> bool) l : filter p l = [] -> find p l = None.
Proof.
  induction l as [|x l IH]; simpl; [reflexivity|].
  destruct (p x); [discriminate | exact IH].
Qed.

Lemma find_skips {A} (p : A -> bool) before l :
  find p before = None -> find p (before ++ l) = find p l.
Proof.
  induction before as [|x before IH]; simpl; [reflexivity|].
  destruct (p x); [discriminate | exact IH].
Qed.






Variable isValid : string -> bool.


Lemma post_valid now u s t b store result :
  isValid s = true -> isValid t = true -> validated now b = Some result ->
  let r := postQuizResults isValid now u s t b store in
  rr_code (fst r) = 200
  /\ getQuizResults u s t (snd r) = getQuizResults u s t store ++ [result].
Proof.
  intros Hs Ht Hv r. subst r. unfold postQuizResults. rewrite Hs, Ht, Hv. simpl orb.
  cbv iota.
  destruct (updateFirst _ _ store) as [[y store']|] eqn:Hup; simpl.
  - split; [reflexivity|]. apply updateFirst_some in Hup.
    destruct Hup as (before & x & after & -> & Hbefore & Hx & _ & ->).
    unfold getQuizResults.
    rewrite !find_skips by (apply no_match_no_find, Hbefore). simpl.
    rewrite Hx.
    replace (sameTriple u s t _) with true by (symmetry; exact Hx).
    reflexivity.
  - split; [reflexivity|]. apply updateFirst_none in Hup.
    unfold getQuizResults. rewrite (no_match_no_find _ _ Hup).
    rewrite find_skips by (apply no_match_no_find, Hup). simpl.
    unfold sameTriple. simpl. rewrite !String.eqb_refl. reflexivity.
Qed.

Lemma post_invalid now u s t b store :
  isValid s = true -> isValid t = true -> validated now b = None ->
  let r := postQuizResults isValid now u s t b store in
  rr_code (fst r) = 500 /\ snd r = store.
Proof.
  intros Hs Ht Hv r. subst r. unfold postQuizResults. rewrite Hs, Ht, Hv.
  split; reflexivity.
Qed.




End QuizResults.

Section QuizResultsOfASession.

Local Open Scope string_scope.
Local Open Scope list_scope.
Local Open Scope Z_scope.

Import Server.


(** X27.  The result of a submission reaches the store exactly when the
    reading the component holds at the click is one of the six
    enumerated emotions: then the post is answered 200 and the results
    fetched afterwards end with the score, the reading, the level of
    the quiz and the recommended next level; for any other reading
    (another label of the detector, or one of its error strings in
    lower case) the post is answered 500 and nothing is stored. *)
Theorem only_enumerated_readings_are_stored
        (isValid : string -> bool) (now : Z) (userId : Id) (subjectId subtopicId : string)
        (store : list UserQuiz) (st : Quiz.State) (calculatedScore : Z) :
  isValid subjectId = true -> isValid subtopicId = true ->
  let attempt := snd (Quiz.handleSubmit st calculatedScore) in
  let r := postQuizResults isValid now userId subjectId subtopicId
             (Client.resultBody attempt) store in
  (In (Quiz.selectedEmotion st) emotionEnum ->
   rr_code (fst r) = 200
   /\ getQuizResults userId subjectId subtopicId (snd r)
      = getQuizResults userId subjectId subtopicId store
        ++ [ {| r_score := calculatedScore;
                r_emotion := Quiz.selectedEmotion st;
                r_presentLevel := Quiz.currentLevel st;
                r_nextLevel :=
                  Quiz.calculateNewLevel (Quiz.currentLevel st) calculatedScore
                                         (Quiz.selectedEmotion st);
                r_createdAt := now |} ])
  /\ (~ In (Quiz.selectedEmotion st) emotionEnum ->
      rr_code (fst r) = 500 /\ snd r = store).
Proof.
  intros Hs Ht attempt r.
  assert (Hin : existsb (String.eqb (Quiz.selectedEmotion st)) emotionEnum = true
                <-> In (Quiz.selectedEmotion st) emotionEnum).
  { rewrite existsb_exists. split.
    - intros (x & Hx & He). apply String.eqb_eq in He. subst x. exact Hx.
    - intros Hx. exists (Quiz.selectedEmotion st). split; [exact Hx|].
      apply String.eqb_refl. }
  assert (Hv : validated now (Client.resultBody attempt)
               = if existsb (String.eqb (Quiz.selectedEmotion st)) emotionEnum
                 then Some {| r_score := calculatedScore;
                              r_emotion := Quiz.selectedEmotion st;
                              r_presentLevel := Quiz.currentLevel st;
                              r_nextLevel :=
                                Quiz.calculateNewLevel (Quiz.currentLevel st)
                                  calculatedScore (Quiz.selectedEmotion st);
                              r_createdAt := now |}
                 else None) by reflexivity.
  destruct (existsb (String.eqb (Quiz.selectedEmotion st)) emotionEnum) eqn:He.
  - split; [intros _ | intros Hnot; exfalso; apply Hnot, Hin; reflexivity].
    exact (post_valid isValid now userId subjectId subtopicId _ store _ Hs Ht Hv).
  - split; [intros Hyes; apply Hin in Hyes; discriminate|].
    intros _. exact (post_invalid isValid now userId subjectId subtopicId _ store Hs Ht Hv).
Qed.

Lemma only_enumerated_readings_are_stored_witness :
  exists st,
    Quiz.run (Quiz.QuizPage (Quiz.mount 5)) [Quiz.EmotionDetected "Surprise"]
    = Some (Quiz.QuizPage st)
    /\ rr_code (fst (postQuizResults sampleIsValid 9 sam maths fractions
                       (Client.resultBody (snd (Quiz.handleSubmit st 85))) sampleStore))
       = 500
    /\ snd (postQuizResults sampleIsValid 9 sam maths fractions
              (Client.resultBody (snd (Quiz.handleSubmit st 85))) sampleStore)
       = sampleStore.
Proof.
  eexists. split; [reflexivity|].
  match goal with
  | |- rr_code (fst (postQuizResults _ _ _ _ _
                       (Client.resultBody (snd (Quiz.handleSubmit ?st _))) _)) = _ /\ _ =>
      destruct (only_enumerated_readings_are_stored
                  sampleIsValid 9 sam maths fractions sampleStore st 85 eq_refl eq_refl)
        as [_ Hlost]
  end.
  apply Hlost. simpl. intuition discriminate.
Defined.

End QuizResultsOfASession.

(* ================================================================== *)
(** * Backend: the quiz history                                        *)
(* ================================================================== *)

Section QuizHistory.

Local Open Scope string_scope.
Local Open Scope list_scope.
Local Open Scope Z_scope.

Import Server.

Variable isValid : string -> bool.
Variable subjects : list SubjectDoc.




End QuizHistory.

Section QuizHistorySample.

Local Open Scope string_scope.
Local Open Scope list_scope.
Local Open Scope Z_scope.

Import Server.


End QuizHistorySample.

(* ================================================================== *)
(** * Backend: an angry user in the fallback                           *)
(* ================================================================== *)

Section AngryFallback.

Local Open Scope Z_scope.

Lemma fallback_ignores_anger_witness :
  fallbackLevel 5 85 angry = clamp 1 10 (5 + backendScoreDelta 85)
  /\ fallbackLevel 5 85 angry = 6.
Proof.
  split; [apply fallback_ignores_anger; lia | reflexivity].
Defined.

End AngryFallback.
